(** * Game Theory Teaching Platform: the backend glue layer

    A shallow embedding of [backend/session_manager.py],
    [backend/game_factory.py], [backend/models.py] and [backend/main.py],
    together with models of the analytical engine ([game_engine]) that the
    backend calls.

    Conventions
    - Python [dict]s that arrive in a request body are kept as association
      lists in insertion order (the order decides which value wins when two
      string keys parse to the same integer); every other dictionary is a
      [gmap].
    - A Python [float] is modelled by an exact rational ([Qc]); the spec
      speaks of real payoffs and real quantities.
    - A function that may raise returns [result]; a handler returns an
      [http] value and threads the session store explicitly. *)

From Stdlib Require Import ZArith QArith Qcanon List String Ascii Lia.
From stdpp Require Import base option list sorting gmap strings pretty.

Local Open Scope Z_scope.
Local Open Scope string_scope.
Local Open Scope list_scope.

(** ** Exceptions and results *)

Inductive exn : Type :=
  | ValueError (msg : string)
  | KeyError (key : string)
  | IndexError (msg : string)
  | InvalidAction (msg : string)
  | MissingPayoff (msg : string)
  | InvalidParameters (msg : string)
  | MissingStrategy (msg : string)
  | NotImplementedError.

Inductive result (A : Type) : Type :=
  | Ok (a : A)
  | Raise (e : exn).
Arguments Ok {A} a.
Arguments Raise {A} e.

Definition rbind {A B} (r : result A) (k : A → result B) : result B :=
  match r with
  | Ok a => k a
  | Raise e => Raise e
  end.

Definition rfmap {A B} (f : A → B) (r : result A) : result B :=
  match r with
  | Ok a => Ok (f a)
  | Raise e => Raise e
  end.

Notation "'let*' x ':=' r 'in' k" := (rbind r (λ x, k))
  (at level 10, x pattern, r at level 100, k at level 200,
   format "'[v' 'let*'  x  ':='  r  'in' '/' k ']'").

(** [for x in l: acc = f(acc, x)] where the body may raise. *)
Fixpoint rfold {A B} (f : A → B → result A) (acc : A) (l : list B) : result A :=
  match l with
  | [] => Ok acc
  | x :: l' => let* acc' := f acc x in rfold f acc' l'
  end.

(** [[f(x) for x in l]] where [f] may raise. *)
Fixpoint rmap {A B} (f : A → result B) (l : list A) : result (list B) :=
  match l with
  | [] => Ok []
  | x :: l' => let* y := f x in let* ys := rmap f l' in Ok (y :: ys)
  end.

(** ** session_manager.py *)

Module SessionManager.
Section Store.
(** [Game] instances are opaque to the store. *)
Context {Game : Type}.

(** The dictionary stored under a session id:
[{"game": game, "game_type": game_type, "created_at": None}]. *)
Record session : Type := Session {
game : Game;
game_type : string;
created_at : option Z;
}.

(** [self.sessions: Dict[str, Dict[str, Any]]] *)
Record t : Type := Make { sessions : gmap string session }.

(** [__init__] *)
Definition init : t := Make ∅.

(** [create_session(session_id, game, game_type)].  [uuid] is the value
[str(uuid.uuid4())] would produce; it is only used when no id is
supplied. *)
Definition create_session (uuid : string) (session_id : option string)
(g : Game) (gt : string) (self : t) : string * t :=
let sid := match session_id with None => uuid | Some s => s end in
(sid, Make (<[sid := Session g gt None]> (sessions self))).

(** [get_session(session_id)]: [self.sessions.get(session_id)]. *)
Definition get_session (session_id : string) (self : t) : option session :=
sessions self !! session_id.

(** [delete_session(session_id)] *)
Definition delete_session (session_id : string) (self : t) : bool * t :=
if decide (session_id ∈ dom (sessions self))
then (true, Make (delete session_id (sessions self)))
else (false, self).

(** [list_sessions()] *)
Definition list_sessions (self : t) : list string :=
(map_to_list (sessions self)).*1.
End Store.
Arguments session : clear implicits.
Arguments t : clear implicits.
End SessionManager.

(** ** Python built-ins used by the backend *)

Module Py.
(** Strings are sequences of 7-bit characters.  On a string with other
    characters [int] and [repr] follow the Unicode tables (further digits,
    further spaces, printable characters), which have no counterpart here;
    [plain_key] below delimits the strings on which this module speaks for
    Python. *)

(** Characters [int] skips around an ASCII literal: tab, line feed,
    vertical tab, form feed, carriage return and space. *)
Definition is_space (c : ascii) : bool :=
  let n := N_of_ascii c in
  ((9 <=? n) && (n <=? 13) || (n =? 32))%N.

Definition digit_val (c : ascii) : option Z :=
  let n := N_of_ascii c in
  if ((48 <=? n) && (n <=? 57))%N then Some (Z.of_N n - 48) else None.

Fixpoint lstrip (s : list ascii) : list ascii :=
  match s with
  | c :: s' => if is_space c then lstrip s' else s
  | [] => []
  end.

Definition strip (s : list ascii) : list ascii :=
  rev (lstrip (rev (lstrip s))).

(** Decimal digits, where single underscores may separate digits.
    [prev] tells whether the previous character was a digit. *)
Fixpoint digits (acc : Z) (prev : bool) (s : list ascii) : option Z :=
  match s with
  | [] => if prev then Some acc else None
  | c :: s' =>
      if decide (c = "_"%char)
      then (if prev then digits acc false s' else None)
      else match digit_val c with
           | Some d => digits (10 * acc + d) true s'
           | None => None
           end
  end.

Definition int_of_chars (s : list ascii) : option Z :=
  match strip s with
  | c :: s' =>
      if decide (c = "-"%char) then Z.opp <$> digits 0 false s'
      else if decide (c = "+"%char) then digits 0 false s'
      else digits 0 false (c :: s')
  | [] => None
  end.

Definition single_quote : ascii := ascii_of_N 39.
Definition double_quote : ascii := ascii_of_N 34.
Definition backslash : ascii := ascii_of_N 92.

Definition hex_digit (n : N) : ascii :=
  if (n <? 10)%N then ascii_of_N (48 + n) else ascii_of_N (87 + n).

(** One character inside [repr(s)]: the quote in use and the backslash are
    escaped, tab, line feed and carriage return have their letters, every
    other control character is written as two hexadecimal digits. *)
Definition repr_char (quote c : ascii) : list ascii :=
  let n := N_of_ascii c in
  if decide (c = quote ∨ c = backslash) then [backslash; c]
  else if (n =? 9)%N then [backslash; "t"%char]
  else if (n =? 10)%N then [backslash; "n"%char]
  else if (n =? 13)%N then [backslash; "r"%char]
  else if ((n <? 32) || (127 <=? n))%N
       then [backslash; "x"%char; hex_digit (n / 16); hex_digit (n mod 16)]
  else [c].

(** [repr(s)]: double quotes are used when [s] holds a single quote and no
    double quote, single quotes otherwise. *)
Definition repr (s : string) : string :=
  let cs := list_ascii_of_string s in
  let quote :=
    if bool_decide (single_quote ∈ cs) && negb (bool_decide (double_quote ∈ cs))
    then double_quote else single_quote in
  string_of_list_ascii (quote :: (cs ≫= repr_char quote) ++ [quote]).

(** The message of the [ValueError] that [int(s)] raises on a malformed
    literal; the format [%.200R] cuts the [repr] after 200 characters. *)
Definition int_error (s : string) : string :=
  "invalid literal for int() with base 10: "
  +:+ string_of_list_ascii (take 200 (list_ascii_of_string (repr s))).

(** [int(s)] for a [str] argument, base 10.  The interpreter's limit on the
    length of a decimal literal (4300 digits unless reconfigured) is not part
    of the function; see [plain_key]. *)
Definition int (s : string) : result Z :=
  match int_of_chars (list_ascii_of_string s) with
  | Some z => Ok z
  | None => Raise (ValueError (int_error s))
  end.

(** The keys on which [int] and [repr] above are Python's: 7-bit characters
    only, and short enough for the limit on decimal literals to stay out of
    play. *)
Definition plain_key (s : string) : Prop :=
  (String.length s ≤ 4300)%nat
  ∧ Forall (λ c, (N_of_ascii c < 128)%N) (list_ascii_of_string s).

#[global] Instance plain_key_dec s : Decision (plain_key s) :=
  and_dec _ _.

(** [str(i)] for an [int] argument. *)
Definition str (i : Z) : string := pretty i.

(** [s.split(sep)] for a one-character separator. *)
Fixpoint split (sep : ascii) (s : string) : list string :=
  match s with
  | EmptyString => [""]
  | String c s' =>
      if decide (c = sep) then "" :: split sep s'
      else match split sep s' with
           | w :: ws => String c w :: ws
           | [] => [String c ""]
           end
  end.

(** [sep.join(parts)] *)
Fixpoint join (sep : ascii) (parts : list string) : string :=
  match parts with
  | [] => ""
  | [w] => w
  | w :: ws => w +:+ String sep (join sep ws)
  end.

(** [sorted(l)] on integers. *)
Definition sorted (l : list Z) : list Z := merge_sort Z.le l.

(** [l[i]] *)
Definition index {A} (l : list A) (i : nat) : result A :=
  match l !! i with
  | Some x => Ok x
  | None => Raise (IndexError "list index out of range")
  end.

(** Request dictionaries: association lists in insertion order. *)
Definition dict (K V : Type) : Type := list (K * V).

Section Dict.
Context {K V : Type} `{EqDecision K}.

(** [d.get(k)] *)
Fixpoint get (d : dict K V) (k : K) : option V :=
  match d with
  | [] => None
  | (k', v) :: d' => if decide (k = k') then Some v else get d' k
  end.

(** [d.get(k, default)] *)
Definition get_default (d : dict K V) (k : K) (dflt : V) : V :=
  default dflt (get d k).

(** [d[k] = v]: an existing key keeps its position. *)
Fixpoint set (d : dict K V) (k : K) (v : V) : dict K V :=
  match d with
  | [] => [(k, v)]
  | (k', v') :: d' =>
      if decide (k = k') then (k, v) :: d' else (k', v') :: set d' k v
  end.

(** [k in d] *)
Definition mem (d : dict K V) (k : K) : bool := bool_decide (is_Some (get d k)).
End Dict.

(** [d[k]] on a string-keyed dictionary. *)
Definition getitem {V} (d : dict string V) (k : string) : result V :=
  match get d k with
  | Some v => Ok v
  | None => Raise (KeyError k)
  end.

(** [{int(k): v for k, v in d.items()}] *)
Definition int_keys {V} (d : dict string V) : result (gmap Z V) :=
  rfold (λ acc '(k, v), let* i := int k in Ok (<[i := v]> acc)) ∅ d.

(** [{str(k): v for k, v in d.items()}] *)
Definition str_keys {V} (d : gmap Z V) : gmap string V := kmap str d.
End Py.

(** [str(e)]: the message of the exception; a [KeyError] prints the [repr]
    of its key. *)
Definition exn_str (e : exn) : string :=
  match e with
  | ValueError m | IndexError m | InvalidAction m | MissingPayoff m
  | InvalidParameters m | MissingStrategy m => m
  | KeyError k => Py.repr k
  | NotImplementedError => ""
  end.

(** JSON-like values carried by [Dict[str, Any]] fields. *)
#[warnings="-register-all"]
Inductive json : Type :=
  | JNone
  | JBool (b : bool)
  | JNum (q : Qc)
  | JStr (s : string)
  | JList (l : list json)
  | JDict (d : list (string * json)).

(** Integers as floats. *)
Definition Qc_of_Z (z : Z) : Qc := Q2Qc (inject_Z z).

(** ** models.py *)

Module CreateGameRequest.
Record t : Type := Make {
  game_type : string;
  params : Py.dict string json;
  player_names : option (list string);
  strategies : option (list string);
}.
End CreateGameRequest.

Module CreateGameResponse.
Record t : Type := Make {
  session_id : string;
  game_type : string;
  game_state : Py.dict string json;
}.
End CreateGameResponse.

Module PlayRoundRequest.
(** [actions: Dict[str, str]], player id to action. *)
Record t : Type := Make { actions : Py.dict string string }.
End PlayRoundRequest.

(** One element of a response's [history] list:
    [{"profile": [...], "payoffs": {...}}]. *)
Record history_item : Type := HistoryItem {
  item_profile : list string;
  item_payoffs : gmap string Qc;
}.

Module PlayRoundResponse.
Record t : Type := Make {
  payoffs : gmap string Qc;
  game_state : Py.dict string json;
  history : list history_item;
}.
End PlayRoundResponse.

Module SimulateRequest.
Record t : Type := Make {
  num_rounds : Z;
  discount_factor : option Qc;
}.
End SimulateRequest.

Module SimulateResponse.
Record t : Type := Make {
  history : list history_item;
  cumulative_payoffs : gmap string Qc;
  discounted_payoffs : option (gmap string Qc);
  strategy_history : list (gmap string string);
}.
End SimulateResponse.

Module NashEquilibriumRequest.
Record t : Type := Make {
  payoff_matrix : Py.dict string (list Qc);
  player_actions : Py.dict string (list string);
}.
End NashEquilibriumRequest.

(** A mixed equilibrium: for every player id, a probability for each of
    that player's actions. *)
Definition mixed_equilibrium : Type := list (Z * list (string * Qc)).

Module NashEquilibriumResponse.
Record t : Type := Make {
  pure_equilibria : list (list string);
  mixed_equilibria : list mixed_equilibrium;
}.
End NashEquilibriumResponse.

Module CournotEquilibriumRequest.
Record t : Type := Make {
  demand_intercept : Qc;
  demand_slope : Qc;
  marginal_costs : Py.dict string Qc;
}.

(** Field defaults: [demand_intercept: float = 100.0],
    [demand_slope: float = 1.0]. *)
Definition default_demand_intercept : Qc := Qc_of_Z 100.
Definition default_demand_slope : Qc := Qc_of_Z 1.

(** Building the request from a body in which the two defaulted fields
    may be absent. *)
Definition of_body (intercept slope : option Qc)
    (costs : Py.dict string Qc) : t :=
  Make (default default_demand_intercept intercept)
       (default default_demand_slope slope)
       costs.
End CournotEquilibriumRequest.

Module CournotEquilibriumResponse.
Record t : Type := Make {
  equilibrium_quantities : gmap string Qc;
  equilibrium_price : Qc;
  payoffs : gmap string Qc;
}.
End CournotEquilibriumResponse.

Module BestResponseRequest.
Record t : Type := Make {
  payoff_matrix : Py.dict string (list Qc);
  player_actions : Py.dict string (list string);
}.
End BestResponseRequest.

(** A node and an edge of the deviation graph. *)
Record graph_node : Type := GraphNode {
  node_id : Z;
  node_profile : list string;
  node_payoffs : list Qc;
}.

Record graph_edge : Type := GraphEdge {
  edge_source : Z;
  edge_target : Z;
  edge_player : Z;
  edge_action : string;
}.

Module BestResponseResponse.
Record t : Type := Make {
  nodes : list graph_node;
  edges : list graph_edge;
  nash_nodes : list Z;
}.
End BestResponseResponse.

(** ** game_engine: strategies, players, normal-form games

    The package [game_engine] is imported by the backend; what follows is
    its behaviour as the specification describes it. *)

(** Modelled from the spec: a HistoryEntry (section 3), that is, a played
    round: the action profile (one action per player, ascending
    player id) and the payoff of every player. *)
Definition history_entry : Type := list string * gmap Z Qc.

(** Modelled from the spec: the strategy classes of
    [game_engine.strategies] (section 4.2), a closed set of variants.
    [RandomStrategy] carries its injected random source: the draw made at
    each history length.  [DummyStrategy] is the local subclass that
    [main.py] defines for the analysis handlers. *)
Inductive Strategy : Type :=
  | AlwaysCooperate
  | AlwaysDefect
  | TitForTat
  | GrimTrigger
  | RandomStrategy (source : nat → nat)
  | DummyStrategy.

(** Modelled from the spec: [game_engine.core.Player] (section 3), an id,
    a display name and an optional bound strategy. *)
Record Player : Type := MkPlayer {
  player_id : Z;
  player_name : string;
  player_strategy : option Strategy;
}.

Module Strategies.
(** Modelled from the spec: the cooperative action, named in the
    trajectory of section 8. *)
Definition cooperate : string := "Cooperate".

(** Modelled from the spec: the defecting action (section 8). *)
Definition defect : string := "Defect".

(** Modelled from the spec: the opponents' actions a strategy looks at
    (section 4.2), that is,
    the actions of the players other than [pid] in a history entry; the
    profile lists the players by ascending id. *)
Definition opponent_actions (pid : Z) (e : history_entry) : list string :=
  let ids := Py.sorted (elements (dom e.2)) in
  snd <$> filter (λ ia, ia.1 ≠ pid) (zip ids e.1).

(** Modelled from the spec: [Strategy.choose(player_id, history)]
    (section 4.2).  [legal] is the player's action set, which only
    [RandomStrategy] consults. *)
Definition choose (s : Strategy) (pid : Z) (h : list history_entry)
    (legal : list string) : result string :=
  match s with
  | AlwaysCooperate => Ok cooperate
  | AlwaysDefect => Ok defect
  | TitForTat =>
      match last h with
      | None => Ok cooperate
      | Some e => Ok (default cooperate (head (opponent_actions pid e)))
      end
  | GrimTrigger =>
      if bool_decide (Exists (λ e, defect ∈ opponent_actions pid e) h)
      then Ok defect else Ok cooperate
  | RandomStrategy source =>
      match legal !! (source (length h) `mod` length legal)%nat with
      | Some a => Ok a
      | None => Raise (IndexError "Cannot choose from an empty sequence")
      end
  | DummyStrategy => Raise NotImplementedError
  end.
End Strategies.

Module NormalFormGame.
(** Modelled from the spec: [game_engine.normal_form.NormalFormGame]
    (sections 3 and 4.1): players, per-player action sets, the payoff
    table keyed by action profile, and the append-only history. *)
Record t : Type := Make {
  players : list Player;
  actions : gmap Z (list string);
  payoff_matrix : gmap (list string) (gmap Z Qc);
  history : list history_entry;
}.

(** Modelled from the spec: the constructor
    [NormalFormGame(players, actions, payoff_matrix)]; a new game has an
    empty history. *)
Definition new (ps : list Player) (acts : gmap Z (list string))
    (pm : gmap (list string) (gmap Z Qc)) : t :=
  Make ps acts pm [].

(** Modelled from the spec: the order of an ActionProfile (section 3),
    the players by ascending id. *)
Definition player_ids (g : t) : list Z := Py.sorted (player_id <$> players g).

(** Modelled from the spec: an action is legal when it is a member of
    that player's action set (section 4.1). *)
Definition legal (g : t) (i : Z) (a : string) : bool :=
  match actions g !! i with
  | Some acts => bool_decide (a ∈ acts)
  | None => false
  end.

(** Modelled from the spec: [NormalFormGame.play_round(actions)]
    (section 4.1).  Every supplied action must be legal for its player
    and every player must have one ([InvalidAction] otherwise); the
    profile must be in the payoff table ([MissingPayoff] otherwise); on
    success one entry is appended to the history.  A failed call leaves
    the game as it was. *)
Definition play_round (chosen : gmap Z string) (g : t)
    : result (gmap Z Qc) * t :=
  if negb (forallb (λ ia, legal g ia.1 ia.2) (map_to_list chosen))
  then (Raise (InvalidAction "Invalid action"), g)
  else
    match rmap (λ i, match chosen !! i with
                     | Some a => Ok a
                     | None => Raise (InvalidAction ("Missing action for player " +:+ Py.str i))
                     end) (player_ids g) with
    | Raise e => (Raise e, g)
    | Ok profile =>
        match payoff_matrix g !! profile with
        | None => (Raise (MissingPayoff ("No payoff for profile " +:+ Py.join "," profile)), g)
        | Some payoffs =>
            (Ok payoffs,
             Make (players g) (actions g) (payoff_matrix g)
                  (history g ++ [(profile, payoffs)]))
        end
    end.

(** Modelled from the spec: [NormalFormGame.reset()] (section 4.1)
    clears the history and keeps players and payoff table. *)
Definition reset (g : t) : t :=
  Make (players g) (actions g) (payoff_matrix g) [].
End NormalFormGame.

(** What [serialize_game_state] reads from a game after its [isinstance]
    tests: [get_payoff_matrix_dict()] and [actions] of a normal-form game,
    the demand parameters and costs of a Cournot game. *)
Inductive game_view : Type :=
  | NormalFormView (payoff_matrix_dict : json) (actions : gmap Z (list string))
  | CournotView (demand_intercept demand_slope : Qc) (marginal_costs : gmap Z Qc)
  | OtherView.

(** Modelled from the spec: the abstract class [game_engine.core.Game], the
    interface through which the handlers and the simulator drive a stored
    game.  Methods that mutate the game return the new game; a method that
    raises still returns the game it leaves behind. *)
Class Game (G : Type) : Type := {
  game_players : G → list Player;
  game_legal_actions : G → Z → list string;
  game_play_round : gmap Z string → G → result (gmap Z Qc) * G;
  game_history : G → list history_entry;
  game_reset : G → G;
  game_get_state : G → Py.dict string json;
  game_view_of : G → game_view;
}.

(** Modelled from the spec: what section 3 says of every game's history:
    a played round appends exactly one entry, a failed one appends
    nothing, and only [reset] clears the history. *)
Class GameLaws (G : Type) `{Game G} : Prop := {
  play_round_history chosen g :
    match game_play_round chosen g with
    | (Ok payoffs, g') =>
        ∃ profile, game_history g' = game_history g ++ [(profile, payoffs)]
    | (Raise _, g') => game_history g' = game_history g
    end;
  play_round_players chosen g :
    game_players (game_play_round chosen g).2 = game_players g;
  reset_history g : game_history (game_reset g) = [];
}.

Section NormalFormInstance.
(** [get_state] and [get_payoff_matrix_dict] are not described by the
    spec; they are taken as given. *)
Variable get_state : NormalFormGame.t → Py.dict string json.
Variable get_payoff_matrix_dict : NormalFormGame.t → json.

(** Modelled from the spec: [NormalFormGame] as a subclass of [Game]. *)
Definition normal_form_game : Game NormalFormGame.t := {|
  game_players := NormalFormGame.players;
  game_legal_actions g i := default [] (NormalFormGame.actions g !! i);
  game_play_round := NormalFormGame.play_round;
  game_history := NormalFormGame.history;
  game_reset := NormalFormGame.reset;
  game_get_state := get_state;
  game_view_of g :=
    NormalFormView (get_payoff_matrix_dict g) (NormalFormGame.actions g);
|}.
End NormalFormInstance.

(** ** game_engine.repeated *)

Module Repeated.
(** Modelled from the spec: the dictionary [simulate_repeated_game]
    returns (section 4.6). *)
Record t : Type := Make {
  history : list history_entry;
  cumulative_payoffs : gmap Z Qc;
  discounted_payoffs : option (gmap Z Qc);
  strategy_history : list (gmap Z string);
}.

Section Simulator.
Context {G : Type} `{Game G}.

(** Modelled from the spec: the running totals (section 4.6),
    [acc[i] += w * payoffs[i]] for every player [i] of [acc]. *)
Definition accumulate (w : Qc) (payoffs acc : gmap Z Qc) : gmap Z Qc :=
  map_imap (λ i v, Some (v + w * default 0 (payoffs !! i))%Qc) acc.

(** Modelled from the spec: the totals before the first round, zero for
    every player (section 8). *)
Definition zero_payoffs (g : G) : gmap Z Qc :=
  list_to_map ((λ p, (player_id p, 0%Qc)) <$> game_players g).

(** Modelled from the spec: one simultaneous move (section 4.6).
    Every player's bound strategy is asked for its action, all of them
    on the history as it stands before the round. *)
Definition choose_all (g : G) : result (gmap Z string) :=
  rfold (λ acc p,
           match player_strategy p with
           | None =>
               Raise (MissingStrategy
                        ("Player " +:+ Py.str (player_id p) +:+ " has no strategy"))
           | Some s =>
               let* a := Strategies.choose s (player_id p) (game_history g)
                           (game_legal_actions g (player_id p)) in
               Ok (<[player_id p := a]> acc)
           end) ∅ (game_players g).

(** Modelled from the spec: the sequential rounds of section 4.6, here
    rounds [k, k+1, ..., k+n-1]. *)
Fixpoint run_rounds (n k : nat) (delta : option Qc) (acc : t) (g : G)
    : result t * G :=
  match n with
  | O => (Ok acc, g)
  | S n' =>
      match choose_all g with
      | Raise e => (Raise e, g)
      | Ok chosen =>
          match game_play_round chosen g with
          | (Raise e, g') => (Raise e, g')
          | (Ok payoffs, g') =>
              run_rounds n' (S k) delta
                (Make (game_history g')
                      (accumulate 1 payoffs (cumulative_payoffs acc))
                      (match delta, discounted_payoffs acc with
                       | Some d, Some acc_d =>
                           Some (accumulate (d ^ k)%Qc payoffs acc_d)
                       | _, _ => None
                       end)
                      (strategy_history acc ++ [chosen]))
                g'
          end
      end
  end.

(** Modelled from the spec: [simulate_repeated_game(game, num_rounds,
    discount_factor, reset_between_runs)] of [game_engine.repeated]
    (section 4.6).  A player without a bound strategy fails the call
    with [MissingStrategy]; [reset_between_runs] clears the history
    before the run, otherwise the run continues from the history the
    game already has. *)
Definition simulate_repeated_game (g : G) (num_rounds : Z)
    (discount_factor : option Qc) (reset_between_runs : bool)
    : result t * G :=
  match list_find (λ p, player_strategy p = None) (game_players g) with
  | Some (_, p) =>
      (Raise (MissingStrategy
                ("Player " +:+ Py.str (player_id p) +:+ " has no strategy")), g)
  | None =>
      let g0 := if reset_between_runs then game_reset g else g in
      run_rounds (Z.to_nat num_rounds) 0 discount_factor
        (Make (game_history g0) (zero_payoffs g0)
              ((λ _, zero_payoffs g0) <$> discount_factor) [])
        g0
  end.
End Simulator.
End Repeated.

(** ** game_engine.solvers *)

(** Exact linear algebra over the rationals, used by the mixed-equilibrium
    search: Gauss-Jordan elimination on an augmented matrix. *)
Module Linear.
(** Modelled from the spec: a row of an indifference system
    (section 4.3), coefficients followed by the right-hand side. *)
Definition row : Type := list Qc.

(** Modelled from the spec: a coefficient of such a row. *)
Definition entry (r : row) (c : nat) : Qc := default 0%Qc (r !! c).

(** Modelled from the spec: pivot search for solving the system; the
    first row with a non-zero entry in column [c], and the others. *)
Fixpoint find_pivot (c : nat) (rows : list row) : option (row * list row) :=
  match rows with
  | [] => None
  | r :: rs =>
      if bool_decide (entry r c = 0%Qc)
      then '(p, rest) ← find_pivot c rs; Some (p, r :: rest)
      else Some (r, rs)
  end.

(** Modelled from the spec: row scaling for solving the system. *)
Definition scale (k : Qc) (r : row) : row := (λ x, k * x)%Qc <$> r.

(** Modelled from the spec: row elimination, [r - r[c] * p]. *)
Definition eliminate (c : nat) (p r : row) : row :=
  zip_with (λ x y, x - entry r c * y)%Qc r p.

(** Modelled from the spec: an equation that holds trivially. *)
Definition is_zero_row (r : row) : bool := forallb (λ x, bool_decide (x = 0%Qc)) r.

(** Modelled from the spec: solving the indifference system
    (section 4.3), singular systems being discarded.
    One pivot per column; [solved] holds the pivot rows of the columns
    already treated.  [None] when a column has no pivot (the solution is
    not unique) or when an equation is left that cannot hold. *)
Fixpoint gauss (cols : list nat) (solved todo : list row) : option (list row) :=
  match cols with
  | [] => if forallb is_zero_row todo then Some solved else None
  | c :: cols' =>
      match find_pivot c todo with
      | None => None
      | Some (p, rest) =>
          let p' := scale (/ entry p c)%Qc p in
          gauss cols' ((eliminate c p' <$> solved) ++ [p'])
                (eliminate c p' <$> rest)
      end
  end.

(** Modelled from the spec: the solution of an indifference system, that
    is, the unique solution of the system with [n] unknowns whose augmented
    rows are [rows], if it has exactly one. *)
Definition solve (n : nat) (rows : list row) : option (list Qc) :=
  match gauss (seq 0 n) [] rows with
  | Some solved => Some ((λ r, entry r n) <$> solved)
  | None => None
  end.
End Linear.

Module NashSolver.
(** Modelled from the spec: the dictionary [find_all_nash] returns
    (section 4.3). *)
Record t : Type := Make {
  pure : list (list string);
  mixed : list mixed_equilibrium;
}.

(** Modelled from the spec: the full Cartesian product of the action
    sets (section 4.3), in the order of [itertools.product]. *)
Fixpoint product (ls : list (list string)) : list (list string) :=
  match ls with
  | [] => [[]]
  | l :: ls' => a ← l; (λ p, a :: p) <$> product ls'
  end.

(** Modelled from the spec: a player's action set. *)
Definition action_set (g : NormalFormGame.t) (i : Z) : result (list string) :=
  match NormalFormGame.actions g !! i with
  | Some acts => Ok acts
  | None => Raise (KeyError (Py.str i))
  end.

(** Modelled from the spec: all action profiles, players by ascending
    id (sections 3 and 4.3). *)
Definition profiles (g : NormalFormGame.t) : result (list (list string)) :=
  rfmap product (rmap (action_set g) (NormalFormGame.player_ids g)).

(** Modelled from the spec: a lookup in the payoff table; an absent
    profile is a [MissingPayoff] (section 7). *)
Definition payoff (g : NormalFormGame.t) (profile : list string) (i : Z)
    : result Qc :=
  match NormalFormGame.payoff_matrix g !! profile with
  | None => Raise (MissingPayoff ("No payoff for profile " +:+ Py.join "," profile))
  | Some row =>
      match row !! i with
      | Some v => Ok v
      | None => Raise (KeyError (Py.str i))
      end
  end.

(** Modelled from the spec: the improving moves of sections 4.3 and
    4.4, the unilateral deviations from [profile] that strictly raise the
    deviating player's payoff: position in the profile, player id and
    the alternative action. *)
Definition deviations (g : NormalFormGame.t) (profile : list string)
    : result (list (nat * Z * string)) :=
  let* ds :=
    rmap (λ '(pos, i),
            let* acts := action_set g i in
            let* u := payoff g profile i in
            let* alts :=
              rmap (λ a, let* u' := payoff g (<[pos := a]> profile) i in
                         Ok (a, bool_decide (u < u')%Qc)) acts in
            Ok ((λ ab, (pos, i, ab.1)) <$> filter (λ ab, ab.2 = true) alts))
         (imap (λ pos i, (pos, i)) (NormalFormGame.player_ids g)) in
  Ok (concat ds).

(** Modelled from the spec: the pure search of [NashSolver]
    (section 4.3): a profile is an equilibrium iff no player has a
    strictly improving alternative; ties do not disqualify. *)
Definition find_pure_nash (g : NormalFormGame.t) : result (list (list string)) :=
  let* ps := profiles g in
  let* flags :=
    rmap (λ p, let* d := deviations g p in Ok (p, bool_decide (d = []))) ps in
  Ok (fst <$> filter (λ pf, pf.2 = true) flags).

(** Modelled from the spec: the sub-lists of an action list, from which
    the supports are taken (section 4.3). *)
Fixpoint sublists {A} (l : list A) : list (list A) :=
  match l with
  | [] => [[]]
  | x :: l' => ((λ s, x :: s) <$> sublists l') ++ sublists l'
  end.

(** Modelled from the spec: the non-empty supports (section 4.3). *)
Definition supports (l : list string) : list (list string) :=
  filter (λ s, s ≠ []) (sublists l).

(** Modelled from the spec: the indifference system of section 4.3.
    The distribution over [mine] that makes the other player indifferent
    across [theirs]: for every [b] in [theirs],
    [sum_a u b a * x_a = v], and [sum_a x_a = 1].  Returns the
    probabilities in the order of [mine], and [v]. *)
Definition indifference (u : string → string → Qc) (mine theirs : list string)
    : option (list Qc * Qc) :=
  let n := length mine in
  let rows :=
    ((λ b, ((λ a, u b a) <$> mine) ++ [(- 1)%Qc; 0%Qc]) <$> theirs)
    ++ [replicate n 1%Qc ++ [0%Qc; 1%Qc]] in
  match Linear.solve (S n) rows with
  | Some sol => Some (take n sol, default 0%Qc (sol !! n))
  | None => None
  end.

(** Modelled from the spec: a sum of reals. *)
Definition qsum (l : list Qc) : Qc := foldr Qcplus 0%Qc l.

(** Modelled from the spec: the expected payoff of section 4.3, that of
    the other player's action [b] against the
    distribution [xs] over [mine]. *)
Definition expected (u : string → string → Qc) (mine : list string)
    (xs : list Qc) (b : string) : Qc :=
  qsum (zip_with (λ a x, u b a * x)%Qc mine xs).

(** Modelled from the spec: a degenerate 0/1 probability vector
    (section 4.3). *)
Definition degenerate (xs : list Qc) : bool :=
  forallb (λ x, bool_decide (x = 0%Qc ∨ x = 1%Qc)) xs.

(** Modelled from the spec: a distribution over the player's own action
    set (section 3), zero outside the support. *)
Definition spread (all mine : list string) (xs : list Qc) : list (string * Qc) :=
  (λ a, (a, default 0%Qc (Py.get (zip mine xs) a))) <$> all.

(** Modelled from the spec: one step of the mixed search (section 4.3).
    One pair of supports: both indifference systems must have a unique,
    sign-correct solution against which no unsupported action does
    better. *)
Definition mixed_for_supports (i1 i2 : Z) (a1 a2 : list string)
    (u1 u2 : string → string → Qc) (s1 s2 : list string)
    : option mixed_equilibrium :=
  (* player 1 mixes over [s1] so that player 2 is indifferent on [s2] *)
  xv ← indifference (λ b a, u2 a b) s1 s2;
  (* player 2 mixes over [s2] so that player 1 is indifferent on [s1] *)
  yv ← indifference (λ a b, u1 a b) s2 s1;
  let '(xs, v2) := xv in
  let '(ys, v1) := yv in
  if forallb (λ x, bool_decide (0 ≤ x)%Qc) (xs ++ ys)
     && forallb (λ b, bool_decide (expected (λ b a, u2 a b) s1 xs b ≤ v2)%Qc) a2
     && forallb (λ a, bool_decide (expected (λ a b, u1 a b) s2 ys a ≤ v1)%Qc) a1
     && negb (degenerate xs || degenerate ys)
  then Some [(i1, spread a1 s1 xs); (i2, spread a2 s2 ys)]
  else None.

(** Modelled from the spec: the mixed search of [NashSolver]
    (section 4.3): support enumeration for two players, the empty list
    for any other number of players.  Singular or sign-violating
    systems are skipped. *)
Definition find_mixed_nash (g : NormalFormGame.t) : result (list mixed_equilibrium) :=
  match NormalFormGame.player_ids g with
  | [i1; i2] =>
      let* a1 := action_set g i1 in
      let* a2 := action_set g i2 in
      let* table :=
        rmap (λ p, let* u1 := payoff g p i1 in
                   let* u2 := payoff g p i2 in
                   Ok (p, (u1, u2)))
             (product [a1; a2]) in
      let u (k : Qc * Qc → Qc) (a b : string) : Qc :=
        default 0%Qc (k <$> Py.get table [a; b]) in
      Ok (omap (λ ss, mixed_for_supports i1 i2 a1 a2 (u fst) (u snd) ss.1 ss.2)
               (s1 ← supports a1; s2 ← supports a2; [(s1, s2)]))
  | _ => Ok []
  end.

(** Modelled from the spec: [NashSolver(game).find_all_nash()]
    (section 4.3); pure and mixed results are separate lists. *)
Definition find_all_nash (g : NormalFormGame.t) : result t :=
  let* p := find_pure_nash g in
  let* m := find_mixed_nash g in
  Ok (Make p m).
End NashSolver.

Module BestResponseAnalyzer.
(** Modelled from the spec: the dictionary [get_deviation_graph]
    returns (section 4.4). *)
Record t : Type := Make {
  nodes : list graph_node;
  edges : list graph_edge;
  nash_nodes : list Z;
}.

(** Modelled from the spec: the node of a profile (section 4.4), its
    position in the node list. *)
Definition node_index (ps : list (list string)) (p : list string) : Z :=
  match list_find (λ q, q = p) ps with
  | Some (k, _) => Z.of_nat k
  | None => -1
  end.

(** Modelled from the spec: [BestResponseAnalyzer(game)
    .get_deviation_graph()] (section 4.4): one node per profile with its
    payoff vector, one edge per strictly improving unilateral move, and
    the nodes without outgoing edge as [nash_nodes]. *)
Definition get_deviation_graph (g : NormalFormGame.t) : result t :=
  let* ps := NashSolver.profiles g in
  let* ns :=
    rmap (λ '(k, p),
            let* us := rmap (NashSolver.payoff g p) (NormalFormGame.player_ids g) in
            Ok (GraphNode (Z.of_nat k) p us))
         (imap (λ k p, (k, p)) ps) in
  let* es :=
    rmap (λ '(k, p),
            let* d := NashSolver.deviations g p in
            Ok ((λ '(pos, i, a),
                   GraphEdge (Z.of_nat k) (node_index ps (<[pos := a]> p)) i a)
                  <$> d))
         (imap (λ k p, (k, p)) ps) in
  Ok (Make ns (concat es)
           (omap (λ '(k, e), if bool_decide (e = []) then Some (Z.of_nat k) else None)
                 (imap (λ k e, (k, e)) es))).
End BestResponseAnalyzer.

(** ** game_engine.cournot *)

Module CournotGame.
(** Modelled from the spec: [game_engine.cournot.CournotGame]
    (section 3): players, linear demand [P(Q) = a - b*Q] and a marginal
    cost per player id. *)
Record t : Type := Make {
  players : list Player;
  demand_intercept : Qc;
  demand_slope : Qc;
  marginal_costs : gmap Z Qc;
}.

(** Modelled from the spec: the dictionary [compute_equilibrium]
    returns (section 4.5). *)
Record equilibrium : Type := Equilibrium {
  quantities : gmap Z Qc;
  price : Qc;
  payoffs : gmap Z Qc;
}.

(** Modelled from the spec: the total quantity, a sum of reals
    (section 4.5). *)
Definition qsum (l : list Qc) : Qc := foldr Qcplus 0%Qc l.

(** Modelled from the spec: the unconstrained solution of section 4.5,
    the solution of the first-order conditions
    [a - c_i - b * sum_j q_j - b * q_i = 0] over the firms in [active]
    (the others produce nothing). *)
Definition interior (a b : Qc) (active : list (Z * Qc)) : list (Z * Qc) :=
  let m := Qc_of_Z (Z.of_nat (length active)) in
  let total := (qsum ((λ ic, a - ic.2) <$> active) / (b * (m + 1)))%Qc in
  (λ ic, (ic.1, (a - ic.2) / b - total)%Qc) <$> active.

(** Modelled from the spec: the corner cases of section 4.5.
    Firms whose quantity comes out negative are fixed at zero and the
    system is solved again for the others; every pass removes a firm,
    so [length active] passes suffice. *)
Fixpoint reaction (fuel : nat) (a b : Qc) (active : list (Z * Qc))
    : list (Z * Qc) :=
  let qs := interior a b active in
  match fuel with
  | O => qs
  | S fuel' =>
      if forallb (λ iq, bool_decide (0 ≤ iq.2)%Qc) qs then qs
      else reaction fuel' a b
             (fst <$> filter (λ cq, (0 ≤ cq.2.2)%Qc) (zip active qs))
  end.

(** Modelled from the spec: [CournotGame.compute_equilibrium()]
    (section 4.5).  It fails with [InvalidParameters] when [a <= 0],
    [b <= 0] or the number of costs differs from the number of players;
    otherwise it reports the quantities, the market price and the
    profits [(price - c_i) * q_i]. *)
Definition compute_equilibrium (g : t) : result equilibrium :=
  if bool_decide (demand_intercept g ≤ 0)%Qc
  then Raise (InvalidParameters "Demand intercept must be positive")
  else if bool_decide (demand_slope g ≤ 0)%Qc
  then Raise (InvalidParameters "Demand slope must be positive")
  else if bool_decide (size (marginal_costs g) ≠ length (players g))
  then Raise (InvalidParameters
                "Number of marginal costs must match number of players")
  else
    let* costs :=
      rmap (λ p, match marginal_costs g !! player_id p with
                 | Some c => Ok (player_id p, c)
                 | None => Raise (KeyError (Py.str (player_id p)))
                 end) (players g) in
    let qs := reaction (length costs) (demand_intercept g) (demand_slope g) costs in
    let q (i : Z) : Qc := default 0%Qc (Py.get qs i) in
    let p := (demand_intercept g
              - demand_slope g * qsum ((λ ic, q ic.1) <$> costs))%Qc in
    Ok (Equilibrium
          (list_to_map ((λ ic, (ic.1, q ic.1)) <$> costs))
          p
          (list_to_map ((λ ic, (ic.1, (p - ic.2) * q ic.1)%Qc) <$> costs))).
End CournotGame.

(** Modelled from the spec: which Python class each error of the engine
    is caught as (section 7 names the kinds only). *)
Definition is_ValueError (e : exn) : bool :=
  match e with
  | ValueError _ | InvalidAction _ | InvalidParameters _ | MissingStrategy _ => true
  | _ => false
  end.

(** Modelled from the spec: the engine errors caught as [KeyError]. *)
Definition is_KeyError (e : exn) : bool :=
  match e with
  | KeyError _ | MissingPayoff _ => true
  | _ => false
  end.

(** ** game_factory.py *)

Module GameFactory.
(** The classes registered in [STRATEGY_MAP]. *)
Inductive strategy_class : Type :=
  | AlwaysCooperateClass
  | AlwaysDefectClass
  | TitForTatClass
  | GrimTriggerClass
  | RandomStrategyClass.

(** An entry of [AVAILABLE_GAMES]; its ["factory"] is read by
    [create_game_from_template] but never called. *)
Record game_info : Type := GameInfo {
  info_name : string;
  info_description : string;
  info_type : string;
}.

Section Factory.
Context {G : Type}.

(** [game_engine.templates] is imported, not defined here: the table
    of templates and the three constructors are taken as given, and so
    is the random source a [RandomStrategy()] starts with. *)
Variable AVAILABLE_GAMES : gmap string game_info.
Variable create_prisoners_dilemma :
  option (list string) → option (list Strategy) → json → result G.
Variable create_cournot_game :
  option (list string) → json → json → json → result G.
Variable create_auction_game :
  option (list string) → json → json → result G.
Variable random_source : nat → nat.

(** [strategy_class()] *)
Definition instantiate (c : strategy_class) : Strategy :=
  match c with
  | AlwaysCooperateClass => AlwaysCooperate
  | AlwaysDefectClass => AlwaysDefect
  | TitForTatClass => TitForTat
  | GrimTriggerClass => GrimTrigger
  | RandomStrategyClass => RandomStrategy random_source
  end.

Definition STRATEGY_MAP : Py.dict string strategy_class :=
  [ ("AlwaysCooperate", AlwaysCooperateClass);
    ("AlwaysDefect", AlwaysDefectClass);
    ("TitForTat", TitForTatClass);
    ("GrimTrigger", GrimTriggerClass);
    ("RandomStrategy", RandomStrategyClass) ].

Definition create_strategy (strategy_name : string) : result Strategy :=
  match Py.get STRATEGY_MAP strategy_name with
  | None => Raise (ValueError ("Unknown strategy: " +:+ strategy_name))
  | Some strategy_class => Ok (instantiate strategy_class)
  end.

(** [params.get(key)] and [params.get(key, default)] *)
Definition param (params : Py.dict string json) (key : string) : json :=
  Py.get_default params key JNone.

Definition create_game_from_template (game_type : string)
    (params : Py.dict string json) (player_names : option (list string))
    (strategies : option (list string)) : result G :=
  if bool_decide (game_type ∉ dom AVAILABLE_GAMES)
  then Raise (ValueError ("Unknown game type: " +:+ game_type))
  else
    let* strategy_instances :=
      match strategies with
      | None | Some [] => Ok None
      | Some names => rfmap Some (rmap create_strategy names)
      end in
    if decide (game_type = "prisoners_dilemma")
    then create_prisoners_dilemma player_names strategy_instances
           (param params "payoffs")
    else if decide (game_type = "cournot")
    then create_cournot_game player_names
           (Py.get_default params "demand_intercept" (JNum (Qc_of_Z 100)))
           (Py.get_default params "demand_slope" (JNum (Qc_of_Z 1)))
           (param params "marginal_costs")
    else if decide (game_type = "auction")
    then create_auction_game player_names
           (param params "private_values")
           (Py.get_default params "num_players" (JNum (Qc_of_Z 2)))
    else Raise (ValueError ("Unsupported game type: " +:+ game_type)).
End Factory.

(** The class an instance belongs to, for the five registered classes. *)
Definition class_of (s : Strategy) : option strategy_class :=
  match s with
  | AlwaysCooperate => Some AlwaysCooperateClass
  | AlwaysDefect => Some AlwaysDefectClass
  | TitForTat => Some TitForTatClass
  | GrimTrigger => Some GrimTriggerClass
  | RandomStrategy _ => Some RandomStrategyClass
  | DummyStrategy => None
  end.
End GameFactory.

(** ** main.py *)

(** What an endpoint answers: the response body, or an [HTTPException].
    An exception no handler catches is answered by the framework with
    status 500. *)
Inductive http (A : Type) : Type :=
  | Response (body : A)
  | HTTPException (status_code : Z) (detail : string).
Arguments Response {A} body.
Arguments HTTPException {A} status_code detail.

Definition uncaught {A} : http A := HTTPException 500 "Internal Server Error".

Module Main.
(** Body of [GET /games/{session_id}]. *)
Record session_view : Type := SessionView {
  view_session_id : string;
  view_game_type : string;
  view_game_state : Py.dict string json;
}.

(** Body of [POST /games/{session_id}/reset]. *)
Record reset_view : Type := ResetView {
  reset_message : string;
  reset_game_state : Py.dict string json;
}.

(** [{str(k): v for k, v in d.items()}] as a JSON object. *)
Definition json_of_map {V} (f : V → json) (d : gmap Z V) : json :=
  JDict ((λ kv, (Py.str kv.1, f kv.2)) <$> map_to_list d).

(** The history of a game as the responses show it. *)
Definition history_items (h : list history_entry) : list history_item :=
  (λ e, HistoryItem e.1 (Py.str_keys e.2)) <$> h.

(** The statements with which [compute_nash_equilibrium] (lines 221-232)
    and [analyze_best_response] (lines 299-309) rebuild a game from the
    request; the two handlers contain the same text. *)
Section Reconstruct.
Variable payoff_matrix : Py.dict string (list Qc).
Variable player_actions : Py.dict string (list string).

(** [sorted([int(k) for k in request.player_actions.keys()])] *)
Definition parse_player_ids : result (list Z) :=
  rfmap Py.sorted (rmap Py.int (fst <$> player_actions)).

(** [[Player(i, f"Player {i+1}", DummyStrategy()) for i in player_ids]] *)
Definition dummy_players (player_ids : list Z) : list Player :=
  (λ i, MkPlayer i ("Player " +:+ Py.str (i + 1)) (Some DummyStrategy))
    <$> player_ids.

(** [{i: request.player_actions[str(i)] for i in player_ids}] *)
Definition parse_actions (player_ids : list Z) : result (gmap Z (list string)) :=
  rfold (λ acc i,
           let* acts := Py.getitem player_actions (Py.str i) in
           Ok (<[i := acts]> acc))
        ∅ player_ids.

(** [{i: payoffs[idx] for idx, i in enumerate(player_ids)}] *)
Definition payoff_row (player_ids : list Z) (payoffs : list Qc)
    : result (gmap Z Qc) :=
  rfold (λ acc '(idx, i),
           let* v := Py.index payoffs idx in
           Ok (<[i := v]> acc))
        ∅ (imap (λ idx i, (idx, i)) player_ids).

(** The loop over [request.payoff_matrix.items()]. *)
Definition parse_payoff_matrix (player_ids : list Z)
    : result (gmap (list string) (gmap Z Qc)) :=
  rfold (λ acc '(key, payoffs),
           let profile := Py.split "," key in
           let* row := payoff_row player_ids payoffs in
           Ok (<[profile := row]> acc))
        ∅ payoff_matrix.

Definition reconstruct_game : result NormalFormGame.t :=
  let* player_ids := parse_player_ids in
  let players := dummy_players player_ids in
  let* actions := parse_actions player_ids in
  let* payoff_matrix := parse_payoff_matrix player_ids in
  Ok (NormalFormGame.new players actions payoff_matrix).

(** The three statements that read the request (lines 221, 224 and 227-230;
    299, 302 and 304-307 in the best-response handler), without the objects
    built from what they return. *)
Definition parsed_request
    : result (list Z * gmap Z (list string) * gmap (list string) (gmap Z Qc)) :=
  let* player_ids := parse_player_ids in
  let* actions := parse_actions player_ids in
  let* payoff_matrix := parse_payoff_matrix player_ids in
  Ok (player_ids, actions, payoff_matrix).
End Reconstruct.

Section Handlers.
Context {G : Type} `{Game G}.
Variable AVAILABLE_GAMES : gmap string GameFactory.game_info.
Variable create_prisoners_dilemma :
  option (list string) → option (list Strategy) → json → result G.
Variable create_cournot_game :
  option (list string) → json → json → json → result G.
Variable create_auction_game :
  option (list string) → json → json → result G.
Variable random_source : nat → nat.

(** The process-wide [session_manager]. *)
Local Abbreviation store := (SessionManager.t G).

(** A handler reads and writes the session store. *)
Definition handler (A : Type) : Type := store → http A * store.

(** A stored game is shared with its session: what a method does to the
    game is seen through the store. *)
Definition put_game (session_id : string) (s : SessionManager.session G)
    (g : G) (st : store) : store :=
  SessionManager.Make
    (<[session_id := SessionManager.Session g
                       (SessionManager.game_type s)
                       (SessionManager.created_at s)]>
       (SessionManager.sessions st)).

Definition serialize_game_state (g : G) : Py.dict string json :=
  let state := game_get_state g in
  match game_view_of g with
  | NormalFormView pm acts =>
      let state := Py.set state "game_type" (JStr "normal_form") in
      let state := Py.set state "payoff_matrix" pm in
      Py.set state "actions" (json_of_map (λ l, JList (JStr <$> l)) acts)
  | CournotView a b costs =>
      let state := Py.set state "game_type" (JStr "cournot") in
      let state := Py.set state "demand_intercept" (JNum a) in
      let state := Py.set state "demand_slope" (JNum b) in
      Py.set state "marginal_costs" (json_of_map JNum costs)
  | OtherView => Py.set state "game_type" (JStr "unknown")
  end.

(** [GET /games] *)
Definition list_games : handler (gmap string GameFactory.game_info) :=
  λ st, (Response AVAILABLE_GAMES, st).

(** [POST /games/create]; [uuid] is the id the session manager draws.
    The handler stores the session (line 96) and serialises the game
    afterwards (line 99), inside the same [try].  [game_get_state] is a
    function here, so a game whose [get_state] raises, which would leave its
    session stored behind a 400 or 500 answer, is outside this definition;
    the statements about [create_game] speak of a refusal by the factory,
    which comes before the session is stored, and of an answered request. *)
Definition create_game (uuid : string) (request : CreateGameRequest.t)
    : handler CreateGameResponse.t := λ st,
  match GameFactory.create_game_from_template AVAILABLE_GAMES
          create_prisoners_dilemma create_cournot_game create_auction_game
          random_source
          (CreateGameRequest.game_type request)
          (CreateGameRequest.params request)
          (CreateGameRequest.player_names request)
          (CreateGameRequest.strategies request) with
  | Ok game =>
      let '(session_id, st') :=
        SessionManager.create_session uuid None game
          (CreateGameRequest.game_type request) st in
      (Response (CreateGameResponse.Make session_id
                   (CreateGameRequest.game_type request)
                   (serialize_game_state game)), st')
  | Raise e =>
      if is_ValueError e then (HTTPException 400 (exn_str e), st)
      else (HTTPException 500 ("Internal server error: " +:+ exn_str e), st)
  end.

(** [GET /games/{session_id}] *)
Definition get_game_session (session_id : string) : handler session_view :=
  λ st,
  match SessionManager.get_session session_id st with
  | None => (HTTPException 404 "Session not found", st)
  | Some session =>
      (Response (SessionView session_id (SessionManager.game_type session)
                   (serialize_game_state (SessionManager.game session))), st)
  end.

(** [POST /games/{session_id}/play] *)
Definition play_round (session_id : string) (request : PlayRoundRequest.t)
    : handler PlayRoundResponse.t := λ st,
  match SessionManager.get_session session_id st with
  | None => (HTTPException 404 "Session not found", st)
  | Some session =>
      let game := SessionManager.game session in
      (* the conversion of the keys stands before the [try] *)
      match Py.int_keys (PlayRoundRequest.actions request) with
      | Raise _ => (uncaught, st)
      | Ok actions =>
          let '(r, game) := game_play_round actions game in
          let st := put_game session_id session game st in
          match r with
          | Ok payoffs =>
              (Response (PlayRoundResponse.Make
                           (Py.str_keys payoffs)
                           (serialize_game_state game)
                           (history_items (game_history game))), st)
          | Raise e =>
              if is_KeyError e || is_ValueError e
              then (HTTPException 400 ("Invalid action: " +:+ exn_str e), st)
              else (uncaught, st)
          end
      end
  end.

(** [POST /games/{session_id}/simulate] *)
Definition simulate_game (session_id : string) (request : SimulateRequest.t)
    : handler SimulateResponse.t := λ st,
  match SessionManager.get_session session_id st with
  | None => (HTTPException 404 "Session not found", st)
  | Some session =>
      let game := SessionManager.game session in
      let '(r, game) :=
        Repeated.simulate_repeated_game game
          (SimulateRequest.num_rounds request)
          (SimulateRequest.discount_factor request)
          false in
      let st := put_game session_id session game st in
      match r with
      | Ok result =>
          (Response (SimulateResponse.Make
                       (history_items (Repeated.history result))
                       (Py.str_keys (Repeated.cumulative_payoffs result))
                       (match Repeated.discounted_payoffs result with
                        | Some d =>
                            if bool_decide (d = ∅) then None
                            else Some (Py.str_keys d)
                        | None => None
                        end)
                       (Py.str_keys <$> Repeated.strategy_history result)), st)
      | Raise e =>
          (HTTPException 500 ("Simulation error: " +:+ exn_str e), st)
      end
  end.

(** [POST /games/{session_id}/reset] *)
Definition reset_game (session_id : string) : handler reset_view := λ st,
  match SessionManager.get_session session_id st with
  | None => (HTTPException 404 "Session not found", st)
  | Some session =>
      let game := game_reset (SessionManager.game session) in
      (Response (ResetView "Game reset successfully" (serialize_game_state game)),
       put_game session_id session game st)
  end.

(** [POST /equilibrium/nash] *)
Definition compute_nash_equilibrium (request : NashEquilibriumRequest.t)
    : handler NashEquilibriumResponse.t := λ st,
  match
    (let* game := reconstruct_game
                    (NashEquilibriumRequest.payoff_matrix request)
                    (NashEquilibriumRequest.player_actions request) in
     let* result := NashSolver.find_all_nash game in
     Ok (NashEquilibriumResponse.Make (NashSolver.pure result)
                                      (NashSolver.mixed result)))
  with
  | Ok response => (Response response, st)
  | Raise e => (HTTPException 400 ("Invalid request: " +:+ exn_str e), st)
  end.

(** The two firms the Cournot handler always builds. *)
Definition cournot_players : list Player :=
  [ MkPlayer 0 "Firm 1" (Some DummyStrategy);
    MkPlayer 1 "Firm 2" (Some DummyStrategy) ].

(** [POST /equilibrium/cournot] *)
Definition compute_cournot_equilibrium (request : CournotEquilibriumRequest.t)
    : handler CournotEquilibriumResponse.t := λ st,
  match
    (let* marginal_costs :=
       Py.int_keys (CournotEquilibriumRequest.marginal_costs request) in
     let game :=
       CournotGame.Make cournot_players
         (CournotEquilibriumRequest.demand_intercept request)
         (CournotEquilibriumRequest.demand_slope request)
         marginal_costs in
     let* equilibrium := CournotGame.compute_equilibrium game in
     Ok (CournotEquilibriumResponse.Make
           (Py.str_keys (CournotGame.quantities equilibrium))
           (CournotGame.price equilibrium)
           (Py.str_keys (CournotGame.payoffs equilibrium))))
  with
  | Ok response => (Response response, st)
  | Raise e => (HTTPException 400 ("Invalid request: " +:+ exn_str e), st)
  end.

(** [POST /analyze/best_response] *)
Definition analyze_best_response (request : BestResponseRequest.t)
    : handler BestResponseResponse.t := λ st,
  match
    (let* game := reconstruct_game
                    (BestResponseRequest.payoff_matrix request)
                    (BestResponseRequest.player_actions request) in
     let* graph_data := BestResponseAnalyzer.get_deviation_graph game in
     Ok (BestResponseResponse.Make
           (BestResponseAnalyzer.nodes graph_data)
           (BestResponseAnalyzer.edges graph_data)
           (BestResponseAnalyzer.nash_nodes graph_data)))
  with
  | Ok response => (Response response, st)
  | Raise e => (HTTPException 400 ("Invalid request: " +:+ exn_str e), st)
  end.
End Handlers.
End Main.

(** ** Definitions used in the statements *)

(** The dictionary a comprehension builds from its key-value pairs:
    a later pair overwrites an earlier one with the same key. *)
Definition assign_all {K V} `{Countable K} (acc : gmap K V) (kvs : list (K * V))
    : gmap K V :=
  foldl (λ acc kv, <[kv.1 := kv.2]> acc) acc kvs.

(** A request whose three distinct keys parse to two player ids. *)
Definition three_costs_request : CournotEquilibriumRequest.t :=
  CournotEquilibriumRequest.of_body None None
    [("0", Qc_of_Z 10); ("00", Qc_of_Z 20); ("1", Qc_of_Z 10)].

(** The Prisoners' Dilemma of the spec, as a request body: CC=(3,3),
    CD=(0,5), DC=(5,0), DD=(1,1). *)
Definition pd_payoff_matrix : Py.dict string (list Qc) :=
  [ ("C,C", [Qc_of_Z 3; Qc_of_Z 3]);
    ("C,D", [Qc_of_Z 0; Qc_of_Z 5]);
    ("D,C", [Qc_of_Z 5; Qc_of_Z 0]);
    ("D,D", [Qc_of_Z 1; Qc_of_Z 1]) ].

Definition pd_player_actions : Py.dict string (list string) :=
  [ ("0", ["C"; "D"]); ("1", ["C"; "D"]) ].

(** The same game as an engine object; [acts0] and [acts1] list the two
    actions of each player in the order the game was built with. *)
Definition pd_game (acts0 acts1 : list string) : NormalFormGame.t :=
  NormalFormGame.new
    [ MkPlayer 0 "Player 1" (Some DummyStrategy);
      MkPlayer 1 "Player 2" (Some DummyStrategy) ]
    {[ 0 := acts0; 1 := acts1 ]}
    {[ ["C"; "C"] := {[ 0 := Qc_of_Z 3; 1 := Qc_of_Z 3 ]};
       ["C"; "D"] := {[ 0 := Qc_of_Z 0; 1 := Qc_of_Z 5 ]};
       ["D"; "C"] := {[ 0 := Qc_of_Z 5; 1 := Qc_of_Z 0 ]};
       ["D"; "D"] := {[ 0 := Qc_of_Z 1; 1 := Qc_of_Z 1 ]} ]}.

(** The five strategy names the factory is said to register. *)
Definition registered_strategies : list string :=
  ["AlwaysCooperate"; "AlwaysDefect"; "TitForTat"; "GrimTrigger"; "RandomStrategy"].

(** Normal-form games as stored games, with an empty [get_state]. *)
Definition plain_normal_form : Game NormalFormGame.t :=
  normal_form_game (λ _, []) (λ _, JNone).

(** A table of templates with the three game types the factory handles. *)
Definition three_templates : gmap string GameFactory.game_info :=
  {[ "prisoners_dilemma" := GameFactory.GameInfo "Prisoner's Dilemma" "" "normal_form";
     "cournot" := GameFactory.GameInfo "Cournot Competition" "" "cournot";
     "auction" := GameFactory.GameInfo "Auction" "" "normal_form" ]}.

(** A store with one session, a Prisoners' Dilemma under the id ["s1"]. *)
Definition one_session (g : NormalFormGame.t) : SessionManager.t NormalFormGame.t :=
  (SessionManager.create_session "" (Some "s1") g "prisoners_dilemma"
     SessionManager.init).2.

(** How a history entry shows in a response: same profile, payoffs keyed
    by the decimal string of the player id. *)
Definition shown_as (e : history_entry) (item : history_item) : Prop :=
  item_profile item = e.1
  ∧ (∀ i, item_payoffs item !! Py.str i = e.2 !! i)
  ∧ (∀ key, is_Some (item_payoffs item !! key) → ∃ i, key = Py.str i).

(** A Prisoners' Dilemma between a [TitForTat] player and a player with
    strategy [s], in the action tokens the strategies use, with a
    history. *)
Definition repeated_pd (s : Strategy) (h : list history_entry) : NormalFormGame.t :=
  NormalFormGame.Make
    [ MkPlayer 0 "Player 1" (Some TitForTat);
      MkPlayer 1 "Player 2" (Some s) ]
    {[ 0 := ["Cooperate"; "Defect"]; 1 := ["Cooperate"; "Defect"] ]}
    {[ ["Cooperate"; "Cooperate"] := {[ 0 := Qc_of_Z 3; 1 := Qc_of_Z 3 ]};
       ["Cooperate"; "Defect"] := {[ 0 := Qc_of_Z 0; 1 := Qc_of_Z 5 ]};
       ["Defect"; "Cooperate"] := {[ 0 := Qc_of_Z 5; 1 := Qc_of_Z 0 ]};
       ["Defect"; "Defect"] := {[ 0 := Qc_of_Z 1; 1 := Qc_of_Z 1 ]} ]}
    h.

(** One earlier round in which player 1 defected. *)
Definition one_defection : list history_entry :=
  [ (["Cooperate"; "Defect"], {[ 0 := Qc_of_Z 0; 1 := Qc_of_Z 5 ]}) ].

(** Battle of the Sexes, a game with two pure and one mixed equilibrium. *)
Definition bos_game : NormalFormGame.t :=
  NormalFormGame.new
    [ MkPlayer 0 "Player 1" (Some DummyStrategy);
      MkPlayer 1 "Player 2" (Some DummyStrategy) ]
    {[ 0 := ["O"; "F"]; 1 := ["O"; "F"] ]}
    {[ ["O"; "O"] := {[ 0 := Qc_of_Z 2; 1 := Qc_of_Z 1 ]};
       ["O"; "F"] := {[ 0 := Qc_of_Z 0; 1 := Qc_of_Z 0 ]};
       ["F"; "O"] := {[ 0 := Qc_of_Z 0; 1 := Qc_of_Z 0 ]};
       ["F"; "F"] := {[ 0 := Qc_of_Z 1; 1 := Qc_of_Z 2 ]} ]}.

(** The body of an answered request, if it was answered. *)
Definition body_of {A S} (r : http A * S) : option A :=
  match r.1 with
  | Response body => Some body
  | HTTPException _ _ => None
  end.

(** The status line of an answer; a response body goes out with 200. *)
Definition status_of {A} (r : http A) : Z :=
  match r with
  | Response _ => 200
  | HTTPException status_code _ => status_code
  end.

(** What a handler that works on the session [sid] may change in the
    store: nothing but the game held by that session. *)
Definition same_sessions_but_game {G} (sid : string) (st st' : SessionManager.t G)
    : Prop :=
  dom (SessionManager.sessions st') = dom (SessionManager.sessions st)
  ∧ (∀ other, other ≠ sid →
       SessionManager.get_session other st' = SessionManager.get_session other st)
  ∧ SessionManager.game_type <$> SessionManager.get_session sid st'
    = SessionManager.game_type <$> SessionManager.get_session sid st
  ∧ SessionManager.created_at <$> SessionManager.get_session sid st'
    = SessionManager.created_at <$> SessionManager.get_session sid st.

(** The value [serialize_game_state] stores under ["game_type"]. *)
Definition kind_name (v : game_view) : string :=
  match v with
  | NormalFormView _ _ => "normal_form"
  | CournotView _ _ _ => "cournot"
  | OtherView => "unknown"
  end.

(** The keys [serialize_game_state] may write. *)
Definition serialized_keys : list string :=
  ["game_type"; "payoff_matrix"; "actions";
   "demand_intercept"; "demand_slope"; "marginal_costs"].

(** The game types for which [create_game_from_template] has a branch. *)
Definition handled_game_types : list string :=
  ["prisoners_dilemma"; "cournot"; "auction"].

(** A [strategies] argument all of whose names are registered. *)
Definition all_registered (strategies : option (list string)) : Prop :=
  match strategies with
  | Some names => Forall (λ n, n ∈ registered_strategies) names
  | None => True
  end.

(** A game for exercising the play handler: it counts the calls of
    [play_round] and raises [e] on every one of them. *)
Definition refusing_game (e : exn) : Game nat := {|
  game_players _ := [];
  game_legal_actions _ _ := [];
  game_play_round _ calls := (Raise e, S calls);
  game_history _ := [];
  game_reset _ := 0%nat;
  game_get_state calls := [("calls", JNum (Qc_of_Z (Z.of_nat calls)))];
  game_view_of _ := OtherView;
|}.

(** A store whose only session, ["s1"], holds a [refusing_game] that was
    called [calls] times. *)
Definition one_refusing_session (calls : nat) : SessionManager.t nat :=
  (SessionManager.create_session "" (Some "s1") calls "refusing"
     SessionManager.init).2.

(** A table of templates with a fourth type that the factory has no
    branch for. *)
Definition four_templates : gmap string GameFactory.game_info :=
  <["custom" := GameFactory.GameInfo "Custom Normal Form" "" "normal_form"]>
    three_templates.

(** A Prisoners' Dilemma request whose payoff lists carry a third,
    surplus value. *)
Definition pd_payoff_matrix_surplus : Py.dict string (list Qc) :=
  [ ("C,C", [Qc_of_Z 3; Qc_of_Z 3; Qc_of_Z 7]);
    ("C,D", [Qc_of_Z 0; Qc_of_Z 5; Qc_of_Z 7]);
    ("D,C", [Qc_of_Z 5; Qc_of_Z 0; Qc_of_Z 7]);
    ("D,D", [Qc_of_Z 1; Qc_of_Z 1; Qc_of_Z 7]) ].

(** * Properties *)

(** ** Session store properties *)

Section SessionStoreFacts.
Context {Game : Type}.
Implicit Types (sm : SessionManager.t Game) (sid : string).

(** C4: [create_session(game=g, game_type=t)] returns an id under which
    [get_session] afterwards finds a mapping holding [g] and [t]; every
    other id keeps the entry it had. *)
Theorem create_session_get uuid (g : Game) (gt : string) sm :
  let '(sid, sm') := SessionManager.create_session uuid None g gt sm in
  (∃ s, SessionManager.get_session sid sm' = Some s
        ∧ SessionManager.game s = g
        ∧ SessionManager.game_type s = gt)
  ∧ ∀ other, other ≠ sid →
      SessionManager.get_session other sm' = SessionManager.get_session other sm.
Proof.
  cbn. split.
  - eexists. split; [apply lookup_insert_eq|done].
  - intros other Hne. unfold SessionManager.get_session; cbn.
    by rewrite lookup_insert_ne.
Qed.

(** C5: [get_session] answers [None] exactly for ids that are not stored;
    [delete_session] answers [True] and drops exactly that entry for a
    stored id, and answers [False] leaving the mapping as it was
    otherwise. *)
Theorem get_delete_session sid sm :
  (SessionManager.get_session sid sm = None
     ↔ sid ∉ dom (SessionManager.sessions sm))
  ∧ (sid ∈ dom (SessionManager.sessions sm) →
       let '(b, sm') := SessionManager.delete_session sid sm in
       b = true
       ∧ SessionManager.get_session sid sm' = None
       ∧ ∀ other, other ≠ sid →
           SessionManager.get_session other sm'
           = SessionManager.get_session other sm)
  ∧ (sid ∉ dom (SessionManager.sessions sm) →
       SessionManager.delete_session sid sm = (false, sm)).
Proof.
  unfold SessionManager.get_session, SessionManager.delete_session.
  split; [|split].
  - by rewrite not_elem_of_dom.
  - intros Hin. rewrite decide_True by done. cbn.
    split; [done|]. split; [apply lookup_delete_eq|].
    intros other Hne. by rewrite lookup_delete_ne.
  - intros Hnin. by rewrite decide_False.
Qed.
End SessionStoreFacts.

Lemma create_session_get_witness :
  SessionManager.get_session "s1"
    (SessionManager.create_session "fresh" None
       (pd_game ["C"; "D"] ["C"; "D"]) "prisoners_dilemma"
       (one_session (pd_game ["D"; "C"] ["C"; "D"]))).2
  = SessionManager.get_session "s1" (one_session (pd_game ["D"; "C"] ["C"; "D"])).
Proof.
  pose proof (create_session_get "fresh" (pd_game ["C"; "D"] ["C"; "D"])
                "prisoners_dilemma"
                (one_session (pd_game ["D"; "C"] ["C"; "D"]))) as Hthm.
  destruct (SessionManager.create_session _ _ _ _ _) as [sid sm'] eqn:Hcreate.
  injection Hcreate as <- <-.
  apply Hthm. discriminate.
Defined.

Lemma get_delete_session_witness :
  SessionManager.delete_session "s1" (one_session (pd_game ["C"; "D"] ["C"; "D"]))
  = (true, SessionManager.init)
  ∧ SessionManager.delete_session "s2" (one_session (pd_game ["C"; "D"] ["C"; "D"]))
    = (false, one_session (pd_game ["C"; "D"] ["C"; "D"])).
Proof.
  split.
  - destruct (get_delete_session "s1" (one_session (pd_game ["C"; "D"] ["C"; "D"])))
      as (_ & Hstored & _).
    unfold SessionManager.delete_session in *.
    rewrite decide_True in *
      by (refine (bool_decide_unpack _ _); vm_compute; exact I).
    reflexivity.
  - apply (get_delete_session "s2" (one_session (pd_game ["C"; "D"] ["C"; "D"]))).
    refine (bool_decide_unpack _ _). vm_compute. exact I.
Defined.


(** ** Results and loops *)

Lemma rbind_Ok {A B} (r : result A) (k : A → result B) b :
  rbind r k = Ok b ↔ ∃ a, r = Ok a ∧ k a = Ok b.
Proof.
  destruct r as [a|e]; cbn.
  - split; [intros Hk; eauto | intros (a' & [= <-] & Hk); done].
  - split; [done | intros (a' & [=] & _)].
Qed.

Lemma rbind_Raise {A B} (r : result A) (k : A → result B) e :
  rbind r k = Raise e ↔ r = Raise e ∨ ∃ a, r = Ok a ∧ k a = Raise e.
Proof.
  destruct r as [a|e']; cbn.
  - split; [intros Hk; right; eauto | intros [[=] | (a' & [= <-] & Hk)]; done].
  - split; [intros [= <-]; by left | intros [[= <-] | (a' & [=] & _)]; done].
Qed.

Lemma rfmap_Ok {A B} (f : A → B) (r : result A) b :
  rfmap f r = Ok b ↔ ∃ a, r = Ok a ∧ b = f a.
Proof.
  destruct r as [a|e]; cbn.
  - split; [intros [= <-]; eauto | intros (a' & [= <-] & ->); done].
  - split; [done | intros (a' & [=] & _)].
Qed.

Lemma rmap_Ok {A B} (f : A → result B) l ys :
  rmap f l = Ok ys ↔ Forall2 (λ x y, f x = Ok y) l ys.
Proof.
  revert ys. induction l as [|x l IH]; intros ys; cbn.
  - split; [intros [= <-]; constructor | by inversion 1].
  - rewrite rbind_Ok. split.
    + intros (y & Hy & Hrest). apply rbind_Ok in Hrest as (ys' & Hys & [= <-]).
      constructor; [done | by apply IH].
    + inversion 1 as [|? y ? ys' Hy Hys]; subst. exists y. split; [done|].
      apply IH in Hys. by rewrite Hys.
Qed.

Lemma rmap_Raise {A B} (f : A → result B) l e :
  rmap f l = Raise e → ∃ x, x ∈ l ∧ f x = Raise e.
Proof.
  induction l as [|x l IH]; cbn; [done|].
  rewrite rbind_Raise. intros [Hx | (y & Hy & Hrest)].
  - exists x. split; [left | done].
  - apply rbind_Raise in Hrest as [Hl | (? & _ & [=])].
    destruct (IH Hl) as (x' & Hin & Hx'). exists x'. split; [by right | done].
Qed.

(** ** C1: the Cournot endpoint and [InvalidParameters] *)

Section CournotValidation.
Context {G : Type}.
Implicit Types (st : SessionManager.t G) (request : CournotEquilibriumRequest.t).

Lemma compute_equilibrium_invalid (g : CournotGame.t) :
  (∃ msg, CournotGame.compute_equilibrium g = Raise (InvalidParameters msg))
  ↔ (CournotGame.demand_intercept g ≤ 0)%Qc
    ∨ (CournotGame.demand_slope g ≤ 0)%Qc
    ∨ size (CournotGame.marginal_costs g) ≠ length (CournotGame.players g).
Proof.
  unfold CournotGame.compute_equilibrium.
  repeat case_bool_decide; try (split; [auto | eauto]; fail).
  split; [|intros [?|[?|?]]; done].
  intros [msg Hraise]. exfalso.
  apply rbind_Raise in Hraise as [Hraise | (? & _ & [=])].
  apply rmap_Raise in Hraise as (p & _ & Hp).
  by destruct (CournotGame.marginal_costs g !! player_id p).
Qed.

(** C1, as the code has it: [compute_equilibrium] fails with
    [InvalidParameters] exactly when [a <= 0], [b <= 0] or the number of
    costs differs from the number of players; the endpoint, which builds
    two players, answers such a failure with status 400 and the
    message, so it rejects every request whose costs, once the keys are
    parsed to integers, are not two in number (and every request with a
    key that does not parse). *)
Theorem cournot_invalid_parameters (g : CournotGame.t) request st :
  ((∃ msg, CournotGame.compute_equilibrium g = Raise (InvalidParameters msg))
   ↔ (CournotGame.demand_intercept g ≤ 0)%Qc
     ∨ (CournotGame.demand_slope g ≤ 0)%Qc
     ∨ size (CournotGame.marginal_costs g) ≠ length (CournotGame.players g))
  ∧ (∀ e,
       Py.int_keys (CournotEquilibriumRequest.marginal_costs request) = Raise e →
       Main.compute_cournot_equilibrium request st
       = (HTTPException 400 ("Invalid request: " +:+ exn_str e), st))
  ∧ (∀ costs,
       Py.int_keys (CournotEquilibriumRequest.marginal_costs request) = Ok costs →
       (CournotEquilibriumRequest.demand_intercept request ≤ 0)%Qc
       ∨ (CournotEquilibriumRequest.demand_slope request ≤ 0)%Qc
       ∨ size costs ≠ 2%nat →
       ∃ msg,
         CournotGame.compute_equilibrium
           (CournotGame.Make Main.cournot_players
              (CournotEquilibriumRequest.demand_intercept request)
              (CournotEquilibriumRequest.demand_slope request) costs)
         = Raise (InvalidParameters msg)
         ∧ Main.compute_cournot_equilibrium request st
           = (HTTPException 400 ("Invalid request: " +:+ msg), st)).
Proof.
  split; [apply compute_equilibrium_invalid|]. split.
  - intros e Hparse. unfold Main.compute_cournot_equilibrium. by rewrite Hparse.
  - intros costs Hparse Hbad.
    destruct (proj2 (compute_equilibrium_invalid
                       (CournotGame.Make Main.cournot_players
                          (CournotEquilibriumRequest.demand_intercept request)
                          (CournotEquilibriumRequest.demand_slope request) costs))
                Hbad) as [msg Hmsg].
    exists msg. split; [done|].
    unfold Main.compute_cournot_equilibrium. rewrite Hparse. cbn.
    by rewrite Hmsg.
Qed.
End CournotValidation.

(** C1, as stated, fails: a request whose [marginal_costs] mapping has
    three entries is answered, not rejected. *)
Lemma cournot_three_costs_answered :
  ¬ (∀ (request : CournotEquilibriumRequest.t) (st : SessionManager.t unit),
       NoDup (CournotEquilibriumRequest.marginal_costs request).*1 →
       length (CournotEquilibriumRequest.marginal_costs request) ≠ 2%nat →
       ∃ status detail,
         (Main.compute_cournot_equilibrium request st).1
         = HTTPException status detail).
Proof.
  intros Hclaim.
  destruct (Hclaim three_costs_request SessionManager.init) as (status & detail & Hrej).
  - refine (bool_decide_unpack _ _). vm_compute. exact I.
  - cbn. lia.
  - vm_compute in Hrej. discriminate Hrej.
Qed.

Lemma cournot_invalid_parameters_witness :
  ∃ msg,
    Main.compute_cournot_equilibrium
      (CournotEquilibriumRequest.of_body None None
         [("0", Qc_of_Z 10); ("1", Qc_of_Z 10); ("2", Qc_of_Z 10)])
      (SessionManager.init (Game := unit))
    = (HTTPException 400 ("Invalid request: " +:+ msg), SessionManager.init).
Proof.
  destruct (cournot_invalid_parameters
              (CournotGame.Make [] 0%Qc 0%Qc ∅)
              (CournotEquilibriumRequest.of_body None None
                 [("0", Qc_of_Z 10); ("1", Qc_of_Z 10); ("2", Qc_of_Z 10)])
              (SessionManager.init (Game := unit))) as (_ & _ & Hrej).
  destruct (Hrej {[ 0 := Qc_of_Z 10; 1 := Qc_of_Z 10; 2 := Qc_of_Z 10 ]})
    as (msg & _ & Hmsg).
  - vm_compute. reflexivity.
  - right. right. vm_compute. discriminate.
  - exists msg. exact Hmsg.
Defined.

(** ** Dictionary comprehensions *)

Section Comprehension.
Context {K V B : Type} `{Countable K}.
Implicit Types (kvs : list (K * V)) (acc m : gmap K V).

Lemma assign_all_cons acc k v kvs :
  assign_all acc ((k, v) :: kvs) = assign_all (<[k := v]> acc) kvs.
Proof. reflexivity. Qed.

Lemma assign_all_notin kvs acc k :
  k ∉ kvs.*1 → assign_all acc kvs !! k = acc !! k.
Proof.
  revert acc. induction kvs as [|[k' v'] kvs IH]; intros acc Hk; [done|].
  rewrite fmap_cons in Hk. apply not_elem_of_cons in Hk as [Hne Hk].
  rewrite assign_all_cons, (IH _ Hk). by apply lookup_insert_ne.
Qed.

Lemma assign_all_last kvs acc j k v :
  kvs !! j = Some (k, v) → k ∉ (drop (S j) kvs).*1 →
  assign_all acc kvs !! k = Some v.
Proof.
  revert acc j. induction kvs as [|[k' v'] kvs IH]; intros acc [|j] Hj Hk; [done..| |].
  - injection Hj as -> ->. rewrite assign_all_cons.
    change (drop 1 ((k, v) :: kvs)) with (drop 0 kvs) in Hk. rewrite drop_0 in Hk.
    rewrite (assign_all_notin _ _ _ Hk). apply lookup_insert_eq.
  - rewrite assign_all_cons. by eapply IH.
Qed.

Lemma assign_all_dom kvs acc k :
  is_Some (assign_all acc kvs !! k) → k ∈ kvs.*1 ∨ is_Some (acc !! k).
Proof.
  destruct (decide (k ∈ kvs.*1)) as [|Hk]; [by left|].
  rewrite (assign_all_notin _ _ _ Hk). by right.
Qed.

(** A loop that computes one pair per element and stores it. *)
Lemma rfold_assign (g : gmap K V → B → result (gmap K V)) (f : B → result (K * V)) :
  (∀ acc x, g acc x = rbind (f x) (λ kv, Ok (<[kv.1 := kv.2]> acc))) →
  ∀ l acc m, rfold g acc l = Ok m →
    ∃ kvs, Forall2 (λ x kv, f x = Ok kv) l kvs ∧ m = assign_all acc kvs.
Proof.
  intros Hg l. induction l as [|x l IH]; intros acc m; cbn.
  - intros [= <-]. exists []. by split; [constructor|].
  - rewrite rbind_Ok. intros (acc' & Hx & Hrest).
    rewrite Hg in Hx. apply rbind_Ok in Hx as (kv & Hkv & [= <-]).
    destruct (IH _ _ Hrest) as (kvs & Hall & ->).
    exists (kv :: kvs). by split; [constructor|].
Qed.
End Comprehension.

(** ** [split] and [join] *)

Lemma split_not_nil sep s : Py.split sep s ≠ [].
Proof.
  destruct s as [|c s]; cbn; [done|].
  case_decide; [done|]. by destruct (Py.split sep s).
Qed.

Lemma join_split sep s : Py.join sep (Py.split sep s) = s.
Proof.
  induction s as [|c s IH]; [done|]. cbn.
  pose proof (split_not_nil sep s) as Hnil.
  case_decide as Hc.
  - subst c. destruct (Py.split sep s) as [|w ws]; [done|].
    cbn in *. by rewrite IH.
  - destruct (Py.split sep s) as [|w ws]; [done|].
    destruct ws as [|w' ws]; cbn in *; by rewrite <- IH.
Qed.

#[global] Instance split_inj sep : Inj (=) (=) (Py.split sep).
Proof.
  intros s1 s2 Heq. rewrite <- (join_split sep s1), <- (join_split sep s2).
  by rewrite Heq.
Qed.

Section ComprehensionMore.
Context {K V B : Type} `{Countable K}.
Implicit Types (kvs : list (K * V)) (acc m : gmap K V).

Lemma assign_all_in kvs acc k :
  k ∈ kvs.*1 → ∃ v, (k, v) ∈ kvs ∧ assign_all acc kvs !! k = Some v.
Proof.
  revert acc. induction kvs as [|[k' v'] kvs IH]; intros acc Hk.
  - by apply elem_of_nil in Hk.
  - rewrite assign_all_cons. destruct (decide (k ∈ kvs.*1)) as [Hin|Hnin].
    + destruct (IH (<[k' := v']> acc) Hin) as (v & Hv & Hlook).
      exists v. split; [by right | done].
    + rewrite fmap_cons in Hk. apply elem_of_cons in Hk as [->|Hk]; [|done].
      exists v'. split; [left|].
      rewrite (assign_all_notin _ _ _ Hnin). apply lookup_insert_eq.
Qed.

Lemma assign_all_Some kvs k v :
  assign_all (∅ : gmap K V) kvs !! k = Some v → (k, v) ∈ kvs.
Proof.
  intros Hlook. destruct (decide (k ∈ kvs.*1)) as [Hin|Hnin].
  - destruct (assign_all_in kvs ∅ k Hin) as (v' & Hv' & Hlook').
    by replace v with v' by congruence.
  - by rewrite (assign_all_notin _ _ _ Hnin) in Hlook.
Qed.

Lemma Forall2_keys (f : B → result (K * V)) (h : B → K) l kvs :
  (∀ x kv, f x = Ok kv → kv.1 = h x) →
  Forall2 (λ x kv, f x = Ok kv) l kvs → kvs.*1 = h <$> l.
Proof.
  intros Hf. induction 1 as [|x kv l kvs Hx _ IH]; [done|].
  cbn. by rewrite (Hf _ _ Hx), IH.
Qed.
End ComprehensionMore.

Lemma NoDup_not_in_drop {A} (l : list A) j x :
  NoDup l → l !! j = Some x → x ∉ drop (S j) l.
Proof.
  intros Hnd Hj [i Hi]%list_elem_of_lookup.
  rewrite lookup_drop in Hi.
  pose proof (NoDup_lookup _ _ _ _ Hnd Hj Hi). lia.
Qed.

(** ** C2: the game rebuilt from a request *)

Lemma payoff_row_spec ids payoffs row :
  Main.payoff_row ids payoffs = Ok row →
  ∀ k i, ids !! k = Some i → i ∉ drop (S k) ids →
    row !! i = payoffs !! k ∧ is_Some (payoffs !! k).
Proof.
  intros Hrow k i Hk Hlast.
  apply (rfold_assign _
           (λ '(idx, i), let* v := Py.index payoffs idx in Ok (i, v)))
    in Hrow as (kvs & Hall & ->).
  2:{ intros acc [idx j]. cbn. by destruct (Py.index payoffs idx). }
  assert (kvs.*1 = ids) as Hkeys.
  { transitivity (snd <$> imap (λ (idx : nat) (i : Z), (idx, i)) ids).
    - eapply Forall2_keys; [|exact Hall].
      intros [idx j] kv. cbn. unfold Py.index.
      destruct (payoffs !! idx); cbn; [by intros [= <-] | done].
    - apply list_eq. intros n. rewrite list_lookup_fmap, list_lookup_imap.
      by destruct (ids !! n). }
  destruct (Forall2_lookup_l _ _ _ k (k, i) Hall) as ([i' v] & Hkv & Hf).
  { by rewrite list_lookup_imap, Hk. }
  cbn in Hf. unfold Py.index in Hf.
  destruct (payoffs !! k) as [v'|] eqn:Hv; cbn in Hf; [|done].
  injection Hf as <- <-. split; [|by eexists].
  eapply assign_all_last; [done|]. by rewrite fmap_drop, Hkeys.
Qed.

(** C2: the player ids are the integer keys of [player_actions] in
    ascending order; each key of the request's payoff matrix, split on
    commas, is a profile of the table; and under that profile the [k]-th
    payoff of the request's list belongs to the player at position [k] of
    the ascending ids. *)
Theorem reconstruct_game_profiles pm pa g :
  NoDup pm.*1 →
  Main.reconstruct_game pm pa = Ok g →
  ∃ ids raw,
    rmap Py.int pa.*1 = Ok raw ∧ ids = Py.sorted raw
    ∧ ids ≡ₚ raw ∧ StronglySorted Z.le ids
    ∧ player_id <$> NormalFormGame.players g = ids
    ∧ (∀ i acts, NormalFormGame.actions g !! i = Some acts
                 ↔ i ∈ ids ∧ Py.get pa (Py.str i) = Some acts)
    ∧ (∀ profile, is_Some (NormalFormGame.payoff_matrix g !! profile)
                  ↔ ∃ key, key ∈ pm.*1 ∧ profile = Py.split "," key)
    ∧ (∀ key payoffs, (key, payoffs) ∈ pm →
         ∃ row, NormalFormGame.payoff_matrix g !! Py.split "," key = Some row
           ∧ ∀ k i, ids !! k = Some i → i ∉ drop (S k) ids →
               row !! i = payoffs !! k ∧ is_Some (payoffs !! k)).
Proof.
  intros Hnodup Hrec. unfold Main.reconstruct_game in Hrec.
  apply rbind_Ok in Hrec as (ids & Hids & Hrec).
  apply rfmap_Ok in Hids as (raw & Hraw & ->).
  apply rbind_Ok in Hrec as (acts & Hacts & Hrec).
  apply rbind_Ok in Hrec as (table & Htable & [= <-]).
  set (ids := Py.sorted raw) in *.
  exists ids, raw. cbn.
  split; [done|]. split; [done|].
  split; [apply merge_sort_Permutation|].
  split; [apply StronglySorted_merge_sort; apply _|].
  split.
  { unfold Main.dummy_players. rewrite <- list_fmap_compose.
    clear. induction ids as [|i ids IH]; [done|]. cbn. by rewrite IH. }
  (* the action sets *)
  apply (rfold_assign _
           (λ i, let* a := Py.getitem pa (Py.str i) in Ok (i, a)))
    in Hacts as (avs & Havs & ->).
  2:{ intros acc i. cbn. by destruct (Py.getitem pa (Py.str i)). }
  assert (∀ i a, (i, a) ∈ avs ↔ i ∈ ids ∧ Py.get pa (Py.str i) = Some a) as Hav.
  { intros i a. split.
    - intros [n Hn]%list_elem_of_lookup.
      destruct (Forall2_lookup_r _ _ _ _ _ Havs Hn) as (i' & Hi' & Hf).
      unfold Py.getitem in Hf.
      destruct (Py.get pa (Py.str i')) as [a'|] eqn:Hget; cbn in Hf; [|done].
      injection Hf as <- <-. split; [|done]. by eapply list_elem_of_lookup_2.
    - intros [[n Hn]%list_elem_of_lookup Hget].
      destruct (Forall2_lookup_l _ _ _ _ _ Havs Hn) as (kv & Hkv & Hf).
      unfold Py.getitem in Hf. rewrite Hget in Hf. cbn in Hf.
      injection Hf as <-. by eapply list_elem_of_lookup_2. }
  split.
  { intros i a. rewrite <- Hav. split; [apply assign_all_Some|].
    intros Hin.
    destruct (assign_all_in avs ∅ i) as (a' & Ha' & Hlook).
    { apply list_elem_of_fmap. by exists (i, a). }
    apply Hav in Hin as [_ Hget], Ha' as [_ Hget'].
    by replace a with a' by congruence. }
  (* the payoff table *)
  apply (rfold_assign _
           (λ '(key, payoffs),
              let* row := Main.payoff_row ids payoffs in
              Ok (Py.split "," key, row)))
    in Htable as (kvs & Hall & ->).
  2:{ intros acc [key payoffs]. cbn. by destruct (Main.payoff_row ids payoffs). }
  assert (kvs.*1 = Py.split "," <$> pm.*1) as Hkeys.
  { rewrite <- list_fmap_compose.
    apply (Forall2_keys _ (λ x, Py.split "," x.1) _ _) in Hall; [done|].
    intros [key payoffs] kv. cbn.
    destruct (Main.payoff_row ids payoffs); cbn; [by intros [= <-] | done]. }
  split.
  { intros profile. split.
    - intros [Hin|[? Hempty]]%assign_all_dom; [|by rewrite lookup_empty in Hempty].
      rewrite Hkeys in Hin. apply list_elem_of_fmap in Hin as (key & -> & Hkey).
      by exists key.
    - intros (key & Hkey & ->).
      destruct (assign_all_in kvs ∅ (Py.split "," key)) as (row & _ & Hlook).
      { rewrite Hkeys. apply list_elem_of_fmap. by exists key. }
      by eexists. }
  intros key payoffs [j Hj]%list_elem_of_lookup.
  destruct (Forall2_lookup_l _ _ _ _ _ Hall Hj) as ([profile row] & Hkv & Hf).
  cbn in Hf.
  destruct (Main.payoff_row ids payoffs) as [row'|] eqn:Hrow; cbn in Hf; [|done].
  injection Hf as <- <-. exists row'. split.
  - eapply assign_all_last; [done|].
    rewrite fmap_drop, Hkeys. apply NoDup_not_in_drop.
    + by apply NoDup_fmap; [apply _|].
    + by rewrite !list_lookup_fmap, Hj.
  - by apply payoff_row_spec.
Qed.

Lemma reconstruct_game_profiles_witness :
  ∃ g, Main.reconstruct_game pd_payoff_matrix pd_player_actions = Ok g
       ∧ player_id <$> NormalFormGame.players g = [0; 1]
       ∧ ∃ row, NormalFormGame.payoff_matrix g !! ["C"; "D"] = Some row
                ∧ row !! 0 = Some (Qc_of_Z 0) ∧ row !! 1 = Some (Qc_of_Z 5).
Proof.
  exists (pd_game ["C"; "D"] ["C"; "D"]).
  assert (Main.reconstruct_game pd_payoff_matrix pd_player_actions
          = Ok (pd_game ["C"; "D"] ["C"; "D"])) as Hrec
    by (vm_compute; reflexivity).
  split; [exact Hrec|].
  destruct (reconstruct_game_profiles pd_payoff_matrix pd_player_actions
              (pd_game ["C"; "D"] ["C"; "D"]))
    as (ids & raw & Hraw & Hids & _ & _ & Hplayers & _ & _ & Hrows).
  - refine (bool_decide_unpack _ _). vm_compute. exact I.
  - exact Hrec.
  - injection Hraw as <-. subst ids. split; [exact Hplayers|].
    destruct (Hrows "C,D" [Qc_of_Z 0; Qc_of_Z 5]) as (row & Hrow & Hk).
    + right. left.
    + exists row. split; [exact Hrow|]. split.
      * refine (proj1 (Hk 0%nat 0 _ _)); [reflexivity|].
        refine (bool_decide_unpack _ _). vm_compute. exact I.
      * refine (proj1 (Hk 1%nat 1 _ _)); [reflexivity|].
        refine (bool_decide_unpack _ _). vm_compute. exact I.
Defined.

(** ** C3: the analysis handlers and the session store *)

Section AnalysisHandlers.
Context {G : Type}.
Implicit Types st : SessionManager.t G.

(** C3: each of the three analysis handlers answers a request in the same
    way whatever the session store holds, and hands the store back as it
    received it. *)
Theorem analysis_handlers_ignore_store
    (nash : NashEquilibriumRequest.t) (cournot : CournotEquilibriumRequest.t)
    (best : BestResponseRequest.t) st1 st2 :
  ((Main.compute_nash_equilibrium nash st1).1
     = (Main.compute_nash_equilibrium nash st2).1
   ∧ (Main.compute_nash_equilibrium nash st1).2 = st1)
  ∧ ((Main.compute_cournot_equilibrium cournot st1).1
       = (Main.compute_cournot_equilibrium cournot st2).1
     ∧ (Main.compute_cournot_equilibrium cournot st1).2 = st1)
  ∧ ((Main.analyze_best_response best st1).1
       = (Main.analyze_best_response best st2).1
     ∧ (Main.analyze_best_response best st1).2 = st1).
Proof.
  unfold Main.compute_nash_equilibrium, Main.compute_cournot_equilibrium,
    Main.analyze_best_response.
  repeat split;
    match goal with
    | |- context [match ?r with Ok _ => _ | Raise _ => _ end] => by destruct r
    end.
Qed.
End AnalysisHandlers.

(** ** C8: the Prisoners' Dilemma *)

(** C8: for the Prisoners' Dilemma payoffs, [find_all_nash] returns the
    single pure equilibrium (D,D) and no mixed equilibrium, in whichever
    order the players' actions are listed; the endpoint answers the same
    for the request that carries this game. *)
Theorem pd_find_all_nash :
  (∀ acts0 acts1,
     acts0 ∈ [["C"; "D"]; ["D"; "C"]] → acts1 ∈ [["C"; "D"]; ["D"; "C"]] →
     NashSolver.find_all_nash (pd_game acts0 acts1)
     = Ok (NashSolver.Make [["D"; "D"]] []))
  ∧ ∀ st : SessionManager.t unit,
      Main.compute_nash_equilibrium
        (NashEquilibriumRequest.Make pd_payoff_matrix pd_player_actions) st
      = (Response (NashEquilibriumResponse.Make [["D"; "D"]] []), st).
Proof.
  split.
  - intros acts0 acts1 H0 H1.
    repeat (apply elem_of_cons in H0 as [->|H0]);
      repeat (apply elem_of_cons in H1 as [->|H1]);
      try (by apply elem_of_nil in H0); try (by apply elem_of_nil in H1);
      vm_compute; reflexivity.
  - intros st. unfold Main.compute_nash_equilibrium.
    replace (Main.reconstruct_game _ _) with (Ok (pd_game ["C"; "D"] ["C"; "D"]))
      by (vm_compute; reflexivity).
    cbn [rbind NashEquilibriumRequest.payoff_matrix
           NashEquilibriumRequest.player_actions].
    replace (NashSolver.find_all_nash _) with (Ok (NashSolver.Make [["D"; "D"]] []))
      by (vm_compute; reflexivity).
    reflexivity.
Qed.

Lemma pd_find_all_nash_witness :
  NashSolver.find_all_nash (pd_game ["D"; "C"] ["C"; "D"])
  = Ok (NashSolver.Make [["D"; "D"]] []).
Proof.
  apply (proj1 pd_find_all_nash); [right; left | left].
Defined.

(** ** C6: factory misses *)

Section FactoryMiss.
Context {G : Type} `{Game G}.
Variable AVAILABLE_GAMES : gmap string GameFactory.game_info.
Variable create_prisoners_dilemma :
  option (list string) → option (list Strategy) → json → result G.
Variable create_cournot_game :
  option (list string) → json → json → json → result G.
Variable create_auction_game :
  option (list string) → json → json → result G.
Variable random_source : nat → nat.

Local Abbreviation create_strategy := (GameFactory.create_strategy random_source).
Local Abbreviation create_game_from_template :=
  (GameFactory.create_game_from_template AVAILABLE_GAMES
     create_prisoners_dilemma create_cournot_game create_auction_game
     random_source).
Local Abbreviation create_game :=
  (Main.create_game AVAILABLE_GAMES
     create_prisoners_dilemma create_cournot_game create_auction_game
     random_source).

Lemma strategy_map_registered name :
  name ∈ registered_strategies ↔ is_Some (Py.get GameFactory.STRATEGY_MAP name).
Proof.
  unfold registered_strategies. cbn.
  repeat (case_decide;
          [subst name; split; [by eexists | intros _; rewrite !elem_of_cons; auto 10]|]).
  rewrite !elem_of_cons, elem_of_nil. split; [tauto | by intros [? ?]].
Qed.

Lemma create_strategy_unknown name :
  name ∉ registered_strategies →
  create_strategy name = Raise (ValueError ("Unknown strategy: " +:+ name)).
Proof.
  rewrite strategy_map_registered, <- eq_None_not_Some.
  unfold GameFactory.create_strategy. by intros ->.
Qed.

Lemma create_strategy_registered name :
  name ∈ registered_strategies →
  ∃ c, Py.get GameFactory.STRATEGY_MAP name = Some c
       ∧ create_strategy name = Ok (GameFactory.instantiate random_source c)
       ∧ GameFactory.class_of (GameFactory.instantiate random_source c) = Some c.
Proof.
  rewrite strategy_map_registered. intros [c Hc]. exists c.
  unfold GameFactory.create_strategy. rewrite Hc. by destruct c.
Qed.

Lemma create_strategies_first_unknown known name rest :
  Forall (λ n, n ∈ registered_strategies) known →
  name ∉ registered_strategies →
  rmap create_strategy (known ++ name :: rest)
  = Raise (ValueError ("Unknown strategy: " +:+ name)).
Proof.
  intros Hknown Hname. induction Hknown as [|n known Hn _ IH]; cbn.
  - by rewrite (create_strategy_unknown _ Hname).
  - destruct (create_strategy_registered _ Hn) as (c & _ & -> & _). cbn.
    by rewrite IH.
Qed.

(** C6: [create_strategy] raises [ValueError], naming the token, for
    every name outside the five registered ones and returns an instance
    of the mapped class for each of the five; [create_game_from_template]
    raises [ValueError], naming the token, for every game type that is not
    in [AVAILABLE_GAMES]; the create endpoint answers either miss with
    status 400 and that message, whatever the templates would do. *)
Theorem factory_miss :
  (∀ name, name ∉ registered_strategies →
     create_strategy name = Raise (ValueError ("Unknown strategy: " +:+ name)))
  ∧ (∀ name, name ∈ registered_strategies →
       ∃ c, Py.get GameFactory.STRATEGY_MAP name = Some c
            ∧ create_strategy name = Ok (GameFactory.instantiate random_source c)
            ∧ GameFactory.class_of (GameFactory.instantiate random_source c) = Some c)
  ∧ (∀ game_type params player_names strategies,
       game_type ∉ dom AVAILABLE_GAMES →
       create_game_from_template game_type params player_names strategies
       = Raise (ValueError ("Unknown game type: " +:+ game_type)))
  ∧ (∀ uuid request st,
       CreateGameRequest.game_type request ∉ dom AVAILABLE_GAMES →
       create_game uuid request st
       = (HTTPException 400
            ("Unknown game type: " +:+ CreateGameRequest.game_type request), st))
  ∧ (∀ uuid request st known name rest,
       CreateGameRequest.game_type request ∈ dom AVAILABLE_GAMES →
       CreateGameRequest.strategies request = Some (known ++ name :: rest) →
       Forall (λ n, n ∈ registered_strategies) known →
       name ∉ registered_strategies →
       create_game uuid request st
       = (HTTPException 400 ("Unknown strategy: " +:+ name), st)).
Proof.
  split; [exact create_strategy_unknown|].
  split; [exact create_strategy_registered|].
  assert (∀ game_type params player_names strategies,
            game_type ∉ dom AVAILABLE_GAMES →
            create_game_from_template game_type params player_names strategies
            = Raise (ValueError ("Unknown game type: " +:+ game_type))) as Hmiss.
  { intros game_type params player_names strategies Hnin.
    unfold GameFactory.create_game_from_template.
    by rewrite bool_decide_eq_true_2. }
  split; [exact Hmiss|]. split.
  - intros uuid request st Hnin. unfold Main.create_game.
    by rewrite (Hmiss _ _ _ _ Hnin).
  - intros uuid request st known name rest Hin Hstrat Hknown Hname.
    unfold Main.create_game, GameFactory.create_game_from_template.
    rewrite bool_decide_eq_false_2 by (by intros Hnin).
    rewrite Hstrat.
    rewrite (create_strategies_first_unknown _ _ rest Hknown Hname).
    by destruct known.
Qed.
End FactoryMiss.

Lemma factory_miss_witness :
  Main.create_game (H := plain_normal_form) three_templates
    (λ _ _ _, Ok (pd_game ["C"; "D"] ["C"; "D"]))
    (λ _ _ _ _, Ok (pd_game ["C"; "D"] ["C"; "D"]))
    (λ _ _ _, Ok (pd_game ["C"; "D"] ["C"; "D"]))
    (λ _, 0%nat) "id"
    (CreateGameRequest.Make "chess" [] None None) SessionManager.init
  = (HTTPException 400 "Unknown game type: chess", SessionManager.init).
Proof.
  apply (factory_miss (H := plain_normal_form) three_templates
           (λ _ _ _, Ok (pd_game ["C"; "D"] ["C"; "D"]))
           (λ _ _ _ _, Ok (pd_game ["C"; "D"] ["C"; "D"]))
           (λ _ _ _, Ok (pd_game ["C"; "D"] ["C"; "D"]))
           (λ _, 0%nat)).
  refine (bool_decide_unpack _ _). vm_compute. exact I.
Defined.

(** ** [str] and [int] on integers *)

Lemma pretty_N_char_digit (d : N) :
  (d < 10)%N →
  Py.digit_val (pretty_N_char d) = Some (Z.of_N d)
  ∧ pretty_N_char d ≠ "_"%char
  ∧ pretty_N_char d ≠ "-"%char
  ∧ pretty_N_char d ≠ "+"%char
  ∧ Py.is_space (pretty_N_char d) = false.
Proof.
  intros Hd.
  assert (d ∈ [0; 1; 2; 3; 4; 5; 6; 7; 8; 9]%N) as Hin.
  { rewrite !elem_of_cons. lia. }
  repeat (apply elem_of_cons in Hin as [->|Hin]; [by vm_compute|]).
  by apply elem_of_nil in Hin.
Qed.

(** The characters [pretty_N_go x s] puts in front of [s] are decimal
    digits, and [Py.digits] reads them back as [x]. *)
Lemma pretty_N_go_digits (x : N) (s : string) :
  (0 < x)%N →
  ∃ ds, list_ascii_of_string (pretty_N_go x s) = ds ++ list_ascii_of_string s
        ∧ ds ≠ []
        ∧ Forall (λ c, Py.is_space c = false ∧ c ≠ "-"%char ∧ c ≠ "+"%char) ds
        ∧ ∀ acc prev rest,
            Py.digits acc prev (ds ++ rest)
            = Py.digits (acc * 10 ^ Z.of_nat (length ds) + Z.of_N x) true rest.
Proof.
  revert s. induction (N.lt_wf_0 x) as [x _ IH]. intros s Hx.
  rewrite pretty_N_go_step by done.
  assert (x `mod` 10 < 10)%N as Hmod by (by apply N.mod_lt).
  destruct (pretty_N_char_digit _ Hmod) as (Hval & Hus & Hminus & Hplus & Hsp).
  pose proof (N.div_mod x 10 ltac:(done)) as Hdiv.
  destruct (decide (x `div` 10 = 0)%N) as [Hz|Hnz].
  - rewrite Hz, pretty_N_go_0. exists [pretty_N_char (x `mod` 10)].
    split; [done|]. split; [done|]. split; [by repeat constructor|].
    intros acc prev rest. cbn. rewrite decide_False, Hval by done. f_equal. lia.
  - destruct (IH (x `div` 10)%N) with (s := String (pretty_N_char (x `mod` 10)) s)
      as (ds & Hds & Hne & Hall & Hread).
    { apply N.div_lt; lia. }
    { lia. }
    exists (ds ++ [pretty_N_char (x `mod` 10)]).
    split; [by rewrite Hds, <- app_assoc|].
    split; [by destruct ds|].
    split; [apply Forall_app; split; [done | by repeat constructor]|].
    intros acc prev rest. rewrite <- app_assoc, Hread. cbn.
    rewrite decide_False, Hval by done. f_equal.
    rewrite length_app, Nat2Z.inj_add, Z.pow_add_r by lia. cbn. lia.
Qed.

Lemma lstrip_not_space c l : Py.is_space c = false → Py.lstrip (c :: l) = c :: l.
Proof. intros Hc. cbn. by rewrite Hc. Qed.

Lemma strip_no_space l :
  l ≠ [] → Forall (λ c, Py.is_space c = false) l → Py.strip l = l.
Proof.
  intros Hne Hall. unfold Py.strip.
  destruct l as [|c l]; [done|].
  rewrite lstrip_not_space by (by inversion Hall).
  destruct (rev (c :: l)) as [|c' l'] eqn:Hrev.
  { by apply (f_equal length) in Hrev; rewrite length_rev in Hrev. }
  rewrite lstrip_not_space, <- Hrev; [apply rev_involutive|].
  rewrite Forall_forall in Hall. apply Hall.
  apply list_elem_of_In, in_rev. rewrite Hrev. by left.
Qed.

(** [int(str(i)) == i]: the key a response carries parses back to the
    player id it was built from. *)
Lemma int_str (i : Z) : Py.int (Py.str i) = Ok i.
Proof.
  unfold Py.int, Py.str.
  enough (Py.int_of_chars (list_ascii_of_string (pretty i)) = Some i) as -> by done.
  destruct i as [|p|p]; [done| |].
  - unfold pretty, pretty_Z, pretty, pretty_positive, pretty, pretty_N.
    rewrite decide_False by done.
    destruct (pretty_N_go_digits (N.pos p) "") as (ds & -> & Hne & Hall & Hread); [lia|].
    cbn [list_ascii_of_string]. rewrite app_nil_r. unfold Py.int_of_chars.
    assert (Forall (λ c, Py.is_space c = false) ds) as Hsp
      by (eapply Forall_impl; [done|]; by intros ? (? & _)).
    rewrite (strip_no_space _ Hne Hsp).
    destruct ds as [|c ds]; [done|].
    apply Forall_cons in Hall as [(_ & Hm & Hp) _].
    rewrite !decide_False by done.
    specialize (Hread 0 false []). rewrite app_nil_r in Hread.
    rewrite Hread. cbn. f_equal; lia.
  - unfold pretty, pretty_Z, pretty, pretty_positive, pretty, pretty_N.
    rewrite decide_False by done.
    destruct (pretty_N_go_digits (N.pos p) "") as (ds & Hds & Hne & Hall & Hread); [lia|].
    change (list_ascii_of_string ("-" +:+ pretty_N_go (N.pos p) ""))
      with ("-"%char :: list_ascii_of_string (pretty_N_go (N.pos p) "")).
    rewrite Hds.
    cbn [list_ascii_of_string]. rewrite app_nil_r. unfold Py.int_of_chars.
    assert (Forall (λ c, Py.is_space c = false) ("-"%char :: ds)) as Hsp.
    { constructor; [done|]. eapply Forall_impl; [done|]. by intros ? (? & _). }
    rewrite (strip_no_space ("-"%char :: ds) ltac:(done) Hsp).
    rewrite decide_True by done.
    specialize (Hread 0 false []). rewrite app_nil_r in Hread.
    rewrite Hread. cbn. f_equal; lia.
Qed.

(** ** C7: player ids across the play-round boundary *)

#[global] Instance py_str_inj : Inj (=) (=) Py.str.
Proof. unfold Py.str. apply _. Qed.

Lemma str_keys_lookup {V} (d : gmap Z V) i :
  Py.str_keys d !! Py.str i = d !! i.
Proof. unfold Py.str_keys. apply (lookup_kmap Py.str). Qed.

Lemma str_keys_is_Some {V} (d : gmap Z V) key :
  is_Some (Py.str_keys d !! key) → ∃ i, key = Py.str i ∧ is_Some (d !! i).
Proof. unfold Py.str_keys. by rewrite (lookup_kmap_is_Some Py.str). Qed.

Lemma int_keys_spec {V} (d : Py.dict string V) (m : gmap Z V) :
  Py.int_keys d = Ok m →
  (∀ k, k ∈ d.*1 → ∃ i, Py.int k = Ok i ∧ is_Some (m !! i))
  ∧ (∀ i v, m !! i = Some v → ∃ k, (k, v) ∈ d ∧ Py.int k = Ok i).
Proof.
  intros Hm.
  apply (rfold_assign _ (λ '(k, v), let* i := Py.int k in Ok (i, v)))
    in Hm as (kvs & Hall & ->).
  2:{ intros acc [k v]. cbn. by destruct (Py.int k). }
  split.
  - intros k [[k' v] [-> [n Hn]%list_elem_of_lookup]]%list_elem_of_fmap.
    destruct (Forall2_lookup_l _ _ _ _ _ Hall Hn) as ([i v'] & Hkv & Hf).
    cbn in *. destruct (Py.int k') as [i'|] eqn:Hint; cbn in Hf; [|done].
    injection Hf as <- <-. exists i'. split; [done|].
    destruct (assign_all_in kvs ∅ i') as (v'' & _ & Hlook); [|by eexists].
    apply list_elem_of_fmap. exists (i', v). split; [done|].
    by eapply list_elem_of_lookup_2.
  - intros i v [n Hn]%assign_all_Some%list_elem_of_lookup.
    destruct (Forall2_lookup_r _ _ _ _ _ Hall Hn) as ([k v'] & Hkv & Hf).
    cbn in Hf. destruct (Py.int k) as [i'|] eqn:Hint; cbn in Hf; [|done].
    injection Hf as <- <-. exists k. split; [|done].
    by eapply list_elem_of_lookup_2.
Qed.

Section PlayRound.
Context {G : Type} `{Game G}.
Implicit Types st : SessionManager.t G.

(** C7: when the play-round handler answers, every key of the request's
    [actions] was parsed to an integer and the game was invoked on the
    integer-keyed actions; the response's payoffs are those the game
    returned, each under the decimal string of its player id (a key that
    parses back to that id), and the response's history shows the game's
    history in the same way. *)
Theorem play_round_keys session_id request st response st' :
  Main.play_round session_id request st = (Response response, st') →
  ∃ session actions payoffs game',
    SessionManager.get_session session_id st = Some session
    ∧ Py.int_keys (PlayRoundRequest.actions request) = Ok actions
    ∧ (∀ k, k ∈ (PlayRoundRequest.actions request).*1 →
         ∃ i, Py.int k = Ok i ∧ is_Some (actions !! i))
    ∧ (∀ i a, actions !! i = Some a →
         ∃ k, (k, a) ∈ PlayRoundRequest.actions request ∧ Py.int k = Ok i)
    ∧ game_play_round actions (SessionManager.game session) = (Ok payoffs, game')
    ∧ (∀ i, PlayRoundResponse.payoffs response !! Py.str i = payoffs !! i)
    ∧ (∀ key, is_Some (PlayRoundResponse.payoffs response !! key) →
         ∃ i, key = Py.str i)
    ∧ (∀ i v, payoffs !! i = Some v →
         ∃ key, Py.int key = Ok i
                ∧ PlayRoundResponse.payoffs response !! key = Some v)
    ∧ Forall2 shown_as (game_history game') (PlayRoundResponse.history response).
Proof.
  unfold Main.play_round. intros Hplay.
  destruct (SessionManager.get_session session_id st) as [session|]; [|done].
  destruct (Py.int_keys (PlayRoundRequest.actions request)) as [actions|] eqn:Hint;
    [|done].
  destruct (game_play_round actions (SessionManager.game session))
    as [[payoffs|e] game'] eqn:Hgame.
  2:{ by destruct (is_KeyError e || is_ValueError e). }
  injection Hplay as <- <-.
  exists session, actions, payoffs, game'. cbn.
  destruct (int_keys_spec _ _ Hint) as [Hparsed Hfrom].
  repeat split; try done.
  - apply str_keys_lookup.
  - intros key (i & -> & _)%str_keys_is_Some. by exists i.
  - intros i v Hv. exists (Py.str i). split; [apply int_str|].
    by rewrite str_keys_lookup.
  - unfold Main.history_items. apply Forall2_fmap_r, Forall_Forall2_diag.
    apply Forall_forall. intros e _. repeat split; cbn.
    + apply str_keys_lookup.
    + intros key (i & -> & _)%str_keys_is_Some. by exists i.
Qed.
End PlayRound.

Lemma play_round_keys_witness :
  ∃ actions,
    Py.int_keys [("0", "C"); ("1", "D")] = Ok actions
    ∧ ∃ i, Py.int "1" = Ok i ∧ is_Some (actions !! i).
Proof.
  edestruct (play_round_keys (H := plain_normal_form) "s1"
               (PlayRoundRequest.Make [("0", "C"); ("1", "D")])
               (one_session (pd_game ["C"; "D"] ["C"; "D"])))
    as (session & actions & payoffs & game' & _ & Hint & Hkeys & _).
  - vm_compute. reflexivity.
  - exists actions. split; [exact Hint|]. apply Hkeys. right. left.
Defined.

(** ** C9: simulation on a stored session *)

Lemma normal_form_laws get_state get_payoff_matrix_dict :
  @GameLaws NormalFormGame.t (normal_form_game get_state get_payoff_matrix_dict).
Proof.
  split; cbn.
  - intros chosen g. unfold NormalFormGame.play_round.
    destruct (negb _); [done|].
    destruct (rmap _ _) as [profile|]; [|done].
    destruct (NormalFormGame.payoff_matrix g !! profile); [|done].
    by exists profile.
  - intros chosen g. unfold NormalFormGame.play_round.
    destruct (negb _); [done|].
    destruct (rmap _ _) as [profile|]; [|done].
    by destruct (NormalFormGame.payoff_matrix g !! profile).
  - done.
Qed.

Section Simulation.
Context {G : Type} `{GameLaws G}.
Implicit Types (st : SessionManager.t G) (g : G).

(** A run keeps what the history held and adds one entry per round. *)
Lemma run_rounds_history n k delta acc g :
  let '(r, g') := Repeated.run_rounds n k delta acc g in
  game_history g `prefix_of` game_history g'
  ∧ ∀ result, r = Ok result →
      length (game_history g') = (length (game_history g) + n)%nat
      ∧ ∃ rest,
          Repeated.strategy_history result = Repeated.strategy_history acc ++ rest
          ∧ length rest = n
          ∧ (n ≠ O → ∃ chosen, Repeated.choose_all g = Ok chosen
                               ∧ head rest = Some chosen).
Proof.
  revert k acc g. induction n as [|n IH]; intros k acc g; cbn.
  - split; [done|]. intros result [= <-]. split; [lia|].
    exists []. by rewrite app_nil_r.
  - destruct (Repeated.choose_all g) as [chosen|e]; [|by split].
    pose proof (play_round_history chosen g) as Hplay.
    destruct (game_play_round chosen g) as [[payoffs|e] g1].
    2:{ rewrite Hplay. by split. }
    destruct Hplay as [profile Hg1].
    match goal with
    | |- context [Repeated.run_rounds n (S k) delta ?a g1] =>
        specialize (IH (S k) a g1);
        destruct (Repeated.run_rounds n (S k) delta a g1) as [r g']
    end.
    destruct IH as [Hprefix Hok]. rewrite Hg1 in Hprefix. split.
    + etrans; [|exact Hprefix]. by apply prefix_app_r.
    + intros result Hr. destruct (Hok result Hr) as (Hlen & rest & Hrest & Hn & _).
      rewrite Hg1, length_app in Hlen. cbn in *. split; [lia|].
      exists (chosen :: rest). rewrite Hrest, <- app_assoc. cbn.
      split; [done|]. split; [by rewrite Hn|]. intros _. by exists chosen.
Qed.

(** C9: the simulate handler leaves in the store the game that
    [simulate_repeated_game] produces with [reset_between_runs=False],
    whatever the request; the history the game had is kept as a prefix
    of the history afterwards; and when the run succeeds it has one more
    entry per round, the first round's actions being those the bound
    strategies choose on the pre-existing history. *)
Theorem simulate_continues_history session_id request st session :
  SessionManager.get_session session_id st = Some session →
  let game := SessionManager.game session in
  let '(r, game') :=
    Repeated.simulate_repeated_game game
      (SimulateRequest.num_rounds request)
      (SimulateRequest.discount_factor request) false in
  (Main.simulate_game session_id request st).2
    = Main.put_game session_id session game' st
  ∧ (∀ response, (Main.simulate_game session_id request st).1 = Response response →
       ∃ result, r = Ok result
         ∧ SimulateResponse.strategy_history response
           = Py.str_keys <$> Repeated.strategy_history result)
  ∧ game_history game `prefix_of` game_history game'
  ∧ ∀ result, r = Ok result →
      length (game_history game')
      = (length (game_history game)
         + Z.to_nat (SimulateRequest.num_rounds request))%nat
      ∧ length (Repeated.strategy_history result)
        = Z.to_nat (SimulateRequest.num_rounds request)
      ∧ (0 < SimulateRequest.num_rounds request →
         ∃ chosen, Repeated.choose_all game = Ok chosen
                   ∧ head (Repeated.strategy_history result) = Some chosen).
Proof.
  intros Hsession. cbn zeta. unfold Main.simulate_game. rewrite Hsession.
  destruct (Repeated.simulate_repeated_game _ _ _ _) as [r game'] eqn:Hsim.
  split; [by destruct r|]. split.
  { intros response. destruct r as [result|e]; cbn; [|done].
    intros [= <-]. by exists result. }
  unfold Repeated.simulate_repeated_game in Hsim.
  destruct (list_find _ _) as [[? p]|].
  { injection Hsim as <- <-. by split. }
  match type of Hsim with
  | Repeated.run_rounds ?n ?k ?d ?a ?g = _ =>
      pose proof (run_rounds_history n k d a g) as Hrun
  end.
  rewrite Hsim in Hrun. destruct Hrun as [Hprefix Hok].
  split; [done|]. intros result Hr.
  destruct (Hok result Hr) as (Hlen & rest & Hrest & Hn & Hfirst).
  cbn in Hrest. subst rest. split; [done|]. split; [done|].
  intros Hpos. apply Hfirst. lia.
Qed.
End Simulation.

Lemma simulate_continues_history_witness :
  game_history (Game := plain_normal_form) (repeated_pd AlwaysCooperate one_defection)
    `prefix_of`
  game_history (Game := plain_normal_form)
    (Repeated.simulate_repeated_game (H := plain_normal_form)
       (repeated_pd AlwaysCooperate one_defection) 1 None false).2.
Proof.
  pose proof (simulate_continues_history
                (H0 := normal_form_laws (λ _, []) (λ _, JNone)) "s1"
                (SimulateRequest.Make 1 None)
                (one_session (repeated_pd AlwaysCooperate one_defection))
                (SessionManager.Session (repeated_pd AlwaysCooperate one_defection)
                   "prisoners_dilemma" None)) as Hthm.
  cbn zeta in Hthm.
  specialize (Hthm ltac:(vm_compute; reflexivity)).
  cbn [SessionManager.game SimulateRequest.num_rounds
         SimulateRequest.discount_factor] in Hthm.
  destruct (Repeated.simulate_repeated_game _ _ _ _) as [r game'].
  apply Hthm.
Defined.

(** The stored round is seen: [TitForTat] answers the earlier defection in
    the first simulated round, and cooperates when the history is empty. *)
Example tit_for_tat_sees_stored_history :
  rfmap Repeated.strategy_history
    (Repeated.simulate_repeated_game (H := plain_normal_form)
       (repeated_pd AlwaysCooperate one_defection) 1 None false).1
  = Ok [ {[ 0 := "Defect"; 1 := "Cooperate" ]} ]
  ∧ rfmap Repeated.strategy_history
      (Repeated.simulate_repeated_game (H := plain_normal_form)
         (repeated_pd AlwaysCooperate []) 1 None false).1
    = Ok [ {[ 0 := "Cooperate"; 1 := "Cooperate" ]} ].
Proof. split; vm_compute; reflexivity. Qed.


(** ** C10: the default demand parameters *)

Lemma Ok_inj {A} (a b : A) : Ok a = Ok b → a = b.
Proof. by intros [= ->]. Qed.

Lemma list_to_map_keyed {A V} (h : A → Z) (f : Z → V) (l : list A) k :
  k ∈ h <$> l →
  (list_to_map ((λ x, (h x, f (h x))) <$> l) : gmap Z V) !! k = Some (f k).
Proof.
  induction l as [|x l IH]; cbn; [by intros ?%elem_of_nil|].
  intros Hk. destruct (decide (h x = k)) as [<-|Hne].
  - apply lookup_insert_eq.
  - rewrite lookup_insert_ne by done. apply IH.
    by apply elem_of_cons in Hk as [->|Hk].
Qed.

(** In the model the reported price is the demand curve at the total
    quantity: [price = a - b * sum_i q_i]. *)
Lemma compute_equilibrium_price g eq :
  CournotGame.compute_equilibrium g = Ok eq →
  CournotGame.price eq
  = (CournotGame.demand_intercept g
     - CournotGame.demand_slope g
       * CournotGame.qsum
           ((λ p, default 0%Qc (CournotGame.quantities eq !! player_id p))
              <$> CournotGame.players g))%Qc.
Proof.
  unfold CournotGame.compute_equilibrium.
  repeat (case_bool_decide; [done|]).
  intros (cl & Hcl & Heq)%rbind_Ok.
  set (qs := CournotGame.reaction _ _ _ _) in Heq.
  apply Ok_inj in Heq. subst eq. cbn.
  f_equal. f_equal. f_equal. f_equal.
  assert (cl.*1 = player_id <$> CournotGame.players g) as Hids.
  { clear -Hcl. apply rmap_Ok in Hcl.
    induction Hcl as [|p ic ps cl Hp _ IH]; [done|].
    cbn. rewrite IH. f_equal.
    destruct (CournotGame.marginal_costs g !! player_id p); [|done].
    by injection Hp as <-. }
  transitivity ((λ i, default 0%Qc (Py.get qs i)) <$> cl.*1).
  { by rewrite <- list_fmap_compose. }
  rewrite Hids, <- list_fmap_compose.
  apply list_fmap_ext. intros n p Hp. cbn.
  rewrite (list_to_map_keyed fst (λ i, default 0%Qc (Py.get qs i))); [done|].
  rewrite Hids. apply list_elem_of_fmap. exists p. split; [done|].
  by eapply list_elem_of_lookup_2.
Qed.

Lemma Qc_of_Z_2 : Qc_of_Z 2 = (1 + 1)%Qc.
Proof. apply Qc_is_canon. reflexivity. Qed.

Lemma Qc_of_Z_3 : Qc_of_Z 3 = (1 + 1 + 1)%Qc.
Proof. apply Qc_is_canon. reflexivity. Qed.

Lemma Qc_three_ne_0 : (1 + 1 + 1)%Qc ≠ 0%Qc.
Proof. intros Heq. apply (f_equal this) in Heq. vm_compute in Heq. discriminate. Qed.

(** The interior solution of the duopoly, in closed form. *)
Lemma interior_duopoly (a c0 c1 : Qc) :
  CournotGame.interior a 1%Qc [(0, c0); (1, c1)]
  = [(0, ((a - Qc_of_Z 2 * c0 + c1) / Qc_of_Z 3)%Qc);
     (1, ((a - Qc_of_Z 2 * c1 + c0) / Qc_of_Z 3)%Qc)].
Proof.
  unfold CournotGame.interior, CournotGame.qsum.
  cbn [length fmap list_fmap foldr fst snd].
  change (Qc_of_Z (Z.of_nat 2)) with (Qc_of_Z 2).
  rewrite Qc_of_Z_2, Qc_of_Z_3.
  pose proof Qc_three_ne_0.
  apply (f_equal2 cons);
    [apply (f_equal (pair 0))
    |apply (f_equal2 cons); [apply (f_equal (pair 1))|done]];
    field; done.
Qed.

Lemma Qc_square_nonneg (x : Qc) : (0 ≤ x * x)%Qc.
Proof.
  destruct (Qclt_le_dec x 0) as [Hneg|Hpos].
  - replace (x * x)%Qc with ((- x) * (- x))%Qc by ring.
    assert (0 ≤ - x)%Qc as Hx.
    { apply Qclt_le_weak in Hneg. apply Qcopp_le_compat in Hneg.
      by replace (- 0)%Qc with 0%Qc in Hneg by ring. }
    by apply Qcmult_nonneg_nonneg.
  - by apply Qcmult_nonneg_nonneg.
Qed.

(** Against the quantity [other] of the rival, the quantity
    [(a - c - other) / 2] earns at least as much as any other quantity
    under the demand [P(Q) = a - Q]. *)
Lemma best_reply (a c other q best : Qc) :
  (best + best = a - c - other)%Qc →
  ((a - (q + other) - c) * q ≤ (a - (best + other) - c) * best)%Qc.
Proof.
  intros Hbest. apply Qcle_minus_iff.
  replace ((a - (best + other) - c) * best + - ((a - (q + other) - c) * q))%Qc
    with ((q - best) * (q - best))%Qc.
  { apply Qc_square_nonneg. }
  replace (a - (best + other) - c)%Qc with ((a - c - other) - best)%Qc by ring.
  replace (a - (q + other) - c)%Qc with ((a - c - other) - q)%Qc by ring.
  rewrite <- Hbest. ring.
Qed.

(** The solver on the two firms of the Cournot handler, slope 1, when both
    interior quantities are non-negative. *)
Lemma duopoly_equilibrium (a c0 c1 : Qc) (m : gmap Z Qc) :
  ¬ (a ≤ 0)%Qc →
  m !! 0 = Some c0 → m !! 1 = Some c1 → size m = 2%nat →
  (0 ≤ (a - Qc_of_Z 2 * c0 + c1) / Qc_of_Z 3)%Qc →
  (0 ≤ (a - Qc_of_Z 2 * c1 + c0) / Qc_of_Z 3)%Qc →
  ∃ eq,
    CournotGame.compute_equilibrium (CournotGame.Make Main.cournot_players a 1%Qc m)
    = Ok eq
    ∧ CournotGame.quantities eq
      = <[0 := ((a - Qc_of_Z 2 * c0 + c1) / Qc_of_Z 3)%Qc]>
          (<[1 := ((a - Qc_of_Z 2 * c1 + c0) / Qc_of_Z 3)%Qc]> ∅)
    ∧ CournotGame.payoffs eq
      = <[0 := ((CournotGame.price eq - c0)
                * ((a - Qc_of_Z 2 * c0 + c1) / Qc_of_Z 3))%Qc]>
          (<[1 := ((CournotGame.price eq - c1)
                   * ((a - Qc_of_Z 2 * c1 + c0) / Qc_of_Z 3))%Qc]> ∅).
Proof.
  intros Ha H0 H1 Hsize Hq0 Hq1.
  unfold CournotGame.compute_equilibrium.
  cbn [CournotGame.demand_intercept CournotGame.demand_slope
         CournotGame.marginal_costs CournotGame.players].
  rewrite (bool_decide_eq_false_2 _ Ha).
  rewrite bool_decide_eq_false_2
    by (intros Hle; apply (Hle eq_refl)).
  rewrite bool_decide_eq_false_2 by (by rewrite Hsize; intros Hne; apply Hne).
  unfold Main.cournot_players. cbn [rmap player_id]. rewrite H0, H1.
  cbn [rbind length CournotGame.reaction].
  rewrite interior_duopoly.
  cbn [forallb snd]. rewrite !bool_decide_eq_true_2 by done.
  cbn [andb fmap list_fmap fst snd list_to_map foldr uncurry].
  eexists. split; [reflexivity|]. split; reflexivity.
Qed.

Section CournotDefaults.
Context {G : Type}.
Variable AVAILABLE_GAMES : gmap string GameFactory.game_info.
Variable create_prisoners_dilemma :
  option (list string) → option (list Strategy) → json → result G.
Variable create_cournot_game :
  option (list string) → json → json → json → result G.
Variable create_auction_game :
  option (list string) → json → json → result G.
Variable random_source : nat → nat.

Lemma create_strategies_registered names :
  Forall (λ n, n ∈ registered_strategies) names →
  ∃ instances, rmap (GameFactory.create_strategy random_source) names = Ok instances.
Proof.
  induction 1 as [|n names Hn _ [instances IH]]; cbn; [by eexists|].
  destruct (create_strategy_registered random_source _ Hn) as (c & _ & -> & _).
  cbn. rewrite IH. by eexists.
Qed.

(** C10: without [demand_intercept] and [demand_slope] in [params] the
    factory hands 100.0 and 1.0 to the Cournot template; the request
    model fills the same two values in.  An equilibrium query that carries
    marginal costs only is therefore answered with what the solver returns
    for the game with intercept 100 and slope 1, and with nothing else: the
    reported price is [100 - (q_0 + q_1)], and when both firms produce, the
    reported quantities are [(100 - 2 c_i + c_j) / 3], each the most
    profitable reply to the other under the demand [P(Q) = 100 - Q]. *)
Theorem cournot_defaults :
  (∀ params player_names strategies,
     "cournot" ∈ dom AVAILABLE_GAMES →
     Py.get params "demand_intercept" = None →
     Py.get params "demand_slope" = None →
     match strategies with
     | Some names => Forall (λ n, n ∈ registered_strategies) names
     | None => True
     end →
     GameFactory.create_game_from_template AVAILABLE_GAMES
       create_prisoners_dilemma create_cournot_game create_auction_game
       random_source "cournot" params player_names strategies
     = create_cournot_game player_names
         (JNum (Qc_of_Z 100)) (JNum (Qc_of_Z 1))
         (GameFactory.param params "marginal_costs"))
  ∧ (∀ costs,
       CournotEquilibriumRequest.of_body None None costs
       = CournotEquilibriumRequest.Make (Qc_of_Z 100) (Qc_of_Z 1) costs)
  ∧ (∀ costs (st st' : SessionManager.t G) response,
       Main.compute_cournot_equilibrium
         (CournotEquilibriumRequest.of_body None None costs) st
       = (Response response, st') →
       let q key :=
         default 0%Qc
           (CournotEquilibriumResponse.equilibrium_quantities response !! key) in
       CournotEquilibriumResponse.equilibrium_price response
       = (Qc_of_Z 100 - (q "0" + q "1"))%Qc)
  ∧ (∀ costs (st : SessionManager.t G),
       Main.compute_cournot_equilibrium
         (CournotEquilibriumRequest.of_body None None costs) st
       = match Py.int_keys costs with
         | Raise e => (HTTPException 400 ("Invalid request: " +:+ exn_str e), st)
         | Ok marginal_costs =>
             match CournotGame.compute_equilibrium
                     (CournotGame.Make Main.cournot_players
                        (Qc_of_Z 100) (Qc_of_Z 1) marginal_costs) with
             | Raise e =>
                 (HTTPException 400 ("Invalid request: " +:+ exn_str e), st)
             | Ok equilibrium =>
                 (Response (CournotEquilibriumResponse.Make
                              (Py.str_keys (CournotGame.quantities equilibrium))
                              (CournotGame.price equilibrium)
                              (Py.str_keys (CournotGame.payoffs equilibrium))),
                  st)
             end
         end)
  ∧ (∀ costs marginal_costs c0 c1 (st : SessionManager.t G),
       Py.int_keys costs = Ok marginal_costs →
       marginal_costs !! 0 = Some c0 →
       marginal_costs !! 1 = Some c1 →
       size marginal_costs = 2%nat →
       let q0 := ((Qc_of_Z 100 - Qc_of_Z 2 * c0 + c1) / Qc_of_Z 3)%Qc in
       let q1 := ((Qc_of_Z 100 - Qc_of_Z 2 * c1 + c0) / Qc_of_Z 3)%Qc in
       let price := (Qc_of_Z 100 - (q0 + q1))%Qc in
       (0 ≤ q0)%Qc → (0 ≤ q1)%Qc →
       Main.compute_cournot_equilibrium
         (CournotEquilibriumRequest.of_body None None costs) st
       = (Response (CournotEquilibriumResponse.Make
                      (<["0" := q0]> (<["1" := q1]> ∅))
                      price
                      (<["0" := ((price - c0) * q0)%Qc]>
                         (<["1" := ((price - c1) * q1)%Qc]> ∅))), st)
       ∧ (∀ q, ((Qc_of_Z 100 - (q + q1) - c0) * q ≤ (price - c0) * q0)%Qc)
       ∧ (∀ q, ((Qc_of_Z 100 - (q0 + q) - c1) * q ≤ (price - c1) * q1)%Qc)).
Proof.
  assert (∀ costs (st : SessionManager.t G),
       Main.compute_cournot_equilibrium
         (CournotEquilibriumRequest.of_body None None costs) st
       = match Py.int_keys costs with
         | Raise e => (HTTPException 400 ("Invalid request: " +:+ exn_str e), st)
         | Ok marginal_costs =>
             match CournotGame.compute_equilibrium
                     (CournotGame.Make Main.cournot_players
                        (Qc_of_Z 100) (Qc_of_Z 1) marginal_costs) with
             | Raise e =>
                 (HTTPException 400 ("Invalid request: " +:+ exn_str e), st)
             | Ok equilibrium =>
                 (Response (CournotEquilibriumResponse.Make
                              (Py.str_keys (CournotGame.quantities equilibrium))
                              (CournotGame.price equilibrium)
                              (Py.str_keys (CournotGame.payoffs equilibrium))),
                  st)
             end
         end) as Hsolved.
  { intros costs st. unfold Main.compute_cournot_equilibrium.
    cbn [CournotEquilibriumRequest.of_body default
           CournotEquilibriumRequest.demand_intercept
           CournotEquilibriumRequest.demand_slope
           CournotEquilibriumRequest.marginal_costs].
    destruct (Py.int_keys costs) as [m|]; [|done].
    cbn [rbind].
    change CournotEquilibriumRequest.default_demand_intercept with (Qc_of_Z 100).
    change CournotEquilibriumRequest.default_demand_slope with (Qc_of_Z 1).
    by destruct (CournotGame.compute_equilibrium _). }
  split; [|split; [done|split; [|split; [done|]]]].
  - intros params player_names strategies Hin Hint Hslope Hstrat.
    unfold GameFactory.create_game_from_template.
    rewrite bool_decide_eq_false_2 by (by intros Hnin).
    assert (∃ instances,
              match strategies with
              | None | Some [] => Ok None
              | Some names =>
                  rfmap Some (rmap (GameFactory.create_strategy random_source) names)
              end = Ok instances) as [instances ->].
    { destruct strategies as [[|n names]|]; [by eexists| |by eexists].
      destruct (create_strategies_registered _ Hstrat) as [instances ->].
      by eexists. }
    cbn. unfold Py.get_default. by rewrite Hint, Hslope.
  - intros costs st st' response. rewrite Hsolved.
    destruct (Py.int_keys costs) as [m|]; [|done].
    destruct (CournotGame.compute_equilibrium _) as [eq|] eqn:Heq; [|done].
    intros [= <- <-].
    apply compute_equilibrium_price in Heq.
    cbn [CournotEquilibriumResponse.equilibrium_price
           CournotEquilibriumResponse.equilibrium_quantities].
    rewrite Heq. cbn [CournotGame.demand_intercept CournotGame.demand_slope
                        CournotGame.players Main.cournot_players].
    change "0" with (Py.str 0). change "1" with (Py.str 1).
    rewrite !str_keys_lookup.
    change (Qc_of_Z 1) with 1%Qc.
    unfold Main.cournot_players, CournotGame.qsum.
    cbn [fmap list_fmap foldr player_id]. ring.
  - intros costs m c0 c1 st Hint H0 H1 Hsize q0 q1 price Hq0 Hq1.
    assert (price = (Qc_of_Z 100 + c0 + c1) / Qc_of_Z 3)%Qc as Hprice.
    { unfold price, q0, q1. rewrite Qc_of_Z_2, Qc_of_Z_3.
      pose proof Qc_three_ne_0. field. done. }
    split; [|split].
    + rewrite Hsolved, Hint. change (Qc_of_Z 1) with 1%Qc.
      destruct (duopoly_equilibrium (Qc_of_Z 100) c0 c1 m)
        as (eq & Heq & Hquantities & Hpayoffs);
        [by intros Hle; apply (Hle eq_refl)|done..|].
      rewrite Heq.
      apply compute_equilibrium_price in Heq.
      rewrite Hpayoffs, Hquantities.
      assert (CournotGame.price eq = price) as ->.
      { rewrite Heq, Hquantities.
        cbn [CournotGame.demand_intercept CournotGame.demand_slope
               CournotGame.players].
        unfold Main.cournot_players, CournotGame.qsum.
        cbn [fmap list_fmap foldr player_id].
        rewrite lookup_insert_eq, lookup_insert_ne, lookup_insert_eq by done.
        cbn [default id]. fold q0 q1. unfold price. ring. }
      unfold Py.str_keys.
      rewrite !(kmap_insert Py.str), !kmap_empty. reflexivity.
    + intros q. apply best_reply. fold price.
      unfold price, q0, q1. rewrite Qc_of_Z_2, Qc_of_Z_3.
      pose proof Qc_three_ne_0. field. done.
    + intros q.
      replace (Qc_of_Z 100 - (q0 + q) - c1)%Qc
        with (Qc_of_Z 100 - (q + q0) - c1)%Qc by ring.
      replace (price - c1)%Qc with (Qc_of_Z 100 - (q1 + q0) - c1)%Qc
        by (unfold price; ring).
      apply best_reply.
      unfold q0, q1. rewrite Qc_of_Z_2, Qc_of_Z_3.
      pose proof Qc_three_ne_0. field. done.
Qed.
End CournotDefaults.

Lemma cournot_defaults_witness :
  GameFactory.create_game_from_template three_templates
    (λ _ _ _, Raise (ValueError "not a Cournot game"))
    (λ _ intercept slope _, Ok (intercept, slope))
    (λ _ _ _, Raise (ValueError "not a Cournot game"))
    (λ _, 0%nat) "cournot"
    [("marginal_costs", JList [JNum (Qc_of_Z 10); JNum (Qc_of_Z 10)])]
    None (Some ["TitForTat"; "GrimTrigger"])
  = Ok (JNum (Qc_of_Z 100), JNum (Qc_of_Z 1))
  ∧ ∃ response,
      Main.compute_cournot_equilibrium
        (CournotEquilibriumRequest.of_body None None
           [("0", Qc_of_Z 10); ("1", Qc_of_Z 40)])
        (SessionManager.init (Game := json * json))
      = (Response response, SessionManager.init)
      ∧ CournotEquilibriumResponse.equilibrium_quantities response !! "0"
        = Some (Qc_of_Z 40)
      ∧ CournotEquilibriumResponse.equilibrium_quantities response !! "1"
        = Some (Qc_of_Z 10)
      ∧ CournotEquilibriumResponse.equilibrium_price response = Qc_of_Z 50
      ∧ CournotEquilibriumResponse.payoffs response !! "0" = Some (Qc_of_Z 1600)
      ∧ CournotEquilibriumResponse.payoffs response !! "1" = Some (Qc_of_Z 100).
Proof.
  pose proof (cournot_defaults (G := json * json) three_templates
                (λ _ _ _, Raise (ValueError "not a Cournot game"))
                (λ _ intercept slope _, Ok (intercept, slope))
                (λ _ _ _, Raise (ValueError "not a Cournot game"))
                (λ _, 0%nat)) as (Hfactory & _ & _ & _ & Hduopoly).
  split.
  - apply Hfactory.
    + refine (bool_decide_unpack _ _). vm_compute. exact I.
    + reflexivity.
    + reflexivity.
    + refine (bool_decide_unpack _ _). vm_compute. exact I.
  - destruct (Hduopoly [("0", Qc_of_Z 10); ("1", Qc_of_Z 40)]
                (<[0 := Qc_of_Z 10]> (<[1 := Qc_of_Z 40]> ∅))
                (Qc_of_Z 10) (Qc_of_Z 40) SessionManager.init)
      as (Hanswer & _ & _).
    + vm_compute. reflexivity.
    + reflexivity.
    + reflexivity.
    + reflexivity.
    + refine (bool_decide_unpack _ _). vm_compute. exact I.
    + refine (bool_decide_unpack _ _). vm_compute. exact I.
    + eexists. split; [exact Hanswer|].
      repeat split; refine (bool_decide_unpack _ _); vm_compute; exact I.
Defined.

(** ** The models on the examples of the spec *)

Example int_examples :
  Py.int "00" = Ok 0 ∧ Py.int " 1_0 " = Ok 10 ∧ Py.int "+1" = Ok 1
  ∧ Py.int "-12" = Ok (-12)
  ∧ Py.int "1__0" = Raise (ValueError "invalid literal for int() with base 10: '1__0'")
  ∧ Py.int "" = Raise (ValueError "invalid literal for int() with base 10: ''").
Proof. repeat split; reflexivity. Qed.

Example repr_examples :
  Py.repr "one" = "'one'"
  ∧ Py.repr "firm's"
    = String Py.double_quote ("firm's" +:+ String Py.double_quote "")
  ∧ Py.repr (String Py.double_quote "it's")
    = "'" +:+ String Py.double_quote ("it" +:+ String Py.backslash "'s'")
  ∧ Py.repr (String (ascii_of_N 9) "1") = "'" +:+ String Py.backslash "t1'"
  ∧ Py.repr (String (ascii_of_N 28) "0") = "'" +:+ String Py.backslash "x1c0'"
  ∧ Py.repr (String Py.backslash "n") = "'" +:+ String Py.backslash (String Py.backslash "n'").
Proof. repeat split; reflexivity. Qed.

(** Form feed is skipped around a literal, the file separator is not. *)
Example int_space_examples :
  Py.int (String (ascii_of_N 12) "7") = Ok 7
  ∧ Py.int (String (ascii_of_N 28) "0")
    = Raise (ValueError ("invalid literal for int() with base 10: '"
                         +:+ String Py.backslash "x1c0'")).
Proof. split; reflexivity. Qed.

Example split_examples :
  Py.split "," "C,D" = ["C"; "D"] ∧ Py.split "," "" = [""]
  ∧ Py.split "," ",a," = [""; "a"; ""].
Proof. repeat split; reflexivity. Qed.

(** Section 8: the symmetric duopoly [a=100], [b=1], [c1=c2=10] has
    [q1=q2=30], price 40 and profits 900. *)
Example symmetric_duopoly :
  ∃ response,
    body_of (Main.compute_cournot_equilibrium
               (CournotEquilibriumRequest.of_body None None
                  [("0", Qc_of_Z 10); ("1", Qc_of_Z 10)])
               (SessionManager.init (Game := unit)))
    = Some response
    ∧ CournotEquilibriumResponse.equilibrium_quantities response !! "0"
      = Some (Qc_of_Z 30)
    ∧ CournotEquilibriumResponse.equilibrium_quantities response !! "1"
      = Some (Qc_of_Z 30)
    ∧ CournotEquilibriumResponse.equilibrium_price response = Qc_of_Z 40
    ∧ CournotEquilibriumResponse.payoffs response !! "0" = Some (Qc_of_Z 900)
    ∧ CournotEquilibriumResponse.payoffs response !! "1" = Some (Qc_of_Z 900).
Proof.
  eexists. split; [vm_compute; reflexivity|].
  repeat split; refine (bool_decide_unpack _ _); vm_compute; exact I.
Qed.

(** A firm whose cost is too high is shut down and the other firm is a
    monopolist: [a=100], [b=1], [c1=10], [c2=90] gives [q1=45], [q2=0],
    price 55. *)
Example corner_duopoly :
  ∃ response,
    body_of (Main.compute_cournot_equilibrium
               (CournotEquilibriumRequest.of_body None None
                  [("0", Qc_of_Z 10); ("1", Qc_of_Z 90)])
               (SessionManager.init (Game := unit)))
    = Some response
    ∧ CournotEquilibriumResponse.equilibrium_quantities response !! "0"
      = Some (Qc_of_Z 45)
    ∧ CournotEquilibriumResponse.equilibrium_quantities response !! "1"
      = Some (Qc_of_Z 0)
    ∧ CournotEquilibriumResponse.equilibrium_price response = Qc_of_Z 55.
Proof.
  eexists. split; [vm_compute; reflexivity|].
  repeat split; refine (bool_decide_unpack _ _); vm_compute; exact I.
Qed.

(** Battle of the Sexes: two pure equilibria and the mixed one with
    probabilities 2/3 and 1/3. *)
Example battle_of_the_sexes :
  ∃ result,
    NashSolver.find_all_nash bos_game = Ok result
    ∧ NashSolver.pure result = [["O"; "O"]; ["F"; "F"]]
    ∧ NashSolver.mixed result
      = [ [ (0, [("O", Q2Qc (2 # 3)); ("F", Q2Qc (1 # 3))]);
            (1, [("O", Q2Qc (1 # 3)); ("F", Q2Qc (2 # 3))]) ] ].
Proof.
  eexists. split; [vm_compute; reflexivity|].
  split; [reflexivity|].
  refine (bool_decide_unpack _ _). vm_compute. exact I.
Qed.

(** Section 8: [TitForTat] against [AlwaysDefect] for five rounds from an
    empty history plays (Cooperate, Defect) and then (Defect, Defect) four
    times; the totals are the payoffs summed round by round. *)
Example tit_for_tat_vs_always_defect :
  ∃ result,
    (Repeated.simulate_repeated_game (H := plain_normal_form)
       (repeated_pd AlwaysDefect []) 5 None true).1 = Ok result
    ∧ Repeated.strategy_history result
      = {[ 0 := "Cooperate"; 1 := "Defect" ]}
        :: replicate 4 {[ 0 := "Defect"; 1 := "Defect" ]}
    ∧ fst <$> Repeated.history result
      = ["Cooperate"; "Defect"] :: replicate 4 ["Defect"; "Defect"]
    ∧ Repeated.cumulative_payoffs result !! 0 = Some (Qc_of_Z 4)
    ∧ Repeated.cumulative_payoffs result !! 1 = Some (Qc_of_Z 9).
Proof.
  eexists. split; [vm_compute; reflexivity|].
  repeat split; refine (bool_decide_unpack _ _); vm_compute; exact I.
Qed.

(** * Further properties of the backend *)

(** ** The session store: listing, replacing, deleting *)

Section SessionLifecycle.
Context {Game : Type}.
Implicit Types (sm : SessionManager.t Game) (sid : string).

(** X1: [list_sessions] lists every stored id once, and nothing else. *)
Theorem list_sessions_stored sm :
  NoDup (SessionManager.list_sessions sm)
  ∧ ∀ sid, sid ∈ SessionManager.list_sessions sm
           ↔ is_Some (SessionManager.get_session sid sm).
Proof.
  unfold SessionManager.list_sessions, SessionManager.get_session. split.
  - apply NoDup_fst_map_to_list.
  - intros sid. rewrite list_elem_of_fmap. split.
    + intros ([sid' s] & -> & Hin). apply elem_of_map_to_list in Hin. by exists s.
    + intros [s Hs]. exists (sid, s). split; [done|]. by apply elem_of_map_to_list.
Qed.

(** X2: [create_session] returns the supplied id when there is one and
    the generated id otherwise; under an id that is already stored it
    replaces that session, so the number of listed sessions grows by one
    exactly when the id is new. *)
Theorem create_session_replaces uuid (session_id : option string)
    (g : Game) (gt : string) sm :
  let sid := default uuid session_id in
  let sm' := (SessionManager.create_session uuid session_id g gt sm).2 in
  (SessionManager.create_session uuid session_id g gt sm).1 = sid
  ∧ SessionManager.get_session sid sm' = Some (SessionManager.Session g gt None)
  ∧ (is_Some (SessionManager.get_session sid sm) →
       length (SessionManager.list_sessions sm')
       = length (SessionManager.list_sessions sm))
  ∧ (SessionManager.get_session sid sm = None →
       length (SessionManager.list_sessions sm')
       = S (length (SessionManager.list_sessions sm))).
Proof.
  unfold SessionManager.create_session, SessionManager.list_sessions,
    SessionManager.get_session.
  destruct session_id as [s|]; cbn;
    (split; [done|]; split; [apply lookup_insert_eq|]);
    rewrite !length_fmap, !length_map_to_list;
    (split; [apply map_size_insert_Some | apply map_size_insert_None]).
Qed.

(** X3: deleting the id a session was just created under, when that id
    was new, gives back the store as it was; deleting an id a second time
    answers [False] and changes nothing. *)
Theorem delete_session_undoes_create uuid (session_id : option string)
    (g : Game) (gt : string) sm sid :
  (SessionManager.get_session (default uuid session_id) sm = None →
   SessionManager.delete_session (default uuid session_id)
     (SessionManager.create_session uuid session_id g gt sm).2
   = (true, sm))
  ∧ SessionManager.delete_session sid (SessionManager.delete_session sid sm).2
    = (false, (SessionManager.delete_session sid sm).2).
Proof.
  unfold SessionManager.delete_session, SessionManager.get_session,
    SessionManager.create_session.
  destruct sm as [m]. cbn. split.
  - intros Hnew. rewrite decide_True
      by (apply elem_of_dom; rewrite lookup_insert_eq; by eexists).
    by rewrite delete_insert_id.
  - destruct (decide (sid ∈ dom m)) as [Hin|Hnin]; cbn.
    + rewrite decide_False; [done|]. rewrite elem_of_dom, lookup_delete_eq.
      by intros [? ?].
    + by rewrite decide_False.
Qed.
End SessionLifecycle.

(** ** Request dictionaries *)

Section DictFacts.
Context {K V : Type} `{EqDecision K}.
Implicit Types (d : Py.dict K V) (k : K) (v : V).

Lemma dict_get_set_eq d k v : Py.get (Py.set d k v) k = Some v.
Proof.
  induction d as [|[k' v'] d IH]; cbn.
  - by rewrite decide_True.
  - destruct (decide (k = k')) as [->|Hne]; cbn.
    + by rewrite decide_True.
    + by rewrite decide_False.
Qed.

Lemma dict_get_set_ne d k k' v : k ≠ k' → Py.get (Py.set d k v) k' = Py.get d k'.
Proof.
  intros Hne. induction d as [|[k0 v0] d IH]; cbn.
  - by rewrite decide_False.
  - destruct (decide (k = k0)) as [->|Hne0]; cbn.
    + by rewrite !decide_False.
    + destruct (decide (k' = k0)); [done | exact IH].
Qed.

Lemma dict_set_keys d k v :
  (Py.set d k v).*1 = if decide (k ∈ d.*1) then d.*1 else d.*1 ++ [k].
Proof.
  induction d as [|[k' v'] d IH]; cbn.
  - rewrite decide_False; [done | apply not_elem_of_nil].
  - destruct (decide (k = k')) as [->|Hne]; cbn.
    + rewrite decide_True; [done | left].
    + rewrite IH. destruct (decide (k ∈ d.*1)) as [Hin|Hnin].
      * rewrite decide_True; [done | by right].
      * rewrite decide_False; [done|]. by intros [?|?]%elem_of_cons.
Qed.

Lemma dict_set_NoDup d k v : NoDup d.*1 → NoDup (Py.set d k v).*1.
Proof.
  intros Hnd. rewrite dict_set_keys. case_decide as Hin; [done|].
  apply NoDup_app. split; [done|]. split; [|apply NoDup_singleton].
  intros x Hx ->%list_elem_of_singleton. done.
Qed.

End DictFacts.

(** ** [serialize_game_state] *)

Section Serialize.
Context {G : Type} `{Game G}.

(** X4: whatever [get_state] returned, the serialized state carries
    under ["game_type"] the name of the game's kind; every key of
    [get_state] other than the six the serializer may write keeps its
    value; and the keys stay distinct. *)
Theorem serialize_game_state_keys (g : G) :
  Py.get (Main.serialize_game_state g) "game_type"
  = Some (JStr (kind_name (game_view_of g)))
  ∧ (∀ k, k ∉ serialized_keys →
       Py.get (Main.serialize_game_state g) k = Py.get (game_get_state g) k)
  ∧ (NoDup (game_get_state g).*1 → NoDup (Main.serialize_game_state g).*1).
Proof.
  unfold Main.serialize_game_state, serialized_keys.
  destruct (game_view_of g) as [pm acts|a b costs|]; cbn.
  - split; [|split].
    + do 2 (rewrite dict_get_set_ne by done). apply dict_get_set_eq.
    + intros k Hk. rewrite !not_elem_of_cons in Hk.
      destruct Hk as (? & ? & ? & _). by do 3 (rewrite dict_get_set_ne by done).
    + intros Hnd. by do 3 apply dict_set_NoDup.
  - split; [|split].
    + do 3 (rewrite dict_get_set_ne by done). apply dict_get_set_eq.
    + intros k Hk. rewrite !not_elem_of_cons in Hk.
      destruct Hk as (? & _ & _ & ? & ? & ? & _).
      by do 4 (rewrite dict_get_set_ne by done).
    + intros Hnd. by do 4 apply dict_set_NoDup.
  - split; [|split].
    + apply dict_get_set_eq.
    + intros k Hk. rewrite !not_elem_of_cons in Hk.
      destruct Hk as (? & _). by rewrite dict_get_set_ne.
    + intros Hnd. by apply dict_set_NoDup.
Qed.

End Serialize.

(** ** The session handlers and the store *)

Section StoreEffects.
Context {G : Type} `{Game G}.
Variable AVAILABLE_GAMES : gmap string GameFactory.game_info.
Variable create_prisoners_dilemma :
  option (list string) → option (list Strategy) → json → result G.
Variable create_cournot_game :
  option (list string) → json → json → json → result G.
Variable create_auction_game :
  option (list string) → json → json → result G.
Variable random_source : nat → nat.
Implicit Types (st : SessionManager.t G) (sid : string).

Local Abbreviation create_game :=
  (Main.create_game AVAILABLE_GAMES
     create_prisoners_dilemma create_cournot_game create_auction_game
     random_source).
Local Abbreviation create_game_from_template :=
  (GameFactory.create_game_from_template AVAILABLE_GAMES
     create_prisoners_dilemma create_cournot_game create_auction_game
     random_source).

Lemma put_game_get sid (s : SessionManager.session G) g st :
  SessionManager.get_session sid (Main.put_game sid s g st)
  = Some (SessionManager.Session g (SessionManager.game_type s)
            (SessionManager.created_at s)).
Proof. apply lookup_insert_eq. Qed.

Lemma put_game_same sid (s : SessionManager.session G) g st :
  SessionManager.get_session sid st = Some s →
  same_sessions_but_game sid st (Main.put_game sid s g st).
Proof.
  intros Hs. unfold same_sessions_but_game, Main.put_game,
    SessionManager.get_session in *. cbn.
  split; [by apply dom_insert_lookup_L|].
  split; [intros other Hne; by apply lookup_insert_ne|].
  by rewrite lookup_insert_eq, Hs.
Qed.

Lemma same_sessions_refl sid st : same_sessions_but_game sid st st.
Proof. by repeat split. Qed.

(** X6: each of the four session handlers answers 404 "Session not
    found" exactly when the id is not stored, and then leaves the store as
    it is. *)
Theorem session_not_found sid (play : PlayRoundRequest.t)
    (simulate : SimulateRequest.t) st :
  (SessionManager.get_session sid st = None →
     Main.get_game_session sid st = (HTTPException 404 "Session not found", st)
     ∧ Main.play_round sid play st = (HTTPException 404 "Session not found", st)
     ∧ Main.simulate_game sid simulate st
       = (HTTPException 404 "Session not found", st)
     ∧ Main.reset_game sid st = (HTTPException 404 "Session not found", st))
  ∧ (is_Some (SessionManager.get_session sid st) →
       status_of (Main.get_game_session sid st).1 ≠ 404
       ∧ status_of (Main.play_round sid play st).1 ≠ 404
       ∧ status_of (Main.simulate_game sid simulate st).1 ≠ 404
       ∧ status_of (Main.reset_game sid st).1 ≠ 404).
Proof.
  unfold Main.get_game_session, Main.play_round, Main.simulate_game,
    Main.reset_game. split.
  - intros ->. done.
  - intros [session ->]. repeat split; cbn; try done.
    + destruct (Py.int_keys _); [|done].
      destruct (game_play_round _ _) as [[?|e] ?]; [done|].
      by destruct (is_KeyError e || is_ValueError e).
    + destruct (Repeated.simulate_repeated_game _ _ _ _) as [[?|?] ?]; done.
Qed.

(** X7: get, play, simulate and reset never add or remove a session,
    never touch another session, and keep the [game_type] and
    [created_at] of the session they work on. *)
Theorem session_handlers_frame sid (play : PlayRoundRequest.t)
    (simulate : SimulateRequest.t) st :
  same_sessions_but_game sid st (Main.get_game_session sid st).2
  ∧ same_sessions_but_game sid st (Main.play_round sid play st).2
  ∧ same_sessions_but_game sid st (Main.simulate_game sid simulate st).2
  ∧ same_sessions_but_game sid st (Main.reset_game sid st).2.
Proof.
  unfold Main.get_game_session, Main.play_round, Main.simulate_game,
    Main.reset_game.
  destruct (SessionManager.get_session sid st) as [session|] eqn:Hs;
    [|repeat split; apply same_sessions_refl].
  split; [apply same_sessions_refl|]. split; [|split].
  - destruct (Py.int_keys _); [|apply same_sessions_refl].
    destruct (game_play_round _ _) as [[?|e] ?]; [by apply put_game_same|].
    destruct (is_KeyError e || is_ValueError e); by apply put_game_same.
  - destruct (Repeated.simulate_repeated_game _ _ _ _) as [[?|?] ?];
      by apply put_game_same.
  - by apply put_game_same.
Qed.

(** X8: the state a play or reset response carries is the state a get of
    the same session answers with right afterwards. *)
Theorem read_after_write sid (play : PlayRoundRequest.t) st :
  (∀ response st',
     Main.play_round sid play st = (Response response, st') →
     ∃ session,
       SessionManager.get_session sid st = Some session
       ∧ Main.get_game_session sid st'
         = (Response (Main.SessionView sid (SessionManager.game_type session)
                        (PlayRoundResponse.game_state response)), st'))
  ∧ (∀ response st',
       Main.reset_game sid st = (Response response, st') →
       ∃ session,
         SessionManager.get_session sid st = Some session
         ∧ Main.reset_message response = "Game reset successfully"
         ∧ Main.get_game_session sid st'
           = (Response (Main.SessionView sid (SessionManager.game_type session)
                          (Main.reset_game_state response)), st')).
Proof.
  unfold Main.play_round, Main.reset_game, Main.get_game_session. split.
  - intros response st'.
    destruct (SessionManager.get_session sid st) as [session|]; [|done].
    destruct (Py.int_keys _); [|done].
    destruct (game_play_round _ _) as [[payoffs|e] game'].
    2:{ by destruct (is_KeyError e || is_ValueError e). }
    intros [= <- <-]. exists session. split; [done|].
    by rewrite put_game_get.
  - intros response st'.
    destruct (SessionManager.get_session sid st) as [session|]; [|done].
    intros [= <- <-]. exists session. split; [done|]. split; [done|].
    by rewrite put_game_get.
Qed.

(** X9: a create request that the factory refuses stores nothing: a
    [ValueError] is answered with 400 and its message, an [IndexError],
    [KeyError] or [NotImplementedError] with 500 "Internal server error: "
    and its message.  A create request that is answered carries the generated
    id and the requested game type, leaves every other session as it was, and
    a get of the new id answers with the state the create response
    carried. *)
Theorem create_game_effect uuid (request : CreateGameRequest.t) st :
  (∀ e,
     create_game_from_template
       (CreateGameRequest.game_type request) (CreateGameRequest.params request)
       (CreateGameRequest.player_names request)
       (CreateGameRequest.strategies request)
     = Raise e →
     (create_game uuid request st).2 = st
     ∧ ((∃ msg, e = ValueError msg) →
        (create_game uuid request st).1 = HTTPException 400 (exn_str e))
     ∧ ((∃ msg, e = IndexError msg) ∨ (∃ key, e = KeyError key)
        ∨ e = NotImplementedError →
        (create_game uuid request st).1
        = HTTPException 500 ("Internal server error: " +:+ exn_str e)))
  ∧ (∀ response st',
       create_game uuid request st = (Response response, st') →
       CreateGameResponse.session_id response = uuid
       ∧ CreateGameResponse.game_type response
         = CreateGameRequest.game_type request
       ∧ (∀ other, other ≠ uuid →
            SessionManager.get_session other st'
            = SessionManager.get_session other st)
       ∧ Main.get_game_session uuid st'
         = (Response (Main.SessionView uuid
                        (CreateGameRequest.game_type request)
                        (CreateGameResponse.game_state response)), st')).
Proof.
  unfold Main.create_game.
  destruct (GameFactory.create_game_from_template _ _ _ _ _ _ _ _ _)
    as [game|e]; cbn.
  - split; [done|]. intros response st' [= <- <-]. cbn.
    split; [done|]. split; [done|]. split.
    + intros other Hne. unfold SessionManager.get_session. cbn.
      by rewrite lookup_insert_ne.
    + unfold Main.get_game_session, SessionManager.get_session. cbn.
      by rewrite lookup_insert_eq.
  - split; [|by destruct (is_ValueError e)].
    intros e' [= <-]. split; [by destruct (is_ValueError e)|]. split.
    + by intros [msg ->].
    + by intros [[msg ->]|[[key ->]| ->]].
Qed.
End StoreEffects.

(** ** Loops that may raise *)

Section LoopFacts.
Context {K V B : Type} `{Countable K}.
Variable g : gmap K V → B → result (gmap K V).
Variable f : B → result (K * V).
Hypothesis g_assigns :
  ∀ acc x, g acc x = rbind (f x) (λ kv, Ok (<[kv.1 := kv.2]> acc)).

Lemma rfold_assign_Ok l kvs acc :
  Forall2 (λ x kv, f x = Ok kv) l kvs →
  rfold g acc l = Ok (assign_all acc kvs).
Proof.
  intros Hall. revert acc.
  induction Hall as [|x kv l kvs Hx _ IH]; intros acc; cbn; [done|].
  rewrite g_assigns, Hx. cbn. by rewrite IH.
Qed.

Lemma rfold_assign_first_Raise pre x post acc e :
  Forall (λ y, ∃ kv, f y = Ok kv) pre → f x = Raise e →
  rfold g acc (pre ++ x :: post) = Raise e.
Proof.
  intros Hpre Hx. revert acc.
  induction Hpre as [|y pre [kv Hy] _ IH]; intros acc; cbn.
  - by rewrite g_assigns, Hx.
  - rewrite g_assigns, Hy. cbn. apply IH.
Qed.


Lemma rfold_assign_succeeds l acc :
  (∃ m, rfold g acc l = Ok m) ↔ Forall (λ x, ∃ kv, f x = Ok kv) l.
Proof.
  split.
  - intros [m Hm]. destruct (rfold_assign g f g_assigns _ _ _ Hm) as (kvs & Hall & _).
    clear Hm. induction Hall; constructor; eauto.
  - intros Hall.
    assert (∃ kvs, Forall2 (λ x kv, f x = Ok kv) l kvs) as [kvs Hkvs].
    { induction Hall as [|x l [kv Hx] _ [kvs IH]]; [by exists []|].
      exists (kv :: kvs). by constructor. }
    eexists. by apply rfold_assign_Ok.
Qed.
End LoopFacts.

Lemma assign_all_size_le {K V} `{Countable K} (kvs : list (K * V)) (acc : gmap K V) :
  (size (assign_all acc kvs) ≤ size acc + length kvs)%nat.
Proof.
  revert acc. induction kvs as [|[k v] kvs IH]; intros acc; [cbn; lia|].
  rewrite assign_all_cons. etrans; [apply IH|].
  rewrite map_size_insert. destruct (acc !! k); cbn; lia.
Qed.

Lemma assign_all_size_NoDup {K V} `{Countable K} (kvs : list (K * V)) (acc : gmap K V) :
  NoDup kvs.*1 → (∀ k, k ∈ kvs.*1 → acc !! k = None) →
  size (assign_all acc kvs) = (size acc + length kvs)%nat.
Proof.
  revert acc. induction kvs as [|[k v] kvs IH]; intros acc Hnd Hfresh; [cbn; lia|].
  rewrite fmap_cons in Hnd. apply NoDup_cons in Hnd as [Hk Hnd].
  rewrite assign_all_cons, IH; [|done|].
  - rewrite map_size_insert_None; [cbn; lia|]. apply Hfresh. left.
  - intros k' Hk'. rewrite lookup_insert_ne; [|by intros <-].
    apply Hfresh. by right.
Qed.

(** ** The integer-keyed dictionaries of the play and Cournot handlers *)

Lemma int_keys_assigns {V} (acc : gmap Z V) (x : string * V) :
  (let '(k, v) := x in let* i := Py.int k in Ok (<[i := v]> acc))
  = rbind ((λ '(k, v), let* i := Py.int k in Ok (i, v)) x)
          (λ kv, Ok (<[kv.1 := kv.2]> acc)).
Proof. destruct x as [k v]. cbn. by destruct (Py.int k). Qed.

Lemma int_Raise k e :
  Py.int k = Raise e → e = ValueError (Py.int_error k).
Proof.
  unfold Py.int. destruct (Py.int_of_chars _); [done|]. by intros [= <-].
Qed.

(** X11: when two keys of a request dictionary parse to the same player
    id, the value of the later key is the one the handler uses; the
    integer-keyed dictionary never has more entries than the request. *)
Theorem int_keys_last_wins {V} (d : Py.dict string V) (m : gmap Z V) :
  Py.int_keys d = Ok m →
  (size m ≤ length d)%nat
  ∧ ∀ j k v i,
      d !! j = Some (k, v) → Py.int k = Ok i →
      (∀ k' v', (k', v') ∈ drop (S j) d → Py.int k' ≠ Ok i) →
      m !! i = Some v.
Proof.
  intros Hm.
  apply (rfold_assign _ (λ '(k, v), let* i := Py.int k in Ok (i, v)))
    in Hm as (kvs & Hall & ->); [|intros; apply int_keys_assigns].
  split.
  { rewrite (Forall2_length _ _ _ Hall).
    etrans; [apply assign_all_size_le|]. by rewrite map_size_empty. }
  intros j k v i Hj Hk Hlater.
  destruct (Forall2_lookup_l _ _ _ _ _ Hall Hj) as ([i' v'] & Hkv & Hf).
  cbn in Hf. rewrite Hk in Hf. cbn in Hf. injection Hf as <- <-.
  eapply assign_all_last; [done|].
  intros ([i2 v2] & Hi2 & [n Hn]%list_elem_of_lookup)%list_elem_of_fmap.
  cbn in Hi2. subst i2. rewrite lookup_drop in Hn.
  destruct (Forall2_lookup_r _ _ _ _ _ Hall Hn) as ([k' v'] & Hd & Hf).
  cbn in Hf. destruct (Py.int k') as [i'|] eqn:Hk'; cbn in Hf; [|done].
  injection Hf as -> ->. apply (Hlater k' v2); [|done].
  apply list_elem_of_lookup. exists n. by rewrite lookup_drop.
Qed.

Lemma int_keys_first_bad {V} (pre post : Py.dict string V) (k : string) (v : V) :
  Forall (λ kv, ∃ i, Py.int kv.1 = Ok i) pre →
  (∀ i, Py.int k ≠ Ok i) →
  Py.int_keys (pre ++ (k, v) :: post) = Raise (ValueError (Py.int_error k)).
Proof.
  intros Hpre Hk.
  destruct (Py.int k) as [i|e] eqn:Hint; [by destruct (Hk i)|].
  rewrite <- (int_Raise _ _ Hint).
  apply (rfold_assign_first_Raise _
           (λ '(k, v), let* i := Py.int k in Ok (i, v)));
    [intros; apply int_keys_assigns| |by cbn; rewrite Hint].
  eapply Forall_impl; [exact Hpre|]. intros [k' v'] [i Hi]. cbn in *.
  rewrite Hi. by eexists.
Qed.

Section BadKey.
Context {G : Type} `{Game G}.
Implicit Types st : SessionManager.t G.

(** X12: a key that is not an integer literal, where this key and the keys
    before it are 7-bit strings of at most 4300 characters; the keys after it
    are never read.  The Cournot endpoint
    answers 400 with the message of [int] for the first such key of
    [marginal_costs]: "invalid literal for int() with base 10: " and the
    [repr] of the key, cut after 200 characters.  The play endpoint, which
    converts the keys before its [try], answers 500 without calling the
    game.  Neither changes the store. *)
Theorem non_integer_key (k : string) :
  Py.plain_key k →
  (∀ i, Py.int k ≠ Ok i) →
  (∀ (intercept slope : Qc) (pre post : Py.dict string Qc) (c : Qc) st,
     Forall (λ kv, Py.plain_key kv.1 ∧ ∃ i, Py.int kv.1 = Ok i) pre →
     Main.compute_cournot_equilibrium
       (CournotEquilibriumRequest.Make intercept slope (pre ++ (k, c) :: post)) st
     = (HTTPException 400 ("Invalid request: " +:+ Py.int_error k), st))
  ∧ (∀ (pre post : Py.dict string string) (a : string) sid st,
       Forall (λ kv, Py.plain_key kv.1 ∧ ∃ i, Py.int kv.1 = Ok i) pre →
       is_Some (SessionManager.get_session sid st) →
       Main.play_round sid (PlayRoundRequest.Make (pre ++ (k, a) :: post)) st
       = (uncaught, st)).
Proof.
  intros _ Hk. split.
  - intros intercept slope pre post c st Hpre.
    unfold Main.compute_cournot_equilibrium.
    cbn [CournotEquilibriumRequest.marginal_costs].
    rewrite (int_keys_first_bad pre post k c); [done| |done].
    eapply Forall_impl; [exact Hpre|]. by intros kv [_ ?].
  - intros pre post a sid st Hpre [session Hs].
    unfold Main.play_round. cbn [PlayRoundRequest.actions].
    rewrite Hs, (int_keys_first_bad pre post k a); [done| |done].
    eapply Forall_impl; [exact Hpre|]. by intros kv [_ ?].
Qed.
End BadKey.

(** ** Rebuilding a game from a request: when it succeeds, how it fails *)

Lemma rmap_length {A B} (f : A → result B) l ys :
  rmap f l = Ok ys → length ys = length l.
Proof. intros Hall%rmap_Ok. by rewrite (Forall2_length _ _ _ Hall). Qed.

Lemma rmap_succeeds {A B} (f : A → result B) l :
  (∃ ys, rmap f l = Ok ys) ↔ Forall (λ x, ∃ y, f x = Ok y) l.
Proof.
  split.
  - intros [ys Hall%rmap_Ok]. induction Hall; constructor; eauto.
  - induction 1 as [|x l [y Hx] _ [ys IH]]; cbn; [by eexists|].
    rewrite Hx. cbn. rewrite IH. by eexists.
Qed.

Lemma sorted_length l : length (Py.sorted l) = length l.
Proof. unfold Py.sorted. by rewrite merge_sort_Permutation. Qed.

Lemma sorted_elem_of l i : i ∈ Py.sorted l ↔ i ∈ l.
Proof. unfold Py.sorted. by rewrite merge_sort_Permutation. Qed.

Lemma payoff_row_assigns payoffs (acc : gmap Z Qc) (x : nat * Z) :
  (let '(idx, i) := x in let* v := Py.index payoffs idx in Ok (<[i := v]> acc))
  = rbind ((λ '(idx, i), let* v := Py.index payoffs idx in Ok (i, v)) x)
          (λ kv, Ok (<[kv.1 := kv.2]> acc)).
Proof. destruct x as [idx i]. cbn. by destruct (Py.index payoffs idx). Qed.

Lemma payoff_row_succeeds (ids : list Z) (payoffs : list Qc) :
  (∃ row, Main.payoff_row ids payoffs = Ok row) ↔ (length ids ≤ length payoffs)%nat.
Proof.
  unfold Main.payoff_row.
  rewrite (rfold_assign_succeeds _ _ (payoff_row_assigns payoffs)).
  rewrite Forall_lookup. split.
  - intros Hall. destruct (decide (length ids ≤ length payoffs)%nat); [done|].
    destruct (lookup_lt_is_Some_2 ids (length payoffs)) as [i Hi]; [lia|].
    destruct (Hall (length payoffs) (length payoffs, i)) as [kv Hkv].
    { by rewrite list_lookup_imap, Hi. }
    cbn in Hkv. unfold Py.index in Hkv.
    by rewrite (lookup_ge_None_2 payoffs) in Hkv.
  - intros Hlen n [idx i] Hn.
    apply list_lookup_imap_Some in Hn as (i' & Hi' & [= -> ->]).
    apply lookup_lt_Some in Hi'.
    destruct (lookup_lt_is_Some_2 payoffs n) as [v Hv]; [lia|].
    cbn. unfold Py.index. rewrite Hv. by eexists.
Qed.


Section ReconstructFacts.
Variable pm : Py.dict string (list Qc).
Variable pa : Py.dict string (list string).

Lemma parse_actions_assigns (acc : gmap Z (list string)) (i : Z) :
  (let* acts := Py.getitem pa (Py.str i) in Ok (<[i := acts]> acc))
  = rbind ((λ i, let* a := Py.getitem pa (Py.str i) in Ok (i, a)) i)
          (λ kv, Ok (<[kv.1 := kv.2]> acc)).
Proof. cbn. by destruct (Py.getitem pa (Py.str i)). Qed.

Lemma parse_payoff_matrix_assigns (ids : list Z) (acc : gmap (list string) (gmap Z Qc))
    (x : string * list Qc) :
  (let '(key, payoffs) := x in
   let profile := Py.split "," key in
   let* row := Main.payoff_row ids payoffs in
   Ok (<[profile := row]> acc))
  = rbind ((λ '(key, payoffs),
              let* row := Main.payoff_row ids payoffs in
              Ok (Py.split "," key, row)) x)
          (λ kv, Ok (<[kv.1 := kv.2]> acc)).
Proof. destruct x as [key payoffs]. cbn. by destruct (Main.payoff_row ids payoffs). Qed.

Lemma parse_actions_succeeds (ids : list Z) :
  (∃ acts, Main.parse_actions pa ids = Ok acts)
  ↔ ∀ i, i ∈ ids → is_Some (Py.get pa (Py.str i)).
Proof.
  unfold Main.parse_actions.
  rewrite (rfold_assign_succeeds _ _ parse_actions_assigns), Forall_forall.
  split; intros Hall i Hi; specialize (Hall i Hi); unfold Py.getitem in *.
  - destruct Hall as [kv Hkv]. by destruct (Py.get pa (Py.str i)).
  - destruct Hall as [a ->]. by eexists.
Qed.

Lemma parse_payoff_matrix_succeeds (ids : list Z) :
  (∃ table, Main.parse_payoff_matrix pm ids = Ok table)
  ↔ ∀ key payoffs, (key, payoffs) ∈ pm → (length ids ≤ length payoffs)%nat.
Proof.
  unfold Main.parse_payoff_matrix.
  rewrite (rfold_assign_succeeds _ _ (parse_payoff_matrix_assigns ids)),
    Forall_forall.
  split.
  - intros Hall key payoffs Hin. apply payoff_row_succeeds.
    destruct (Hall _ Hin) as [kv Hkv]. cbn in Hkv.
    destruct (Main.payoff_row ids payoffs); [by eexists | done].
  - intros Hall [key payoffs] Hin.
    destruct (proj2 (payoff_row_succeeds ids payoffs) (Hall _ _ Hin)) as [row Hrow].
    cbn. rewrite Hrow. by eexists.
Qed.


(** X13: when the keys of [player_actions] are 7-bit strings of at most
    4300 characters, the statements of the Nash and best-response handlers
    that read the request run through exactly when every key of
    [player_actions] is an integer literal, the decimal string of every
    parsed id is itself a key of [player_actions], and every payoff list has
    at least one value per key of [player_actions]; the ids they produce are
    the parsed keys in ascending order. *)
Theorem reconstruct_game_succeeds :
  Forall Py.plain_key pa.*1 →
  ((∃ parsed, Main.parsed_request pm pa = Ok parsed)
   ↔ ∃ raw,
       rmap Py.int pa.*1 = Ok raw
       ∧ (∀ i, i ∈ raw → is_Some (Py.get pa (Py.str i)))
       ∧ (∀ key payoffs, (key, payoffs) ∈ pm → (length pa ≤ length payoffs)%nat))
  ∧ (∀ parsed raw,
       Main.parsed_request pm pa = Ok parsed →
       rmap Py.int pa.*1 = Ok raw →
       parsed.1.1 = Py.sorted raw).
Proof.
  intros _. unfold Main.parsed_request, Main.parse_player_ids.
  split; [split|].
  - intros [parsed Hg].
    apply rbind_Ok in Hg as (ids & (raw & Hraw & ->)%rfmap_Ok & Hg).
    apply rbind_Ok in Hg as (acts & Hacts & Hg).
    apply rbind_Ok in Hg as (table & Htable & _).
    exists raw. split; [done|]. split.
    + intros i Hi. eapply parse_actions_succeeds; [by eexists|].
      by apply sorted_elem_of.
    + intros key payoffs Hin.
      rewrite <- (length_fmap fst pa), <- (rmap_length _ _ _ Hraw),
        <- (sorted_length raw).
      eapply parse_payoff_matrix_succeeds; [by eexists | done].
  - intros (raw & Hraw & Hkeys & Hlens). rewrite Hraw. cbn.
    destruct (proj2 (parse_actions_succeeds (Py.sorted raw))) as [acts ->].
    { intros i Hi. by apply Hkeys, sorted_elem_of. }
    destruct (proj2 (parse_payoff_matrix_succeeds (Py.sorted raw))) as [table ->].
    { intros key payoffs Hin.
      rewrite sorted_length, (rmap_length _ _ _ Hraw), length_fmap. eauto. }
    cbn. by eexists.
  - intros parsed raw Hg Hraw. rewrite Hraw in Hg. cbn in Hg.
    apply rbind_Ok in Hg as (acts & Hacts & Hg).
    apply rbind_Ok in Hg as (table & Htable & Hg).
    apply Ok_inj in Hg. by subst parsed.
Qed.

End ReconstructFacts.

Lemma rfold_ext_in {A B} (g g' : A → B → result A) l acc :
  (∀ acc x, x ∈ l → g acc x = g' acc x) → rfold g acc l = rfold g' acc l.
Proof.
  revert acc. induction l as [|x l IH]; intros acc Hext; cbn; [done|].
  rewrite (Hext acc x) by left. destruct (g' acc x) as [acc'|]; cbn; [|done].
  apply IH. intros acc0 y Hy. apply Hext. by right.
Qed.

Lemma rfold_fmap {A B C} (g : A → B → result A) (h : C → B) l acc :
  rfold g acc (h <$> l) = rfold (λ acc x, g acc (h x)) acc l.
Proof.
  revert acc. induction l as [|x l IH]; intros acc; cbn; [done|].
  destruct (g acc (h x)); cbn; [apply IH | done].
Qed.

Lemma payoff_row_take (ids : list Z) (payoffs : list Qc) n :
  (length ids ≤ n)%nat →
  Main.payoff_row ids (take n payoffs) = Main.payoff_row ids payoffs.
Proof.
  intros Hn. unfold Main.payoff_row. apply rfold_ext_in.
  intros acc [idx i] [k Hk]%list_elem_of_lookup.
  apply list_lookup_imap_Some in Hk as (i' & Hi' & [= -> ->]).
  apply lookup_lt_Some in Hi'. unfold Py.index.
  rewrite lookup_take_lt by lia. done.
Qed.

(** X15: payoff values beyond the number of players are never read:
    cutting every payoff list of a request down to any length that still
    covers the keys of [player_actions] changes nothing in the outcome,
    be it the rebuilt game or the error. *)
Theorem surplus_payoffs_dropped (pm : Py.dict string (list Qc))
    (pa : Py.dict string (list string)) n :
  (length pa ≤ n)%nat →
  Main.reconstruct_game ((λ kp, (kp.1, take n kp.2)) <$> pm) pa
  = Main.reconstruct_game pm pa.
Proof.
  intros Hn. unfold Main.reconstruct_game, Main.parse_player_ids.
  destruct (rmap Py.int pa.*1) as [raw|] eqn:Hraw; cbn; [|done].
  destruct (Main.parse_actions pa (Py.sorted raw)); cbn; [|done].
  replace (Main.parse_payoff_matrix ((λ kp, (kp.1, take n kp.2)) <$> pm)
             (Py.sorted raw))
    with (Main.parse_payoff_matrix pm (Py.sorted raw)); [done|].
  unfold Main.parse_payoff_matrix. rewrite rfold_fmap.
  apply rfold_ext_in. intros acc [key payoffs] _. cbn.
  rewrite payoff_row_take; [done|].
  by rewrite sorted_length, (rmap_length _ _ _ Hraw), length_fmap.
Qed.

(** X16: the rebuilt game has one player per key of [player_actions],
    each named after its id plus one and bound to the dummy strategy, an
    empty history, at most one action set per key and, the keys of the
    payoff matrix being distinct, exactly one table row per key: no two
    keys split into the same profile. *)
Theorem reconstructed_game_shape (pm : Py.dict string (list Qc))
    (pa : Py.dict string (list string)) g :
  Main.reconstruct_game pm pa = Ok g →
  length (NormalFormGame.players g) = length pa
  ∧ Forall (λ p, player_strategy p = Some DummyStrategy
                 ∧ player_name p = "Player " +:+ Py.str (player_id p + 1))
      (NormalFormGame.players g)
  ∧ NormalFormGame.history g = []
  ∧ (size (NormalFormGame.actions g) ≤ length pa)%nat
  ∧ (NoDup pm.*1 → size (NormalFormGame.payoff_matrix g) = length pm).
Proof.
  unfold Main.reconstruct_game, Main.parse_player_ids. intros Hg.
  apply rbind_Ok in Hg as (ids & (raw & Hraw & ->)%rfmap_Ok & Hg).
  apply rbind_Ok in Hg as (acts & Hacts & Hg).
  apply rbind_Ok in Hg as (table & Htable & [= <-]). cbn.
  assert (length (Py.sorted raw) = length pa) as Hlen
    by (by rewrite sorted_length, (rmap_length _ _ _ Hraw), length_fmap).
  split; [by unfold Main.dummy_players; rewrite length_fmap|].
  split; [by apply Forall_fmap, Forall_forall|].
  split; [done|]. split.
  - apply (rfold_assign _ _ (parse_actions_assigns pa)) in Hacts
      as (kvs & Hall & ->).
    etrans; [apply assign_all_size_le|].
    by rewrite map_size_empty, <- (Forall2_length _ _ _ Hall), Hlen.
  - intros Hnd.
    apply (rfold_assign _ _ (parse_payoff_matrix_assigns _)) in Htable
      as (kvs & Hall & ->).
    rewrite assign_all_size_NoDup, map_size_empty,
      <- (Forall2_length _ _ _ Hall); [done| |done].
    erewrite (Forall2_keys _ (λ x, Py.split "," x.1)); [|..|exact Hall].
    + replace ((λ x : string * list Qc, Py.split "," x.1) <$> pm)
        with (Py.split "," <$> pm.*1) by (by rewrite <- list_fmap_compose).
      by apply NoDup_fmap; [apply _|].
    + intros [key payoffs] kv. cbn.
      destruct (Main.payoff_row _ payoffs); cbn; [by intros [= <-] | done].
Qed.

(** ** The factory: dispatch, strategies, parameters *)

Section FactoryDispatch.
Context {G : Type} `{Game G}.
Variable AVAILABLE_GAMES : gmap string GameFactory.game_info.
Variable create_prisoners_dilemma :
  option (list string) → option (list Strategy) → json → result G.
Variable create_cournot_game :
  option (list string) → json → json → json → result G.
Variable create_auction_game :
  option (list string) → json → json → result G.
Variable random_source : nat → nat.

Local Abbreviation create_strategy := (GameFactory.create_strategy random_source).
Local Abbreviation create_game_from_template :=
  (GameFactory.create_game_from_template AVAILABLE_GAMES
     create_prisoners_dilemma create_cournot_game create_auction_game
     random_source).
Local Abbreviation create_game :=
  (Main.create_game AVAILABLE_GAMES
     create_prisoners_dilemma create_cournot_game create_auction_game
     random_source).

Lemma strategy_instances_registered strategies :
  all_registered strategies →
  ∃ instances,
    match strategies with
    | None | Some [] => Ok None
    | Some names => rfmap Some (rmap create_strategy names)
    end = Ok instances.
Proof.
  intros Hreg. destruct strategies as [[|n names]|]; [by eexists| |by eexists].
  destruct (create_strategies_registered random_source _ Hreg) as [instances ->].
  by eexists.
Qed.

(** X17: a game type that is listed in [AVAILABLE_GAMES] but is none of
    the three the factory has a branch for.  The strategy names are checked
    first: when one of them is not registered, the factory refuses the first
    such name with [ValueError] "Unknown strategy"; when all are registered,
    or none is given, it refuses the type with [ValueError] "Unsupported game
    type".  The create endpoint answers either with 400 and that message and
    stores nothing, whatever the templates would do. *)
Theorem unsupported_game_type uuid (request : CreateGameRequest.t)
    (st : SessionManager.t G) :
  CreateGameRequest.game_type request ∈ dom AVAILABLE_GAMES →
  CreateGameRequest.game_type request ∉ handled_game_types →
  (all_registered (CreateGameRequest.strategies request) →
   create_game_from_template
     (CreateGameRequest.game_type request) (CreateGameRequest.params request)
     (CreateGameRequest.player_names request) (CreateGameRequest.strategies request)
   = Raise (ValueError ("Unsupported game type: "
                        +:+ CreateGameRequest.game_type request))
   ∧ create_game uuid request st
     = (HTTPException 400
          ("Unsupported game type: " +:+ CreateGameRequest.game_type request), st))
  ∧ (∀ known name rest,
       CreateGameRequest.strategies request = Some (known ++ name :: rest) →
       Forall (λ n, n ∈ registered_strategies) known →
       name ∉ registered_strategies →
       create_game_from_template
         (CreateGameRequest.game_type request) (CreateGameRequest.params request)
         (CreateGameRequest.player_names request)
         (CreateGameRequest.strategies request)
       = Raise (ValueError ("Unknown strategy: " +:+ name))
       ∧ create_game uuid request st
         = (HTTPException 400 ("Unknown strategy: " +:+ name), st)).
Proof.
  intros Hin Hnot. split.
  - intros Hreg.
    assert (create_game_from_template
              (CreateGameRequest.game_type request) (CreateGameRequest.params request)
              (CreateGameRequest.player_names request)
              (CreateGameRequest.strategies request)
            = Raise (ValueError ("Unsupported game type: "
                                 +:+ CreateGameRequest.game_type request))) as Hraise.
    { unfold GameFactory.create_game_from_template.
      rewrite bool_decide_eq_false_2 by (by intros ?).
      destruct (strategy_instances_registered _ Hreg) as [instances ->]. cbn.
      unfold handled_game_types in Hnot. rewrite !not_elem_of_cons in Hnot.
      destruct Hnot as (? & ? & ? & _). by rewrite !decide_False. }
    split; [done|]. unfold Main.create_game. by rewrite Hraise.
  - intros known name rest Hstrat Hknown Hname.
    assert (create_game_from_template
              (CreateGameRequest.game_type request) (CreateGameRequest.params request)
              (CreateGameRequest.player_names request)
              (CreateGameRequest.strategies request)
            = Raise (ValueError ("Unknown strategy: " +:+ name))) as Hraise.
    { unfold GameFactory.create_game_from_template.
      rewrite bool_decide_eq_false_2 by (by intros ?).
      rewrite Hstrat.
      rewrite (create_strategies_first_unknown _ _ _ rest Hknown Hname).
      by destruct known. }
    split; [done|]. unfold Main.create_game. by rewrite Hraise.
Qed.

(** X18: how the factory treats [strategies].  An empty list counts as
    no list; the Cournot and auction branches check the names and then
    drop them, so any two lists of registered names give the same game;
    the Prisoners' Dilemma template receives one instance per name, in
    order, of the class registered under that name. *)
Theorem factory_strategies (game_type : string) (params : Py.dict string json)
    (player_names : option (list string)) :
  create_game_from_template game_type params player_names (Some [])
  = create_game_from_template game_type params player_names None
  ∧ (∀ s1 s2,
       game_type ∈ ["cournot"; "auction"] →
       all_registered s1 → all_registered s2 →
       create_game_from_template game_type params player_names s1
       = create_game_from_template game_type params player_names s2)
  ∧ (∀ name names,
       "prisoners_dilemma" ∈ dom AVAILABLE_GAMES →
       Forall (λ n, n ∈ registered_strategies) (name :: names) →
       ∃ instances,
         Forall2 (λ n s, ∃ c, Py.get GameFactory.STRATEGY_MAP n = Some c
                              ∧ s = GameFactory.instantiate random_source c)
           (name :: names) instances
         ∧ create_game_from_template "prisoners_dilemma" params player_names
             (Some (name :: names))
           = create_prisoners_dilemma player_names (Some instances)
               (GameFactory.param params "payoffs")).
Proof.
  split; [done|]. split.
  - intros s1 s2 Hgt Hs1 Hs2. unfold GameFactory.create_game_from_template.
    case_bool_decide; [done|].
    destruct (strategy_instances_registered _ Hs1) as [i1 ->].
    destruct (strategy_instances_registered _ Hs2) as [i2 ->]. cbn.
    repeat (apply elem_of_cons in Hgt as [->|Hgt]; [done|]).
    by apply elem_of_nil in Hgt.
  - intros name names Hin Hreg. unfold GameFactory.create_game_from_template.
    rewrite bool_decide_eq_false_2 by (by intros ?).
    assert (∃ instances,
              rmap create_strategy (name :: names) = Ok instances
              ∧ Forall2 (λ n s, ∃ c, Py.get GameFactory.STRATEGY_MAP n = Some c
                                     ∧ s = GameFactory.instantiate random_source c)
                  (name :: names) instances) as (instances & Hmap & Hall).
    { induction Hreg as [|n ns Hn _ (instances & IH & Hall)]; [by exists []|].
      destruct (create_strategy_registered random_source _ Hn) as (c & Hc & Hs & _).
      exists (GameFactory.instantiate random_source c :: instances). split.
      - cbn [rmap]. rewrite Hs. cbn. by rewrite IH.
      - constructor; [by exists c | done]. }
    exists instances. split; [done|]. by rewrite Hmap.
Qed.
End FactoryDispatch.

(** ** What the play endpoint does with an exception of the game *)

Section PlayErrors.
Context {G : Type} `{Game G}.
Implicit Types st : SessionManager.t G.

(** X20: when the game raises, what it did to itself before raising stays
    in the store; a [ValueError] or [KeyError] is answered with 400
    "Invalid action: " and its message, an [IndexError] or a
    [NotImplementedError] is not caught and is answered with 500. *)
Theorem play_round_errors sid request st session actions e game' :
  SessionManager.get_session sid st = Some session →
  Py.int_keys (PlayRoundRequest.actions request) = Ok actions →
  game_play_round actions (SessionManager.game session) = (Raise e, game') →
  (Main.play_round sid request st).2 = Main.put_game sid session game' st
  ∧ ((∃ msg, e = ValueError msg) ∨ (∃ key, e = KeyError key) →
     (Main.play_round sid request st).1
     = HTTPException 400 ("Invalid action: " +:+ exn_str e))
  ∧ ((∃ msg, e = IndexError msg) ∨ e = NotImplementedError →
     (Main.play_round sid request st).1 = uncaught).
Proof.
  intros Hs Hint Hgame. unfold Main.play_round. rewrite Hs, Hint, Hgame.
  split; [by destruct (is_KeyError e || is_ValueError e)|].
  split.
  - by intros [[msg ->]|[key ->]].
  - by intros [[msg ->]| ->].
Qed.
End PlayErrors.

(** ** The further properties on concrete requests *)

Lemma create_session_replaces_witness :
  length (SessionManager.list_sessions
            (SessionManager.create_session "fresh" (Some "s1")
               (pd_game ["D"; "C"] ["C"; "D"]) "prisoners_dilemma"
               (one_session (pd_game ["C"; "D"] ["C"; "D"]))).2)
  = length (SessionManager.list_sessions
              (one_session (pd_game ["C"; "D"] ["C"; "D"]))).
Proof.
  destruct (create_session_replaces "fresh" (Some "s1")
              (pd_game ["D"; "C"] ["C"; "D"]) "prisoners_dilemma"
              (one_session (pd_game ["C"; "D"] ["C"; "D"])))
    as (_ & _ & Hsame & _).
  apply Hsame. refine (bool_decide_unpack _ _). vm_compute. exact I.
Defined.

Lemma delete_session_undoes_create_witness :
  SessionManager.delete_session "fresh"
    (SessionManager.create_session "fresh" None
       (pd_game ["D"; "C"] ["C"; "D"]) "prisoners_dilemma"
       (one_session (pd_game ["C"; "D"] ["C"; "D"]))).2
  = (true, one_session (pd_game ["C"; "D"] ["C"; "D"])).
Proof.
  apply (proj1 (delete_session_undoes_create "fresh" None
                  (pd_game ["D"; "C"] ["C"; "D"]) "prisoners_dilemma"
                  (one_session (pd_game ["C"; "D"] ["C"; "D"])) "s1")).
  vm_compute. reflexivity.
Defined.

Lemma serialize_game_state_keys_witness :
  Py.get (Main.serialize_game_state (H := plain_normal_form)
            (pd_game ["C"; "D"] ["C"; "D"])) "history"
  = Py.get (game_get_state (Game := plain_normal_form)
              (pd_game ["C"; "D"] ["C"; "D"])) "history".
Proof.
  apply (serialize_game_state_keys (H := plain_normal_form)
           (pd_game ["C"; "D"] ["C"; "D"])).
  refine (bool_decide_unpack _ _). vm_compute. exact I.
Defined.

Lemma session_not_found_witness :
  Main.reset_game (H := plain_normal_form) "s2"
    (one_session (pd_game ["C"; "D"] ["C"; "D"]))
  = (HTTPException 404 "Session not found",
     one_session (pd_game ["C"; "D"] ["C"; "D"])).
Proof.
  apply (proj1 (session_not_found (H := plain_normal_form) "s2"
                  (PlayRoundRequest.Make []) (SimulateRequest.Make 1 None)
                  (one_session (pd_game ["C"; "D"] ["C"; "D"])))).
  vm_compute. reflexivity.
Defined.

Lemma read_after_write_witness :
  ∃ response st',
    Main.reset_game (H := plain_normal_form) "s1"
      (one_session (repeated_pd AlwaysCooperate one_defection))
    = (Response response, st')
    ∧ ∃ session,
        SessionManager.get_session "s1"
          (one_session (repeated_pd AlwaysCooperate one_defection))
        = Some session
        ∧ Main.reset_message response = "Game reset successfully"
        ∧ Main.get_game_session (H := plain_normal_form) "s1" st'
          = (Response (Main.SessionView "s1" (SessionManager.game_type session)
                         (Main.reset_game_state response)), st').
Proof.
  eexists _, _. split; [reflexivity|].
  apply (proj2 (read_after_write (H := plain_normal_form) "s1"
                  (PlayRoundRequest.Make [])
                  (one_session (repeated_pd AlwaysCooperate one_defection)))).
  reflexivity.
Defined.

Lemma create_game_effect_witness :
  Main.create_game (H := plain_normal_form) three_templates
    (λ _ _ _, Raise (KeyError "payoffs"))
    (λ _ _ _ _, Ok (pd_game ["C"; "D"] ["C"; "D"]))
    (λ _ _ _, Ok (pd_game ["C"; "D"] ["C"; "D"]))
    (λ _, 0%nat) "id"
    (CreateGameRequest.Make "prisoners_dilemma" [] None None)
    (one_session (pd_game ["C"; "D"] ["C"; "D"]))
  = (HTTPException 500 "Internal server error: 'payoffs'",
     one_session (pd_game ["C"; "D"] ["C"; "D"])).
Proof.
  destruct (proj1 (create_game_effect (H := plain_normal_form) three_templates
                     (λ _ _ _, Raise (KeyError "payoffs"))
                     (λ _ _ _ _, Ok (pd_game ["C"; "D"] ["C"; "D"]))
                     (λ _ _ _, Ok (pd_game ["C"; "D"] ["C"; "D"]))
                     (λ _, 0%nat) "id"
                     (CreateGameRequest.Make "prisoners_dilemma" [] None None)
                     (one_session (pd_game ["C"; "D"] ["C"; "D"])))
              (KeyError "payoffs"))
    as (Hstore & _ & Hanswer).
  - vm_compute. reflexivity.
  - rewrite (surjective_pairing (Main.create_game _ _ _ _ _ _ _ _)).
    rewrite Hstore, Hanswer by (right; left; by eexists).
    reflexivity.
Defined.

Lemma int_keys_last_wins_witness :
  ∃ m, Py.int_keys [("0", "C"); ("00", "D")] = Ok m ∧ m !! 0 = Some "D".
Proof.
  eexists. split; [vm_compute; reflexivity|].
  eapply (int_keys_last_wins [("0", "C"); ("00", "D")]).
  - vm_compute. reflexivity.
  - instantiate (1 := "00"). instantiate (1 := 1%nat). reflexivity.
  - reflexivity.
  - intros k' v' Hin. by apply elem_of_nil in Hin.
Defined.

Lemma non_integer_key_witness :
  Main.compute_cournot_equilibrium
    (CournotEquilibriumRequest.Make (Qc_of_Z 100) (Qc_of_Z 1)
       ([("0", Qc_of_Z 10)] ++ ("firm's", Qc_of_Z 10) :: []))
    (SessionManager.init (Game := NormalFormGame.t))
  = (HTTPException 400
       ("Invalid request: invalid literal for int() with base 10: "
        +:+ String Py.double_quote ("firm's" +:+ String Py.double_quote "")),
     SessionManager.init)
  ∧ Main.play_round (H := plain_normal_form) "s1"
      (PlayRoundRequest.Make ([("0", "C")] ++ ("one", "D") :: []))
      (one_session (pd_game ["C"; "D"] ["C"; "D"]))
    = (uncaught, one_session (pd_game ["C"; "D"] ["C"; "D"])).
Proof.
  split.
  - apply (proj1 (non_integer_key (H := plain_normal_form) "firm's"
                    ltac:(refine (bool_decide_unpack _ _); vm_compute; exact I)
                    ltac:(intros i; vm_compute; discriminate))).
    constructor; [|constructor]. split; [|by exists 0].
    refine (bool_decide_unpack _ _). vm_compute. exact I.
  - apply (proj2 (non_integer_key (H := plain_normal_form) "one"
                    ltac:(refine (bool_decide_unpack _ _); vm_compute; exact I)
                    ltac:(intros i; vm_compute; discriminate))).
    + constructor; [|constructor]. split; [|by exists 0].
      refine (bool_decide_unpack _ _). vm_compute. exact I.
    + refine (bool_decide_unpack _ _). vm_compute. exact I.
Defined.

Lemma reconstruct_game_succeeds_witness :
  ∃ parsed,
    Main.parsed_request pd_payoff_matrix pd_player_actions = Ok parsed
    ∧ parsed.1.1 = Py.sorted [0; 1].
Proof.
  destruct (reconstruct_game_succeeds pd_payoff_matrix pd_player_actions)
    as [Hiff Hids].
  { refine (bool_decide_unpack _ _). vm_compute. exact I. }
  destruct (proj2 Hiff) as [parsed Hparsed].
  { exists [0; 1]. split; [reflexivity|]. split.
    - intros i Hi. repeat (apply elem_of_cons in Hi as [->|Hi]; [by eexists|]).
      by apply elem_of_nil in Hi.
    - intros key payoffs Hin.
      repeat (apply elem_of_cons in Hin as [[= -> ->]|Hin]; [cbn; lia|]).
      by apply elem_of_nil in Hin. }
  exists parsed. split; [exact Hparsed|].
  apply Hids; [exact Hparsed | reflexivity].
Defined.


Lemma surplus_payoffs_dropped_witness :
  Main.reconstruct_game
    ((λ kp, (kp.1, take 2 kp.2)) <$> pd_payoff_matrix_surplus) pd_player_actions
  = Main.reconstruct_game pd_payoff_matrix_surplus pd_player_actions.
Proof.
  apply (surplus_payoffs_dropped pd_payoff_matrix_surplus pd_player_actions 2).
  cbn. lia.
Defined.

Lemma reconstructed_game_shape_witness :
  length (NormalFormGame.players (pd_game ["C"; "D"] ["C"; "D"])) = 2%nat
  ∧ size (NormalFormGame.payoff_matrix (pd_game ["C"; "D"] ["C"; "D"])) = 4%nat.
Proof.
  destruct (reconstructed_game_shape pd_payoff_matrix pd_player_actions
              (pd_game ["C"; "D"] ["C"; "D"]))
    as (Hplayers & _ & _ & _ & Hsize).
  - vm_compute. reflexivity.
  - split; [exact Hplayers|]. apply Hsize.
    refine (bool_decide_unpack _ _). vm_compute. exact I.
Defined.

Lemma unsupported_game_type_witness :
  Main.create_game (H := plain_normal_form) four_templates
    (λ _ _ _, Ok (pd_game ["C"; "D"] ["C"; "D"]))
    (λ _ _ _ _, Ok (pd_game ["C"; "D"] ["C"; "D"]))
    (λ _ _ _, Ok (pd_game ["C"; "D"] ["C"; "D"]))
    (λ _, 0%nat) "id"
    (CreateGameRequest.Make "custom" [] None (Some ["TitForTat"]))
    SessionManager.init
  = (HTTPException 400 "Unsupported game type: custom", SessionManager.init)
  ∧ Main.create_game (H := plain_normal_form) four_templates
      (λ _ _ _, Ok (pd_game ["C"; "D"] ["C"; "D"]))
      (λ _ _ _ _, Ok (pd_game ["C"; "D"] ["C"; "D"]))
      (λ _ _ _, Ok (pd_game ["C"; "D"] ["C"; "D"]))
      (λ _, 0%nat) "id"
      (CreateGameRequest.Make "custom" [] None (Some ["TitForTat"; "Pavlov"]))
      SessionManager.init
    = (HTTPException 400 "Unknown strategy: Pavlov", SessionManager.init).
Proof.
  split.
  - apply (unsupported_game_type (H := plain_normal_form) four_templates
             (λ _ _ _, Ok (pd_game ["C"; "D"] ["C"; "D"]))
             (λ _ _ _ _, Ok (pd_game ["C"; "D"] ["C"; "D"]))
             (λ _ _ _, Ok (pd_game ["C"; "D"] ["C"; "D"]))
             (λ _, 0%nat) "id"
             (CreateGameRequest.Make "custom" [] None (Some ["TitForTat"]))).
    + refine (bool_decide_unpack _ _). vm_compute. exact I.
    + refine (bool_decide_unpack _ _). vm_compute. exact I.
    + refine (bool_decide_unpack _ _). vm_compute. exact I.
  - refine (proj2 (proj2 (unsupported_game_type (H := plain_normal_form)
                     four_templates
                     (λ _ _ _, Ok (pd_game ["C"; "D"] ["C"; "D"]))
                     (λ _ _ _ _, Ok (pd_game ["C"; "D"] ["C"; "D"]))
                     (λ _ _ _, Ok (pd_game ["C"; "D"] ["C"; "D"]))
                     (λ _, 0%nat) "id"
                     (CreateGameRequest.Make "custom" [] None
                        (Some ["TitForTat"; "Pavlov"]))
                     SessionManager.init _ _)
                   ["TitForTat"] "Pavlov" [] _ _ _)).
    + refine (bool_decide_unpack _ _). vm_compute. exact I.
    + refine (bool_decide_unpack _ _). vm_compute. exact I.
    + reflexivity.
    + refine (bool_decide_unpack _ _). vm_compute. exact I.
    + refine (bool_decide_unpack _ _). vm_compute. exact I.
Defined.

Lemma factory_strategies_witness :
  GameFactory.create_game_from_template three_templates
    (λ _ _ _, Raise (ValueError "not a Cournot game"))
    (λ _ intercept slope _, Ok (intercept, slope))
    (λ _ _ _, Raise (ValueError "not a Cournot game"))
    (λ _, 0%nat) "cournot" [] None (Some ["TitForTat"; "GrimTrigger"])
  = GameFactory.create_game_from_template three_templates
      (λ _ _ _, Raise (ValueError "not a Cournot game"))
      (λ _ intercept slope _, Ok (intercept, slope))
      (λ _ _ _, Raise (ValueError "not a Cournot game"))
      (λ _, 0%nat) "cournot" [] None None.
Proof.
  apply (factory_strategies (G := json * json) three_templates
           (λ _ _ _, Raise (ValueError "not a Cournot game"))
           (λ _ intercept slope _, Ok (intercept, slope))
           (λ _ _ _, Raise (ValueError "not a Cournot game"))
           (λ _, 0%nat) "cournot" [] None).
  - left.
  - refine (bool_decide_unpack _ _). vm_compute. exact I.
  - exact I.
Defined.

Lemma play_round_errors_witness :
  Main.play_round (H := refusing_game (KeyError "2")) "s1"
    (PlayRoundRequest.Make [("0", "C"); ("1", "D")]) (one_refusing_session 0)
  = (HTTPException 400 "Invalid action: '2'", one_refusing_session 1)
  ∧ Main.play_round (H := refusing_game (IndexError "list index out of range"))
      "s1" (PlayRoundRequest.Make [("0", "C"); ("1", "D")])
      (one_refusing_session 0)
    = (uncaught, one_refusing_session 1).
Proof.
  split.
  - destruct (play_round_errors (H := refusing_game (KeyError "2")) "s1"
                (PlayRoundRequest.Make [("0", "C"); ("1", "D")])
                (one_refusing_session 0)
                (SessionManager.Session 0%nat "refusing" None)
                (<[0 := "C"]> (<[1 := "D"]> ∅)) (KeyError "2") 1%nat)
      as (Hstore & Hcaught & _).
    + vm_compute. reflexivity.
    + vm_compute. reflexivity.
    + reflexivity.
    + rewrite (surjective_pairing (Main.play_round _ _ _)).
      rewrite Hstore, Hcaught by (right; by eexists).
      vm_compute. reflexivity.
  - destruct (play_round_errors
                (H := refusing_game (IndexError "list index out of range")) "s1"
                (PlayRoundRequest.Make [("0", "C"); ("1", "D")])
                (one_refusing_session 0)
                (SessionManager.Session 0%nat "refusing" None)
                (<[0 := "C"]> (<[1 := "D"]> ∅))
                (IndexError "list index out of range") 1%nat)
      as (Hstore & _ & Huncaught).
    + vm_compute. reflexivity.
    + vm_compute. reflexivity.
    + reflexivity.
    + rewrite (surjective_pairing (Main.play_round _ _ _)).
      rewrite Hstore, Huncaught by (left; by eexists).
      vm_compute. reflexivity.
Defined.
